(** * Hit-song predictor: a shallow embedding of the prediction backend

    The development follows the Python sources of the Django application
    [backend/predictions]:

    - [inference.py]        ([prepare_features], [predict_song]),
    - [spotify_service.py]  ([SpotifyService]),
    - [models.py]           ([Song], [Prediction], [PredictionAuditLog]),
    - [views.py]            ([predict_from_spotify], [predict_manual]),
    - [management/commands/import_dataset.py] ([Command.handle]).

    Python floats are IEEE binary64 numbers and are embedded as Rocq's
    primitive floats, and so are NumPy's [float64] numbers, which the
    classifier returns and which round differently; Python integers are
    [Z]; strings are [string].
    Exceptions are explicit: a computation returns [Ok v] or [Raise e].
    Database tables are lists of rows, newest row first (the models are
    ordered by [-created_at]); a write that the handler performed stays in
    the database when a later statement raises, since the views open no
    transaction. *)

From Stdlib Require Import ZArith List String Ascii Bool Lia.
From Stdlib Require Import Floats.
From Stdlib Require Import Permutation Sorted.
Import ListNotations.

Local Open Scope string_scope.
Local Open Scope list_scope.
Local Open Scope Z_scope.

Set Implicit Arguments.
Set Warnings "-register-all,-inexact-float".

(* ================================================================= *)
(** ** Python: exceptions, numbers and strings *)

Module Py.

(** The [ValueError]s that the application raises itself carry their
    meaning; [BuiltinValueError] is one raised by a builtin ([int],
    [float]) or by a library. *)
Inductive value_error : Type :=
| TrackNotFound                            (* _make_request, HTTP 404 *)
| FeaturesUnavailable (title artist : string)  (* get_audio_features *)
| CredentialsNotConfigured                 (* _get_access_token *)
| BuiltinValueError.

Inductive exn : Type :=
| ValueError (why : value_error)
| TypeError
| KeyError (key : string)
| IndexError
| OverflowError
| AttributeError
| FileNotFoundError
| HTTPError
| MultipleObjectsReturned
| DatabaseError.

Inductive result (A : Type) : Type :=
| Ok (a : A)
| Raise (e : exn).

Arguments Ok {A} a.
Arguments Raise {A} e.

Definition bind {A B : Type} (r : result A) (k : A -> result B) : result B :=
  match r with
  | Ok a => k a
  | Raise e => Raise e
  end.

Definition is_ok {A : Type} (r : result A) : bool :=
  match r with Ok _ => true | Raise _ => false end.

(** *** Floats *)

(** The double nearest to an integer, ties to even (an infinity when the
    integer is too large). *)
Definition float_of_Z (z : Z) : float :=
  SF2Prim (binary_normalize prec emax z 0 false).

Definition is_nan (f : float) : bool :=
  match Prim2SF f with S754_nan => true | _ => false end.

Definition is_inf (f : float) : bool :=
  match Prim2SF f with S754_infinity _ => true | _ => false end.

(** [float(n)] for an integer [n]: [OverflowError] when [n] is too large
    for a double. *)
Definition float_of_int (z : Z) : result float :=
  let f := float_of_Z z in
  if is_inf f then Raise OverflowError else Ok f.

(** [int(x)] for a float [x]: truncation towards zero. *)
Definition int_of_float (f : float) : result Z :=
  match Prim2SF f with
  | S754_zero _ => Ok 0
  | S754_infinity _ => Raise OverflowError
  | S754_nan => Raise (ValueError BuiltinValueError)
  | S754_finite s m e =>
      let a := Z.shiftl (Zpos m) e in
      Ok (if s then - a else a)
  end.

(** The nearest integer to [n / d] (for [0 <= n], [0 < d]), ties to even. *)
Definition round_half_even (n d : Z) : Z :=
  let q := n / d in
  let r := n mod d in
  match 2 * r ?= d with
  | Lt => q
  | Gt => q + 1
  | Eq => if Z.even q then q else q + 1
  end.

(** [round(x, 2)]: the exact value of [x] is rounded to two decimals, ties
    to even, and the decimal result is read back as the nearest double.
    Infinities and NaN round to themselves; the sign of a zero is kept. *)
Definition round2 (x : float) : float :=
  match Prim2SF x with
  | S754_finite s m e =>
      let n := if 0 <=? e
               then Zpos m * 2 ^ e * 100
               else round_half_even (Zpos m * 100) (2 ^ (- e)) in
      match n with
      | Zpos p => SF2Prim (SFdiv prec emax (S754_finite s p 0) (S754_finite false 100 0))
      | _ => SF2Prim (S754_zero s)
      end
  | _ => x
  end.

(** [max(a, b)] and [min(a, b)] keep the first argument unless the second
    is strictly greater (smaller). *)
Definition max (a b : float) : float := if PrimFloat.ltb a b then b else a.
Definition min (a b : float) : float := if PrimFloat.ltb b a then b else a.

(** *** NumPy's [float64]

    [numpy.rint]: the integer nearest to the exact value of [x], ties to
    even, as a double ([x] itself when it has no fractional part, is
    infinite or is NaN); the sign of [x] is kept. *)
Definition rint (x : float) : float :=
  match Prim2SF x with
  | S754_finite s m e =>
      if 0 <=? e then x
      else
        match round_half_even (Zpos m) (2 ^ (- e)) with
        | Zpos p => float_of_Z (if s then Zneg p else Zpos p)
        | _ => SF2Prim (S754_zero s)
        end
  | _ => x
  end.

(** [round(x, 2)] for a [numpy.float64]: NumPy multiplies by 100, rounds
    to the nearest integer and divides by 100, each step in double
    arithmetic.  The builtin [round] of a Python float rounds the exact
    decimal value instead, and the two differ: 57.455 is 57.46 here and
    57.45 there. *)
Definition round2_float64 (x : float) : float := (rint (x * 100) / 100)%float.

(** A floating-point number with its Python type: the builtin [float], or
    [numpy.float64], the type of the entries of the array that
    [predict_proba] returns.  Both hold a double and they add, multiply and
    compare alike, an operation between the two giving a [float64]; only
    [round] tells them apart. *)
Inductive number : Type :=
| Float (x : float)
| Float64 (x : float).

Definition value (n : number) : float :=
  match n with Float x => x | Float64 x => x end.

(** [n * k] and [n + k], where [k] is a Python number. *)
Definition times (n : number) (k : float) : number :=
  match n with
  | Float x => Float (x * k)
  | Float64 x => Float64 (x * k)
  end.

Definition plus (n : number) (k : float) : number :=
  match n with
  | Float x => Float (x + k)
  | Float64 x => Float64 (x + k)
  end.

(** [round(n, 2)] *)
Definition round_2 (n : number) : number :=
  match n with
  | Float x => Float (round2 x)
  | Float64 x => Float64 (round2_float64 x)
  end.

(** [max(a, n)] and [min(a, n)] for a literal [a]: the result is the
    literal, a Python float, or the object [n]. *)
Definition max_of (a : float) (n : number) : number :=
  if PrimFloat.ltb a (value n) then n else Float a.

Definition min_of (a : float) (n : number) : number :=
  if PrimFloat.ltb (value n) a then n else Float a.

(** *** Strings (ASCII) *)

Definition lower_ascii (c : ascii) : ascii :=
  let n := nat_of_ascii c in
  if andb (Nat.leb 65 n) (Nat.leb n 90) then ascii_of_nat (n + 32)%nat else c.

Fixpoint lower (s : string) : string :=
  match s with
  | EmptyString => EmptyString
  | String c s' => String (lower_ascii c) (lower s')
  end.

Definition is_space (c : ascii) : bool :=
  let n := nat_of_ascii c in
  orb (andb (Nat.leb 9 n) (Nat.leb n 13))
      (orb (andb (Nat.leb 28 n) (Nat.leb n 31)) (Nat.eqb n 32)).

Fixpoint lstrip (s : string) : string :=
  match s with
  | EmptyString => EmptyString
  | String c s' => if is_space c then lstrip s' else s
  end.

Fixpoint rstrip (s : string) : string :=
  match s with
  | EmptyString => EmptyString
  | String c s' =>
      match rstrip s' with
      | EmptyString => if is_space c then EmptyString else String c EmptyString
      | t => String c t
      end
  end.

Definition strip (s : string) : string := rstrip (lstrip s).

Fixpoint startswith (p s : string) : bool :=
  match p, s with
  | EmptyString, _ => true
  | String a p', String b s' => andb (Ascii.eqb a b) (startswith p' s')
  | String _ _, EmptyString => false
  end.

(** [needle in hay]. *)
Fixpoint contains (needle hay : string) : bool :=
  orb (startswith needle hay)
      (match hay with
       | EmptyString => false
       | String _ hay' => contains needle hay'
       end).

(** [s.split(sep)] for a non-empty separator: [skip] counts the characters
    of a separator that was just found and are still to be passed over. *)
Fixpoint split_go (sep : string) (skip : nat) (cur : string) (s : string)
  : list string :=
  match s with
  | EmptyString => [cur]
  | String c s' =>
      match skip with
      | S k => split_go sep k cur s'
      | O =>
          if startswith sep s
          then cur :: split_go sep (String.length sep - 1)%nat EmptyString s'
          else split_go sep O (cur ++ String c EmptyString)%string s'
      end
  end.

Definition split (sep s : string) : list string := split_go sep O EmptyString s.

Definition first (l : list string) : string := hd EmptyString l.
Definition last_item (l : list string) : string := List.last l EmptyString.

(** [sep.join(l)]. *)
Fixpoint join (sep : string) (l : list string) : string :=
  match l with
  | [] => EmptyString
  | [x] => x
  | x :: rest => (x ++ sep ++ join sep rest)%string
  end.

(** Truthiness of a string: non-empty. *)
Definition truthy (s : string) : bool :=
  match s with EmptyString => false | _ => true end.

Definition opt_truthy (o : option string) : bool :=
  match o with Some s => truthy s | None => false end.

(** *** Numbers read from strings

    [int(s)] and [float(s)] on a string: surrounding whitespace is dropped,
    a sign may come first, digits may be separated by single underscores.
    (Strings are ASCII here, and the interpreter's limit on the length of
    an integer literal is left out.) *)

Definition is_digit (c : ascii) : bool :=
  let n := nat_of_ascii c in andb (Nat.leb 48 n) (Nat.leb n 57).

Definition digit_val (c : ascii) : Z := Z.of_nat (nat_of_ascii c) - 48.

Definition underscore : ascii := ascii_of_nat 95.

(** Reads on after a digit: the value so far, the number of digits read,
    and what is left. *)
Fixpoint digitpart_go (acc : Z) (n : nat) (s : string) : Z * nat * string :=
  match s with
  | EmptyString => (acc, n, s)
  | String c s' =>
      if is_digit c then digitpart_go (acc * 10 + digit_val c) (S n) s'
      else if Ascii.eqb c underscore then
        match s' with
        | String c2 s'' =>
            if is_digit c2
            then digitpart_go (acc * 10 + digit_val c2) (S n) s''
            else (acc, n, s)
        | EmptyString => (acc, n, s)
        end
      else (acc, n, s)
  end.

Definition digitpart (s : string) : option (Z * nat * string) :=
  match s with
  | String c s' =>
      if is_digit c then Some (digitpart_go (digit_val c) 1 s') else None
  | EmptyString => None
  end.

(** An optional sign: [true] for a minus. *)
Definition read_sign (s : string) : bool * string :=
  match s with
  | String c s' =>
      if Ascii.eqb c "-"%char then (true, s')
      else if Ascii.eqb c "+"%char then (false, s')
      else (false, s)
  | EmptyString => (false, s)
  end.

Definition int_of_string (s : string) : result Z :=
  let (neg, t) := read_sign (strip s) in
  match digitpart t with
  | Some (v, _, EmptyString) => Ok (if neg then - v else v)
  | _ => Raise (ValueError BuiltinValueError)
  end.

(** The double nearest to [m * 10 ^ e] with sign [neg]. *)
Definition float_of_decimal (neg : bool) (m e : Z) : float :=
  match m with
  | Zpos _ =>
      if (0 <=? e)%Z
      then SF2Prim (binary_normalize prec emax (if neg then - (m * 10 ^ e) else m * 10 ^ e) 0 false)
      else
        match m, 10 ^ (- e) with
        | Zpos pm, Zpos pd =>
            SF2Prim (SFdiv prec emax (S754_finite neg pm 0) (S754_finite false pd 0))
        | _, _ => SF2Prim (S754_zero neg)
        end
  | _ => SF2Prim (S754_zero neg)
  end.

(** The fraction after a point, if any: its digits' value, their number,
    and the rest. *)
Definition read_fraction (s : string) : Z * nat * string :=
  match s with
  | String c s' =>
      if Ascii.eqb c "."%char then
        match digitpart s' with
        | Some r => r
        | None => (0, O, s')
        end
      else (0, O, s)
  | EmptyString => (0, O, s)
  end.

(** The exponent, if any: [None] when an exponent mark is not followed by
    digits. *)
Definition read_exponent (s : string) : option (Z * string) :=
  match s with
  | String c s' =>
      if orb (Ascii.eqb c "e"%char) (Ascii.eqb c "E"%char) then
        let (neg, t) := read_sign s' in
        match digitpart t with
        | Some (v, _, rest) => Some (if neg then - v else v, rest)
        | None => None
        end
      else Some (0, s)
  | EmptyString => Some (0, s)
  end.

Definition float_of_string (s : string) : result float :=
  let (neg, t) := read_sign (strip s) in
  let word := lower t in
  if orb (String.eqb word "inf") (String.eqb word "infinity")
  then Ok (SF2Prim (S754_infinity neg))
  else if String.eqb word "nan" then Ok (SF2Prim S754_nan)
  else
    let number :=
      match digitpart t with
      | Some (ip, _, r1) =>
          let '(fv, fn, r2) := read_fraction r1 in Some (ip, fv, fn, r2)
      | None =>
          match t with
          | String c t' =>
              if Ascii.eqb c "."%char then
                match digitpart t' with
                | Some (fv, fn, r2) => Some (0, fv, fn, r2)
                | None => None
                end
              else None
          | EmptyString => None
          end
      end in
    match number with
    | Some (ip, fv, fn, r2) =>
        match read_exponent r2 with
        | Some (ex, EmptyString) =>
            Ok (float_of_decimal neg (ip * 10 ^ Z.of_nat fn + fv) (ex - Z.of_nat fn))
        | _ => Raise (ValueError BuiltinValueError)
        end
    | None => Raise (ValueError BuiltinValueError)
    end.

(** *** Values of a decoded JSON document *)

Inductive pyval : Type :=
| PNone
| PBool (b : bool)
| PInt (z : Z)
| PFloat (f : float)
| PStr (s : string)
| PList (items : list pyval)
| PDict (items : list (string * pyval)).

Definition float_of_bool (b : bool) : float := if b then 1%float else 0%float.

(** [float(v)] *)
Definition to_float (v : pyval) : result float :=
  match v with
  | PNone => Raise TypeError
  | PBool b => Ok (float_of_bool b)
  | PInt z => float_of_int z
  | PFloat f => Ok f
  | PStr s => float_of_string s
  | PList _ => Raise TypeError
  | PDict _ => Raise TypeError
  end.

(** [int(v)] *)
Definition to_int (v : pyval) : result Z :=
  match v with
  | PNone => Raise TypeError
  | PBool b => Ok (if b then 1 else 0)
  | PInt z => Ok z
  | PFloat f => int_of_float f
  | PStr s => int_of_string s
  | PList _ => Raise TypeError
  | PDict _ => Raise TypeError
  end.

(** A dictionary with string keys, as an association list. *)
Definition dict : Type := list (string * pyval).

Fixpoint get (d : dict) (k : string) : option pyval :=
  match d with
  | [] => None
  | (k', v) :: d' => if String.eqb k k' then Some v else get d' k
  end.

(** [k in d] *)
Definition has_key (d : dict) (k : string) : bool :=
  match get d k with Some _ => true | None => false end.

(** Whether a value is a JSON document in the strict sense: [json.loads]
    also accepts the tokens [NaN] and [Infinity], which are not JSON. *)
Fixpoint strict_json (v : pyval) : bool :=
  match v with
  | PFloat f => negb (orb (is_nan f) (is_inf f))
  | PList items => forallb strict_json items
  | PDict items => forallb (fun kv => strict_json (snd kv)) items
  | _ => true
  end.

End Py.

Notation "x <- e ;; k" := (Py.bind e (fun x => k))
  (at level 61, e at next level, right associativity).

(* ================================================================= *)
(** ** The ten features, requests and responses *)

(** The dictionary of the ten model inputs ([model_input] in
    [predict_from_spotify], [validated] in [predict_manual]), in the order
    the classifier was trained on.  [duration_ms] and [mode] are integers;
    [explicit] is [0] or [1] on the catalog path and any float on the manual
    path, so it is kept as a float. *)
Module FeatureSet.
Record t : Type := mk {
  duration_ms : Z;
  danceability : float;
  energy : float;
  valence : float;
  acousticness : float;
  instrumentalness : float;
  explicit : float;
  loudness : float;
  tempo : float;
  mode : Z
}.
End FeatureSet.

(** ['HIT'] and ['FLOP']. *)
Inductive label : Type := HIT | FLOP.

Definition label_of (is_hit : bool) : label := if is_hit then HIT else FLOP.

(** The decoded body of a POST to [/api/predict/spotify/].  The fields the
    view reads are taken as strings when present. *)
Module SpotifyRequest.
Record t : Type := mk {
  track_id : option string;
  url : option string;
  track_url : option string;
  spotify_url : option string;
  title : option string;
  artist : option string
}.
End SpotifyRequest.

(** The decoded body of a POST to [/api/predict/manual/]: the JSON object
    [data], with the optional [title] and [artist] taken as strings. *)
Module ManualRequest.
Record t : Type := mk {
  title : option string;
  artist : option string;
  data : Py.dict
}.
End ManualRequest.

Inductive request_payload : Type :=
| SpotifyPayload (r : SpotifyRequest.t)
| ManualPayload (r : ManualRequest.t).

(** The [song] object of a successful catalog prediction. *)
Module SongInfo.
Record t : Type := mk {
  title : option string;
  artist : option string;
  album : string;
  album_image : option string;
  spotify_url : option string;
  preview_url : option string;
  popularity : Z;
  track_id : option string
}.
End SongInfo.

(** [response_data] of [predict_from_spotify]. *)
Module PredictionBody.
Record t : Type := mk {
  prediction : label;
  confidence : float;
  song : SongInfo.t;
  features : FeatureSet.t;
  prediction_id : Z;
  song_id : Z;
  in_dataset : bool;
  model_prediction : label;
  model_confidence : float;
  dataset_label : option label;
  dataset_popularity : option Z
}.
End PredictionBody.

(** [response_data] of [predict_manual]. *)
Module ManualBody.
Record t : Type := mk {
  prediction : label;
  confidence : float;
  song_title : string;
  song_id : Z;
  prediction_id : Z;
  features : FeatureSet.t
}.
End ManualBody.

Inductive response_payload : Type :=
| SpotifyBody (b : PredictionBody.t)
| ManualBodyOf (b : ManualBody.t).

(** The [JsonResponse]s of the two prediction views. *)
Inductive Response : Type :=
| Predicted (b : PredictionBody.t)                     (* 200 *)
| PredictedManual (b : ManualBody.t)                   (* 200 *)
| NotFoundOnSpotify (title artist : string)            (* 404 *)
| NotInTrainingDataset (title artist : string)
    (spotify_results : list (string * string * string)) (* 400, (id, title, artist) *)
| MissingInformation                                   (* 400 *)
| MissingRequiredFields (missing : list string)        (* 400 *)
| InvalidValue (e : Py.exn)                            (* 400 *)
| BadRequest (why : Py.value_error)                    (* 400, except ValueError *)
| ServerError (e : Py.exn).                            (* 500, except Exception *)

Definition status (r : Response) : Z :=
  match r with
  | Predicted _ => 200
  | PredictedManual _ => 200
  | NotFoundOnSpotify _ _ => 404
  | NotInTrainingDataset _ _ _ => 400
  | MissingInformation => 400
  | MissingRequiredFields _ => 400
  | InvalidValue _ => 400
  | BadRequest _ => 400
  | ServerError _ => 500
  end.

(** The [except] clauses that close both views. *)
Definition handle_exception (e : Py.exn) : Response :=
  match e with
  | Py.ValueError why => BadRequest why
  | _ => ServerError e
  end.

(* ================================================================= *)
(** ** models.py

    The rows carry the fields that the views and the import read or write.
    [created_at] is the position of a row in its table; [model_version],
    which nothing sets, and [ModelMetadata], which nothing uses, are left
    out. *)

Module Song.
Record t : Type := mk {
  id : Z;
  track_id : option string;
  track_name : option string;
  artists : option string;
  album_name : option string;
  popularity : option Z;
  track_genre : option string;
  duration_ms : Z;
  danceability : float;
  energy : float;
  valence : float;
  acousticness : float;
  instrumentalness : float;
  speechiness : option float;
  liveness : option float;
  loudness : float;
  tempo : float;
  mode : Z;
  key : option Z;
  time_signature : option Z;
  explicit : bool;
  is_acoustic : bool;
  is_instrumental : bool;
  is_hit : option bool
}.

Definition set_id (i : Z) (s : t) : t :=
  mk i (track_id s) (track_name s) (artists s) (album_name s) (popularity s)
     (track_genre s) (duration_ms s) (danceability s) (energy s) (valence s)
     (acousticness s) (instrumentalness s) (speechiness s) (liveness s)
     (loudness s) (tempo s) (mode s) (key s) (time_signature s) (explicit s)
     (is_acoustic s) (is_instrumental s) (is_hit s).

(** The body of [Song.save] before [super().save()] (models.py, lines
    137-148): the derived flags.  [is_hit] is recomputed only when
    [popularity] is not null. *)
Definition auto_calculate (s : t) : t :=
  mk (id s) (track_id s) (track_name s) (artists s) (album_name s) (popularity s)
     (track_genre s) (duration_ms s) (danceability s) (energy s) (valence s)
     (acousticness s) (instrumentalness s) (speechiness s) (liveness s)
     (loudness s) (tempo s) (mode s) (key s) (time_signature s) (explicit s)
     (PrimFloat.ltb 0.5 (acousticness s))
     (PrimFloat.ltb 0.5 (instrumentalness s))
     (match popularity s with
      | Some p => Some (50 <=? p)
      | None => is_hit s
      end).
End Song.

Module Prediction.
Record t : Type := mk {
  id : Z;
  song : Z;                          (* foreign key to Song *)
  is_hit : bool;
  confidence : float;
  model_prediction : label;
  model_confidence : float;
  adjusted_by_dataset : bool;
  dataset_label : option label;
  dataset_popularity : option Z
}.

Definition set_id (i : Z) (p : t) : t :=
  mk i (song p) (is_hit p) (confidence p) (model_prediction p)
     (model_confidence p) (adjusted_by_dataset p) (dataset_label p)
     (dataset_popularity p).
End Prediction.

Module PredictionAuditLog.
Record t : Type := mk {
  id : Z;
  prediction : Z;                    (* foreign key to Prediction *)
  request_payload : request_payload;
  response_payload : response_payload
}.

Definition set_id (i : Z) (a : t) : t :=
  mk i (prediction a) (request_payload a) (response_payload a).
End PredictionAuditLog.

(** The three tables, each newest row first, and the next primary keys. *)
Module DB.
Record t : Type := mk {
  songs : list Song.t;
  predictions : list Prediction.t;
  audit_logs : list PredictionAuditLog.t;
  next_song : Z;
  next_prediction : Z;
  next_audit : Z
}.

Definition empty : t := mk [] [] [] 1 1 1.
End DB.

(** What the storage engine accepts: an [INSERT] or [UPDATE] of a row that
    it refuses raises a database error in the caller (a constraint, a value
    the column type rejects, a lost connection). *)
Module Backend.
Record t : Type := mk {
  accepts_song : Song.t -> bool;
  accepts_prediction : Prediction.t -> bool;
  accepts_audit : PredictionAuditLog.t -> bool
}.

Definition permissive : t := mk (fun _ => true) (fun _ => true) (fun _ => true).

(** An engine whose JSON columns take strict JSON only: the audit row of
    a manual request whose body carries a [NaN] or an [Infinity] is
    refused. *)
Definition strict : t :=
  mk (fun _ => true) (fun _ => true)
     (fun a =>
        match PredictionAuditLog.request_payload a with
        | ManualPayload r => Py.strict_json (Py.PDict (ManualRequest.data r))
        | SpotifyPayload _ => true
        end).

(** An engine that refuses every audit row (the table is locked, the
    connection is lost after the previous statement). *)
Definition audit_refused : t := mk (fun _ => true) (fun _ => true) (fun _ => false).

(** An engine that binds a NaN as NULL, as SQLite does: a song with a NaN
    in one of the seven float columns declared without [null=True] fails
    the NOT NULL constraint.  ([speechiness] and [liveness] may be
    null.) *)
Definition not_null_floats (s : Song.t) : list float :=
  [ Song.danceability s; Song.energy s; Song.valence s; Song.acousticness s;
    Song.instrumentalness s; Song.loudness s; Song.tempo s ].

Definition nan_as_null : t :=
  mk (fun s => negb (existsb Py.is_nan (not_null_floats s)))
     (fun _ => true) (fun _ => true).
End Backend.

Module Models.
Import Py.

(** An object that was not saved yet carries the identifier [0]; the
    insertion gives it the table's next primary key. *)
Definition unsaved : Z := 0.

Definition insert_song (be : Backend.t) (s : Song.t) (db : DB.t)
  : result Song.t * DB.t :=
  let row := Song.set_id (DB.next_song db) s in
  if Backend.accepts_song be row
  then (Ok row,
        DB.mk (row :: DB.songs db) (DB.predictions db) (DB.audit_logs db)
              (DB.next_song db + 1) (DB.next_prediction db) (DB.next_audit db))
  else (Raise DatabaseError, db).

Fixpoint replace_song (row : Song.t) (l : list Song.t) : list Song.t :=
  match l with
  | [] => []
  | s :: l' =>
      if Song.id s =? Song.id row then row :: replace_song row l'
      else s :: replace_song row l'
  end.

Definition update_song (be : Backend.t) (row : Song.t) (db : DB.t)
  : result Song.t * DB.t :=
  if Backend.accepts_song be row
  then (Ok row,
        DB.mk (replace_song row (DB.songs db)) (DB.predictions db)
              (DB.audit_logs db) (DB.next_song db) (DB.next_prediction db)
              (DB.next_audit db))
  else (Raise DatabaseError, db).

(** [Song.objects.create(...)]: build the object and [save()] it. *)
Definition Song_create (be : Backend.t) (s : Song.t) (db : DB.t)
  : result Song.t * DB.t :=
  insert_song be (Song.auto_calculate s) db.

(** [song.save()] on a row read from the table. *)
Definition Song_save (be : Backend.t) (s : Song.t) (db : DB.t)
  : result Song.t * DB.t :=
  update_song be (Song.auto_calculate s) db.

Definition opt_string_eqb (a : option string) (b : string) : bool :=
  match a with Some x => String.eqb x b | None => false end.

(** [Song.objects.filter(track_id=...)] *)
Definition filter_track_id (tid : string) (db : DB.t) : list Song.t :=
  filter (fun s => opt_string_eqb (Song.track_id s) tid) (DB.songs db).

(** [Song.objects.get_or_create(track_id=..., defaults=...)]: [defaults]
    is the object to create, its [track_id] already set. *)
Definition Song_get_or_create (be : Backend.t) (tid : string)
    (defaults : Song.t) (db : DB.t) : result (Song.t * bool) * DB.t :=
  match filter_track_id tid db with
  | [] =>
      match Song_create be defaults db with
      | (Ok s, db') => (Ok (s, true), db')
      | (Raise e, db') => (Raise e, db')
      end
  | [s] => (Ok (s, false), db)
  | _ :: _ :: _ => (Raise MultipleObjectsReturned, db)
  end.

(** The lookups [__iexact] and [__icontains]: both sides are compared
    with the case of the ASCII letters folded; a null column matches
    nothing. *)
Definition iexact (column : option string) (v : string) : bool :=
  match column with
  | Some c => String.eqb (lower c) (lower v)
  | None => false
  end.

Definition icontains (column : option string) (v : string) : bool :=
  match column with
  | Some c => contains (lower v) (lower c)
  | None => false
  end.

Definition Prediction_create (be : Backend.t) (p : Prediction.t) (db : DB.t)
  : result Prediction.t * DB.t :=
  let row := Prediction.set_id (DB.next_prediction db) p in
  if Backend.accepts_prediction be row
  then (Ok row,
        DB.mk (DB.songs db) (row :: DB.predictions db) (DB.audit_logs db)
              (DB.next_song db) (DB.next_prediction db + 1) (DB.next_audit db))
  else (Raise DatabaseError, db).

Definition PredictionAuditLog_create (be : Backend.t)
    (a : PredictionAuditLog.t) (db : DB.t)
  : result PredictionAuditLog.t * DB.t :=
  let row := PredictionAuditLog.set_id (DB.next_audit db) a in
  if Backend.accepts_audit be row
  then (Ok row,
        DB.mk (DB.songs db) (DB.predictions db) (row :: DB.audit_logs db)
              (DB.next_song db) (DB.next_prediction db) (DB.next_audit db + 1))
  else (Raise DatabaseError, db).

End Models.

(* ================================================================= *)
(** ** inference.py *)

(** The unpickled classifier.  [predict] is [model.predict(features)[0]];
    [predict_proba] is absent when the model has no such attribute, and
    otherwise returns [model.predict_proba(features)[0]], the probabilities
    by class: a row of a NumPy array, whose entries are [float64]. *)
Module Classifier.
Record t : Type := mk {
  predict : list float -> Py.result Z;
  predict_proba : option (list float -> Py.result (list float))
}.
End Classifier.

Module Inference.
Import Py.

(** [load_model] (inference.py, lines 26-40): the artifact at
    [MODEL_PATH], [None] when the file is missing.  (The module caches the loaded model; the cache changes how
    often the file is read, not what is returned.) *)
Definition load_model (artifact : option Classifier.t) : result Classifier.t :=
  match artifact with
  | Some model => Ok model
  | None => Raise FileNotFoundError
  end.

(** [user_input[k]] *)
Definition item (d : dict) (k : string) : result pyval :=
  match get d k with
  | Some v => Ok v
  | None => Raise (KeyError k)
  end.

Definition float_item (d : dict) (k : string) : result float :=
  v <- item d k ;; to_float v.

(** [prepare_features] (inference.py, lines 43-79). *)
Definition prepare_features (user_input : dict) : result (list float) :=
  duration_ms <- float_item user_input "duration_ms" ;;
  danceability <- float_item user_input "danceability" ;;
  energy <- float_item user_input "energy" ;;
  valence <- float_item user_input "valence" ;;
  acousticness <- float_item user_input "acousticness" ;;
  instrumentalness <- float_item user_input "instrumentalness" ;;
  explicit <- float_item user_input "explicit" ;;
  loudness <- float_item user_input "loudness" ;;
  tempo <- float_item user_input "tempo" ;;
  mode <- float_item user_input "mode" ;;
  Ok [duration_ms; danceability; energy; valence; acousticness;
      instrumentalness; explicit; loudness; tempo; mode].

(** The [try] block of [predict_song]: [proba[1]] when there are at least
    two classes, else [proba[0]], an entry of the array; the Python float
    [0.5] on [AttributeError]. *)
Definition raw_confidence (model : Classifier.t) (features : list float)
  : result number :=
  match Classifier.predict_proba model with
  | None => Ok (Float 0.5)
  | Some predict_proba =>
      match predict_proba features with
      | Ok (_ :: p1 :: _) => Ok (Float64 p1)
      | Ok [p0] => Ok (Float64 p0)
      | Ok [] => Raise IndexError
      | Raise AttributeError => Ok (Float 0.5)
      | Raise e => Raise e
      end
  end.

(** [predict_song] (inference.py, lines 82-107): [round] is NumPy's when
    the confidence is an entry of the array and the builtin when it is
    the literal. *)
Definition predict_song (artifact : option Classifier.t)
    (features : list float) : result (bool * number) :=
  model <- load_model artifact ;;
  prediction <- Classifier.predict model features ;;
  confidence <- raw_confidence model features ;;
  let is_hit := negb (prediction =? 0) in
  let confidence_percent := round_2 (times confidence 100) in
  Ok (is_hit, confidence_percent).

End Inference.

(** [model_input] as the dictionary handed to [prepare_features]. *)
Definition to_dict (f : FeatureSet.t) : Py.dict :=
  [ ("duration_ms", Py.PInt (FeatureSet.duration_ms f));
    ("danceability", Py.PFloat (FeatureSet.danceability f));
    ("energy", Py.PFloat (FeatureSet.energy f));
    ("valence", Py.PFloat (FeatureSet.valence f));
    ("acousticness", Py.PFloat (FeatureSet.acousticness f));
    ("instrumentalness", Py.PFloat (FeatureSet.instrumentalness f));
    ("explicit", Py.PFloat (FeatureSet.explicit f));
    ("loudness", Py.PFloat (FeatureSet.loudness f));
    ("tempo", Py.PFloat (FeatureSet.tempo f));
    ("mode", Py.PInt (FeatureSet.mode f)) ].

(* ================================================================= *)
(** ** spotify_service.py *)

(** The remote catalog behind [_make_request]: what each endpoint answers,
    or the exception the request raises (a 404 is
    [ValueError TrackNotFound], any other failure of the request or of the
    token exchange another exception).  The bodies are typed as the
    service documents them. *)
Module Catalog.
Record Track : Type := mkTrack {
  id : string;
  name : string;
  artists : list string;
  album_name : string;
  album_images : list string;
  spotify_url : string;
  preview_url : option string;
  popularity : option Z;             (* absent: the client reads 0 *)
  duration_ms : Z;
  explicit : option bool             (* absent: the client reads False *)
}.

Record AudioFeatures : Type := mkAudioFeatures {
  af_duration_ms : Z;
  af_danceability : float;
  af_energy : float;
  af_valence : float;
  af_acousticness : float;
  af_instrumentalness : float;
  af_loudness : float;
  af_tempo : float;
  af_mode : Z
}.

(** [audio_features] answers [Ok None] for a body that is falsy (empty), and
    raises for a failed request; a body that lacks one of the nine keys is
    an answer [Raise (KeyError k)], raised in the same [try] block. *)
Record t : Type := mk {
  track : string -> Py.result Track;
  audio_features : string -> Py.result (option AudioFeatures);
  search : string -> Z -> Py.result (list Track)
}.
End Catalog.

(** The dictionary returned by [get_track_info]. *)
Module TrackInfo.
Record t : Type := mk {
  track_id : string;
  title : string;
  artist : string;
  album : string;
  album_image : option string;
  spotify_url : string;
  preview_url : option string;
  popularity : Z;
  duration_ms : Z;
  explicit : bool                    (* 1 or 0 *)
}.
End TrackInfo.

(** The dictionary returned by [get_audio_features_from_dataset]; its
    ['source'] is ['dataset']. *)
Module DatasetFeatures.
Record t : Type := mk {
  duration_ms : Z;
  danceability : float;
  energy : float;
  valence : float;
  acousticness : float;
  instrumentalness : float;
  loudness : float;
  tempo : float;
  mode : Z;
  explicit : bool;                   (* 1 or 0 *)
  track_genre : string;
  popularity : Z;
  is_hit_in_dataset : bool;
  title : option string;
  artist : option string;
  album : string
}.
End DatasetFeatures.

(** Where the features came from; the keys [track_genre] and
    [is_hit_in_dataset] exist exactly when the source is the dataset. *)
Inductive Source : Type :=
| dataset (track_genre : string) (is_hit_in_dataset : bool)
| spotify_api.

(** [audio_data] in [predict_from_spotify]: track metadata merged with the
    features. *)
Module AudioData.
Record t : Type := mk {
  track_id : option string;
  title : option string;
  artist : option string;
  album : string;
  album_image : option string;
  spotify_url : option string;
  preview_url : option string;
  popularity : Z;
  features : FeatureSet.t;
  source : Source
}.
End AudioData.

(** One entry of the list returned by [search_tracks]. *)
Module SearchResult.
Record t : Type := mk {
  id : string;
  title : string;
  artist : string;
  album : string;
  album_image : option string;
  duration_ms : Z;
  explicit : bool;
  preview_url : option string;
  spotify_url : string;
  popularity : Z;
  in_dataset : bool
}.
End SearchResult.

Module SpotifyService.
Import Py.

Definition default {A : Type} (d : A) (o : option A) : A :=
  match o with Some a => a | None => d end.

(** [x or d] for an optional string: [d] when [x] is null or empty. *)
Definition or_else (x : option string) (d : string) : string :=
  match x with
  | Some s => if truthy s then s else d
  | None => d
  end.

(** [get_track_info] (spotify_service.py, lines 103-118). *)
Definition get_track_info (api : Catalog.t) (track_id : string)
  : result TrackInfo.t :=
  track_info <- Catalog.track api track_id ;;
  Ok (TrackInfo.mk track_id
        (Catalog.name track_info)
        (join ", " (Catalog.artists track_info))
        (Catalog.album_name track_info)
        (hd_error (Catalog.album_images track_info))
        (Catalog.spotify_url track_info)
        (Catalog.preview_url track_info)
        (default 0 (Catalog.popularity track_info))
        (Catalog.duration_ms track_info)
        (default false (Catalog.explicit track_info))).

(** The first artist of a comma-separated list, trimmed. *)
Definition artist_first (artist_name : string) : string :=
  strip (first (split "," (strip artist_name))).

Definition exact_match (track_clean artist1 : string) (s : Song.t) : bool :=
  andb (Models.iexact (Song.track_name s) track_clean)
       (Models.icontains (Song.artists s) artist1).

Definition partial_match (track_clean artist1 : string) (s : Song.t) : bool :=
  andb (Models.icontains (Song.track_name s) track_clean)
       (Models.icontains (Song.artists s) artist1).

(** The row that [get_audio_features_from_dataset] settles on
    (spotify_service.py, lines 133-152): the first exact match, else the
    first partial match. *)
Definition find_song (db : DB.t) (track_name artist_name : string)
  : option Song.t :=
  let track_clean := strip track_name in
  let artist1 := artist_first artist_name in
  match hd_error (filter (exact_match track_clean artist1) (DB.songs db)) with
  | Some song => Some song
  | None => hd_error (filter (partial_match track_clean artist1) (DB.songs db))
  end.

(** [get_audio_features_from_dataset] (spotify_service.py, lines
    120-172). *)
Definition get_audio_features_from_dataset (db : DB.t)
    (track_name artist_name : string) : option DatasetFeatures.t :=
  match find_song db track_name artist_name with
  | None => None
  | Some song =>
      Some (DatasetFeatures.mk
              (Song.duration_ms song) (Song.danceability song)
              (Song.energy song) (Song.valence song) (Song.acousticness song)
              (Song.instrumentalness song) (Song.loudness song)
              (Song.tempo song) (Song.mode song) (Song.explicit song)
              (or_else (Song.track_genre song) "unknown")
              (default 0 (Song.popularity song))
              (default false (Song.is_hit song))
              (Song.track_name song) (Song.artists song)
              (or_else (Song.album_name song) "Unknown"))
  end.

Definition features_of_dataset (d : DatasetFeatures.t) : FeatureSet.t :=
  FeatureSet.mk
    (DatasetFeatures.duration_ms d) (DatasetFeatures.danceability d)
    (DatasetFeatures.energy d) (DatasetFeatures.valence d)
    (DatasetFeatures.acousticness d) (DatasetFeatures.instrumentalness d)
    (float_of_bool (DatasetFeatures.explicit d))
    (DatasetFeatures.loudness d) (DatasetFeatures.tempo d)
    (DatasetFeatures.mode d).

Definition source_of_dataset (d : DatasetFeatures.t) : Source :=
  dataset (DatasetFeatures.track_genre d) (DatasetFeatures.is_hit_in_dataset d).

(** [{**track_info, **dataset_features}] *)
Definition merge_dataset (track_info : TrackInfo.t) (d : DatasetFeatures.t)
  : AudioData.t :=
  AudioData.mk
    (Some (TrackInfo.track_id track_info))
    (DatasetFeatures.title d) (DatasetFeatures.artist d)
    (DatasetFeatures.album d)
    (TrackInfo.album_image track_info)
    (Some (TrackInfo.spotify_url track_info))
    (TrackInfo.preview_url track_info)
    (DatasetFeatures.popularity d)
    (features_of_dataset d)
    (source_of_dataset d).

(** [{**track_info, 'duration_ms': ..., ..., 'source': 'spotify_api'}] *)
Definition merge_api (track_info : TrackInfo.t) (f : Catalog.AudioFeatures)
  : AudioData.t :=
  AudioData.mk
    (Some (TrackInfo.track_id track_info))
    (Some (TrackInfo.title track_info)) (Some (TrackInfo.artist track_info))
    (TrackInfo.album track_info)
    (TrackInfo.album_image track_info)
    (Some (TrackInfo.spotify_url track_info))
    (TrackInfo.preview_url track_info)
    (TrackInfo.popularity track_info)
    (FeatureSet.mk
       (Catalog.af_duration_ms f) (Catalog.af_danceability f)
       (Catalog.af_energy f) (Catalog.af_valence f)
       (Catalog.af_acousticness f) (Catalog.af_instrumentalness f)
       (float_of_bool (TrackInfo.explicit track_info))
       (Catalog.af_loudness f) (Catalog.af_tempo f) (Catalog.af_mode f))
    spotify_api.

(** The requests [get_audio_features] sends, in order. *)
Inductive call : Type :=
| GetTrack (track_id : string)
| GetAudioFeatures (track_id : string).

(** [get_audio_features] (spotify_service.py, lines 174-233) together
    with the requests it sent. *)
Definition get_audio_features_traced (api : Catalog.t) (db : DB.t)
    (track_id : string) : list call * result AudioData.t :=
  match get_track_info api track_id with
  | Raise e => ([GetTrack track_id], Raise e)
  | Ok track_info =>
      match get_audio_features_from_dataset db
              (TrackInfo.title track_info) (TrackInfo.artist track_info) with
      | Some dataset_features =>
          ([GetTrack track_id], Ok (merge_dataset track_info dataset_features))
      | None =>
          ([GetTrack track_id; GetAudioFeatures track_id],
           match Catalog.audio_features api track_id with
           | Ok (Some features) => Ok (merge_api track_info features)
           | Ok None
           | Raise _ =>
               Raise (ValueError
                        (FeaturesUnavailable (TrackInfo.title track_info)
                                             (TrackInfo.artist track_info)))
           end)
      end
  end.

Definition get_audio_features (api : Catalog.t) (db : DB.t) (track_id : string)
  : result AudioData.t :=
  snd (get_audio_features_traced api db track_id).

(** The sort key [(not in_dataset, -popularity)] and its order. *)
Definition key_le (x y : SearchResult.t) : bool :=
  match SearchResult.in_dataset x, SearchResult.in_dataset y with
  | true, false => true
  | false, true => false
  | _, _ => (- SearchResult.popularity x <=? - SearchResult.popularity y)
  end.

Fixpoint insert_sorted (x : SearchResult.t) (l : list SearchResult.t)
  : list SearchResult.t :=
  match l with
  | [] => [x]
  | y :: l' => if key_le x y then x :: l else y :: insert_sorted x l'
  end.

(** [tracks.sort(key=...)]: a stable sort. *)
Definition sort_tracks (l : list SearchResult.t) : list SearchResult.t :=
  fold_right insert_sorted [] l.

Definition in_dataset_exact (db : DB.t) (track_name artist_name : string) : bool :=
  existsb (exact_match (strip track_name) (strip (first (split "," artist_name))))
          (DB.songs db).

Definition to_search_result (db : DB.t) (track : Catalog.Track) : SearchResult.t :=
  let track_name := Catalog.name track in
  let artist_name := join ", " (Catalog.artists track) in
  SearchResult.mk
    (Catalog.id track) track_name artist_name (Catalog.album_name track)
    (hd_error (Catalog.album_images track))
    (Catalog.duration_ms track)
    (default false (Catalog.explicit track))
    (Catalog.preview_url track)
    (Catalog.spotify_url track)
    (default 0 (Catalog.popularity track))
    (in_dataset_exact db track_name artist_name).

(** [search_tracks] (spotify_service.py, lines 235-272). *)
Definition search_tracks (api : Catalog.t) (db : DB.t) (query : string)
    (limit : Z) : result (list SearchResult.t) :=
  items <- Catalog.search api query limit ;;
  Ok (sort_tracks (map (to_search_result db) items)).

(** [extract_track_id] (spotify_service.py, lines 310-321). *)
Definition extract_track_id (input_str : string) : string :=
  let input_str := strip input_str in
  if contains "open.spotify.com/track/" input_str
  then first (split "/" (first (split "?" (last_item (split "track/" input_str)))))
  else if startswith "spotify:track:" input_str
  then last_item (split ":" input_str)
  else input_str.

End SpotifyService.

(* ================================================================= *)
(** ** views.py *)

(** What a request meets outside the handler: the remote catalog, the
    model artifact on disk and the storage engine. *)
Module World.
Record t : Type := mk {
  api : Catalog.t;
  artifact : option Classifier.t;
  backend : Backend.t
}.
End World.

(** The verdict of one prediction: the final label and confidence, and
    whether the dataset label overrode the model. *)
Module Verdict.
Record t : Type := mk {
  is_hit : bool;
  confidence : float;
  adjusted_by_dataset : bool
}.
End Verdict.

Module Views.
Import Py.

(** [data.get('track_id') or data.get('url') or data.get('track_url') or
    data.get('spotify_url')], as far as its truth goes: the first non-empty
    string. *)
Definition track_input (data : SpotifyRequest.t) : option string :=
  if opt_truthy (SpotifyRequest.track_id data) then SpotifyRequest.track_id data
  else if opt_truthy (SpotifyRequest.url data) then SpotifyRequest.url data
  else if opt_truthy (SpotifyRequest.track_url data) then SpotifyRequest.track_url data
  else if opt_truthy (SpotifyRequest.spotify_url data) then SpotifyRequest.spotify_url data
  else None.

(** The outcome of the first half of [predict_from_spotify]: the resolved
    [audio_data] and [track_id], or an early [return]. *)
Inductive resolution : Type :=
| Resolved (audio_data : AudioData.t) (track_id : option string)
| Return (r : Response).

(** The dataset was matched but the catalog search found nothing:
    [{'title': title, ..., 'track_id': None, **dataset_features}]. *)
Definition dataset_only (d : DatasetFeatures.t) : AudioData.t :=
  AudioData.mk None
    (DatasetFeatures.title d) (DatasetFeatures.artist d) (DatasetFeatures.album d)
    None None None
    (DatasetFeatures.popularity d)
    (SpotifyService.features_of_dataset d)
    (SpotifyService.source_of_dataset d).

(** The loop over [search_results]: the first result tagged [in_dataset]
    whose features can be fetched. *)
Fixpoint first_in_dataset (api : Catalog.t) (db : DB.t)
    (search_results : list SearchResult.t) : option (string * AudioData.t) :=
  match search_results with
  | [] => None
  | result :: rest =>
      if SearchResult.in_dataset result then
        match SpotifyService.get_audio_features api db (SearchResult.id result) with
        | Ok audio_data => Some (SearchResult.id result, audio_data)
        | Raise _ => first_in_dataset api db rest
        end
      else first_in_dataset api db rest
  end.

Definition hint (r : SearchResult.t) : string * string * string :=
  (SearchResult.id r, SearchResult.title r, SearchResult.artist r).

(** "Method 2: Search by title and artist" (views.py, lines 88-158). *)
Definition resolve_by_title (api : Catalog.t) (db : DB.t) (title artist : string)
  : result resolution :=
  match SpotifyService.get_audio_features_from_dataset db title artist with
  | Some dataset_features =>
      search_results <-
        SpotifyService.search_tracks api db (title ++ " " ++ artist)%string 1 ;;
      match search_results with
      | r :: _ =>
          let track_id := SearchResult.id r in
          track_info <- SpotifyService.get_track_info api track_id ;;
          Ok (Resolved (SpotifyService.merge_dataset track_info dataset_features)
                       (Some track_id))
      | [] => Ok (Resolved (dataset_only dataset_features) None)
      end
  | None =>
      search_results <-
        SpotifyService.search_tracks api db (title ++ " " ++ artist)%string 5 ;;
      match search_results with
      | [] => Ok (Return (NotFoundOnSpotify title artist))
      | _ :: _ =>
          match first_in_dataset api db search_results with
          | Some (track_id, audio_data) =>
              Ok (Resolved audio_data (Some track_id))
          | None =>
              Ok (Return (NotInTrainingDataset title artist
                            (map hint (firstn 3 search_results))))
          end
      end
  end.

(** The resolution of a request (views.py, lines 74-174). *)
Definition resolve (api : Catalog.t) (db : DB.t) (data : SpotifyRequest.t)
  : result resolution :=
  match track_input data with
  | Some input =>
      let track_id := SpotifyService.extract_track_id input in
      audio_data <- SpotifyService.get_audio_features api db track_id ;;
      Ok (Resolved audio_data (Some track_id))
  | None =>
      if andb (opt_truthy (SpotifyRequest.title data))
              (opt_truthy (SpotifyRequest.artist data))
      then resolve_by_title api db
             (strip (SpotifyService.default "" (SpotifyRequest.title data)))
             (strip (SpotifyService.default "" (SpotifyRequest.artist data)))
      else Ok (Return MissingInformation)
  end.

(** The block "Use model prediction, but adjust confidence if dataset label
    differs" of [predict_from_spotify] (views.py, lines 194-224). *)
Definition reconcile (source : Source) (model_hit : bool)
    (model_confidence : float) : Verdict.t :=
  match source with
  | dataset _ is_hit_in_dataset =>
      if negb (Bool.eqb is_hit_in_dataset model_hit)
      then Verdict.mk is_hit_in_dataset
                      (Py.max 60 (model_confidence + 10)%float) true
      else Verdict.mk model_hit (Py.min 95 (model_confidence + 5)%float) false
  | spotify_api => Verdict.mk model_hit model_confidence false
  end.

Definition in_dataset (source : Source) : bool :=
  match source with dataset _ _ => true | spotify_api => false end.

Definition track_genre_of (source : Source) : string :=
  match source with dataset genre _ => genre | spotify_api => "" end.

(** ['HIT' if is_hit_in_dataset else 'FLOP' if in_dataset else None] *)
Definition dataset_label_of (source : Source) : option label :=
  match source with
  | dataset _ is_hit_in_dataset => Some (label_of is_hit_in_dataset)
  | spotify_api => None
  end.

Definition dataset_popularity_of (audio_data : AudioData.t) : option Z :=
  if in_dataset (AudioData.source audio_data)
  then Some (AudioData.popularity audio_data) else None.

(** The keyword arguments of [Song.objects.create] and the [defaults] of
    [get_or_create] in [predict_from_spotify]. *)
Definition new_song (track_id : option string) (audio_data : AudioData.t)
  : Song.t :=
  let model_input := AudioData.features audio_data in
  Song.mk Models.unsaved track_id
    (AudioData.title audio_data)
    (AudioData.artist audio_data)
    (Some (AudioData.album audio_data))
    (Some (AudioData.popularity audio_data))
    (Some (track_genre_of (AudioData.source audio_data)))
    (FeatureSet.duration_ms model_input) (FeatureSet.danceability model_input)
    (FeatureSet.energy model_input) (FeatureSet.valence model_input)
    (FeatureSet.acousticness model_input)
    (FeatureSet.instrumentalness model_input)
    None None
    (FeatureSet.loudness model_input) (FeatureSet.tempo model_input)
    (FeatureSet.mode model_input)
    None None
    (PrimFloat.eqb (FeatureSet.explicit model_input) 1)
    false false None.

(** "Update song if it already existed": the fourteen assignments before
    [song.save()]. *)
Definition overwrite (song : Song.t) (audio_data : AudioData.t) : Song.t :=
  let model_input := AudioData.features audio_data in
  Song.mk (Song.id song) (Song.track_id song)
    (AudioData.title audio_data)
    (AudioData.artist audio_data)
    (Some (AudioData.album audio_data))
    (Some (AudioData.popularity audio_data))
    (Song.track_genre song)
    (FeatureSet.duration_ms model_input) (FeatureSet.danceability model_input)
    (FeatureSet.energy model_input) (FeatureSet.valence model_input)
    (FeatureSet.acousticness model_input)
    (FeatureSet.instrumentalness model_input)
    (Song.speechiness song) (Song.liveness song)
    (FeatureSet.loudness model_input) (FeatureSet.tempo model_input)
    (FeatureSet.mode model_input)
    (Song.key song) (Song.time_signature song)
    (PrimFloat.eqb (FeatureSet.explicit model_input) 1)
    (Song.is_acoustic song) (Song.is_instrumental song) (Song.is_hit song).

(** "Create or get Song record" (views.py, lines 226-294). *)
Definition store_song (be : Backend.t) (track_id : option string)
    (audio_data : AudioData.t) (db : DB.t) : result Song.t * DB.t :=
  match track_id with
  | Some tid =>
      if truthy tid then
        match Models.Song_get_or_create be tid (new_song (Some tid) audio_data) db with
        | (Ok (song, true), db1) => (Ok song, db1)
        | (Ok (song, false), db1) => Models.Song_save be (overwrite song audio_data) db1
        | (Raise e, db1) => (Raise e, db1)
        end
      else Models.Song_create be (new_song None audio_data) db
  | None => Models.Song_create be (new_song None audio_data) db
  end.

Definition new_prediction (song : Song.t) (audio_data : AudioData.t)
    (model_hit : bool) (model_confidence : float) : Prediction.t :=
  let v := reconcile (AudioData.source audio_data) model_hit model_confidence in
  Prediction.mk Models.unsaved (Song.id song)
    (Verdict.is_hit v) (Verdict.confidence v)
    (label_of model_hit) model_confidence
    (Verdict.adjusted_by_dataset v)
    (dataset_label_of (AudioData.source audio_data))
    (dataset_popularity_of audio_data).

(** [confidence] after the same block, as the object it is: [max] and
    [min] return one of their arguments, the literal or the sum, which has
    the type of the model's confidence. *)
Definition reconciled_confidence (source : Source) (model_hit : bool)
    (model_confidence : number) : number :=
  match source with
  | dataset _ is_hit_in_dataset =>
      if negb (Bool.eqb is_hit_in_dataset model_hit)
      then max_of 60 (plus model_confidence 10)
      else min_of 95 (plus model_confidence 5)
  | spotify_api => model_confidence
  end.

(** [response_data] (views.py, lines 309-328): the two confidences are
    rounded, each by the [round] of its type. *)
Definition response_data (track_id : option string) (audio_data : AudioData.t)
    (model_hit : bool) (model_confidence : number)
    (song : Song.t) (prediction : Prediction.t) : PredictionBody.t :=
  let v := reconcile (AudioData.source audio_data) model_hit
                     (value model_confidence) in
  PredictionBody.mk
    (label_of (Verdict.is_hit v))
    (value (round_2 (reconciled_confidence (AudioData.source audio_data)
                                           model_hit model_confidence)))
    (SongInfo.mk (AudioData.title audio_data) (AudioData.artist audio_data)
                 (AudioData.album audio_data) (AudioData.album_image audio_data)
                 (AudioData.spotify_url audio_data)
                 (AudioData.preview_url audio_data)
                 (AudioData.popularity audio_data) track_id)
    (AudioData.features audio_data)
    (Prediction.id prediction) (Song.id song)
    (in_dataset (AudioData.source audio_data))
    (label_of model_hit) (value (round_2 model_confidence))
    (dataset_label_of (AudioData.source audio_data))
    (dataset_popularity_of audio_data).

(** From "Create or get Song record" to the final [return] (views.py,
    lines 226-342): three writes in a row, each committed when it is
    made. *)
Definition persist (be : Backend.t) (data : SpotifyRequest.t)
    (track_id : option string) (audio_data : AudioData.t)
    (model_hit : bool) (model_confidence : number) (db : DB.t)
  : result Response * DB.t :=
  match store_song be track_id audio_data db with
  | (Raise e, db1) => (Raise e, db1)
  | (Ok song, db1) =>
      match Models.Prediction_create be
              (new_prediction song audio_data model_hit
                              (value model_confidence)) db1 with
      | (Raise e, db2) => (Raise e, db2)
      | (Ok prediction, db2) =>
          let body := response_data track_id audio_data model_hit
                                    model_confidence song prediction in
          match Models.PredictionAuditLog_create be
                  (PredictionAuditLog.mk Models.unsaved (Prediction.id prediction)
                     (SpotifyPayload data) (SpotifyBody body)) db2 with
          | (Raise e, db3) => (Raise e, db3)
          | (Ok _, db3) => (Ok (Predicted body), db3)
          end
      end
  end.

(** The model's own verdict on [audio_data] (views.py, lines 176-192). *)
Definition model_verdict (artifact : option Classifier.t)
    (audio_data : AudioData.t) : result (bool * number) :=
  features <- Inference.prepare_features (to_dict (AudioData.features audio_data)) ;;
  Inference.predict_song artifact features.

Definition finish (r : result Response * DB.t) : Response * DB.t :=
  match r with
  | (Ok response, db) => (response, db)
  | (Raise e, db) => (handle_exception e, db)
  end.

(** [predict_from_spotify] (views.py, lines 23-350), from the decoded
    request body on. *)
Definition predict_from_spotify (w : World.t) (db : DB.t)
    (data : SpotifyRequest.t) : Response * DB.t :=
  finish
    match resolve (World.api w) db data with
    | Raise e => (Raise e, db)
    | Ok (Return response) => (Ok response, db)
    | Ok (Resolved audio_data track_id) =>
        match model_verdict (World.artifact w) audio_data with
        | Raise e => (Raise e, db)
        | Ok (model_hit, model_confidence) =>
            persist (World.backend w) data track_id audio_data
                    model_hit model_confidence db
        end
    end.

(** *** predict_manual *)

Definition required_fields : list string :=
  [ "duration_ms"; "danceability"; "energy"; "valence"; "acousticness";
    "instrumentalness"; "explicit"; "loudness"; "tempo"; "mode" ].

Definition missing_fields (data : dict) : list string :=
  filter (fun f => negb (has_key data f)) required_fields.

Definition int_item (d : dict) (k : string) : result Z :=
  v <- Inference.item d k ;; to_int v.

(** "Validate and convert": the dictionary [validated] (views.py, lines
    453-468). *)
Definition validate (data : dict) : result FeatureSet.t :=
  duration_ms <- int_item data "duration_ms" ;;
  danceability <- Inference.float_item data "danceability" ;;
  energy <- Inference.float_item data "energy" ;;
  valence <- Inference.float_item data "valence" ;;
  acousticness <- Inference.float_item data "acousticness" ;;
  instrumentalness <- Inference.float_item data "instrumentalness" ;;
  explicit <- Inference.float_item data "explicit" ;;
  loudness <- Inference.float_item data "loudness" ;;
  tempo <- Inference.float_item data "tempo" ;;
  mode <- int_item data "mode" ;;
  Ok (FeatureSet.mk duration_ms danceability energy valence acousticness
                    instrumentalness explicit loudness tempo mode).

(** The keyword arguments of [Song.objects.create] in [predict_manual]. *)
Definition manual_song (title artist : string) (validated : FeatureSet.t)
  : Song.t :=
  Song.mk Models.unsaved None (Some title) (Some artist) None None None
    (FeatureSet.duration_ms validated) (FeatureSet.danceability validated)
    (FeatureSet.energy validated) (FeatureSet.valence validated)
    (FeatureSet.acousticness validated)
    (FeatureSet.instrumentalness validated)
    None None
    (FeatureSet.loudness validated) (FeatureSet.tempo validated)
    (FeatureSet.mode validated)
    None None
    (PrimFloat.eqb (FeatureSet.explicit validated) 1)
    false false None.

Definition manual_persist (be : Backend.t) (req : ManualRequest.t)
    (validated : FeatureSet.t) (is_hit : bool) (confidence : float) (db : DB.t)
  : result Response * DB.t :=
  let title := SpotifyService.default "Untitled Song" (ManualRequest.title req) in
  let artist := SpotifyService.default "" (ManualRequest.artist req) in
  match Models.Song_create be (manual_song title artist validated) db with
  | (Raise e, db1) => (Raise e, db1)
  | (Ok song, db1) =>
      match Models.Prediction_create be
              (Prediction.mk Models.unsaved (Song.id song) is_hit confidence
                 (label_of is_hit) confidence false None None) db1 with
      | (Raise e, db2) => (Raise e, db2)
      | (Ok prediction, db2) =>
          let body := ManualBody.mk (label_of is_hit) confidence title
                        (Song.id song) (Prediction.id prediction) validated in
          match Models.PredictionAuditLog_create be
                  (PredictionAuditLog.mk Models.unsaved (Prediction.id prediction)
                     (ManualPayload req) (ManualBodyOf body)) db2 with
          | (Raise e, db3) => (Raise e, db3)
          | (Ok _, db3) => (Ok (PredictedManual body), db3)
          end
      end
  end.

(** The only [except] clause that an exception of the body can reach in
    [predict_manual] is [except Exception]. *)
Definition finish_manual (r : result Response * DB.t) : Response * DB.t :=
  match r with
  | (Ok response, db) => (response, db)
  | (Raise e, db) => (ServerError e, db)
  end.

(** [predict_manual] (views.py, lines 413-524), from the decoded request
    body on. *)
Definition predict_manual (w : World.t) (db : DB.t) (req : ManualRequest.t)
  : Response * DB.t :=
  let data := ManualRequest.data req in
  match missing_fields data with
  | (_ :: _) as missing => (MissingRequiredFields missing, db)
  | [] =>
      match validate data with
      | Raise (ValueError why) => (InvalidValue (ValueError why), db)
      | Raise TypeError => (InvalidValue TypeError, db)
      | Raise e => (ServerError e, db)
      | Ok validated =>
          finish_manual
            match (features <- Inference.prepare_features (to_dict validated) ;;
                   Inference.predict_song (World.artifact w) features) with
            | Raise e => (Raise e, db)
            | Ok (is_hit, confidence) =>
                manual_persist (World.backend w) req validated is_hit
                               (value confidence) db
            end
      end
  end.

End Views.

(* ================================================================= *)
(** ** management/commands/import_dataset.py *)

(** The data frame that [pd.read_csv] returns.  A cell of a numeric column
    is a number, a string when the column could not be parsed as numbers,
    or [NA] (NaN) when the field is empty; a cell of a text column is a
    string or empty. *)
Module Csv.
Inductive cell : Type :=
| NA
| CInt (z : Z)
| CFloat (f : float)
| CStr (s : string)
| CBool (b : bool).

Record Row : Type := mkRow {
  track_id : option string;
  track_name : option string;
  artists : option string;
  album_name : option string;
  track_genre : option string;
  popularity : cell;
  duration_ms : cell;
  danceability : cell;
  energy : cell;
  valence : cell;
  acousticness : cell;
  instrumentalness : cell;
  loudness : cell;
  tempo : cell;
  mode : cell;
  explicit : cell;
  key : cell;
  speechiness : cell;
  liveness : cell;
  time_signature : cell;
  is_hit : cell                      (* a column the file may carry *)
}.

Record DataFrame : Type := mkDataFrame {
  columns : list string;
  rows : list Row
}.

Definition set_is_hit (c : cell) (r : Row) : Row :=
  mkRow (track_id r) (track_name r) (artists r) (album_name r) (track_genre r)
        (popularity r) (duration_ms r) (danceability r) (energy r) (valence r)
        (acousticness r) (instrumentalness r) (loudness r) (tempo r) (mode r)
        (explicit r) (key r) (speechiness r) (liveness r) (time_signature r) c.
End Csv.

Module ImportDataset.
Import Py.

(** [pd.notna(v)] *)
Definition notna (c : Csv.cell) : bool :=
  match c with
  | Csv.NA => false
  | Csv.CFloat f => negb (is_nan f)
  | _ => true
  end.

(** [int(v)] on a cell; an empty cell is NaN. *)
Definition cell_int (c : Csv.cell) : result Z :=
  match c with
  | Csv.NA => Raise (ValueError BuiltinValueError)
  | Csv.CInt z => Ok z
  | Csv.CFloat f => int_of_float f
  | Csv.CStr s => int_of_string s
  | Csv.CBool b => Ok (if b then 1 else 0)
  end.

(** [float(v)] on a cell. *)
Definition cell_float (c : Csv.cell) : result float :=
  match c with
  | Csv.NA => Ok nan
  | Csv.CInt z => float_of_int z
  | Csv.CFloat f => Ok f
  | Csv.CStr s => float_of_string s
  | Csv.CBool b => Ok (float_of_bool b)
  end.

(** [bool(v)] on a cell; NaN is true. *)
Definition cell_bool (c : Csv.cell) : bool :=
  match c with
  | Csv.NA => true
  | Csv.CInt z => negb (z =? 0)
  | Csv.CFloat f => negb (PrimFloat.eqb f 0)
  | Csv.CStr s => truthy s
  | Csv.CBool b => b
  end.

(** [conv(row.get(col)) if pd.notna(row.get(col)) else None] *)
Definition nullable {A : Type} (conv : Csv.cell -> result A) (c : Csv.cell)
  : result (option A) :=
  if notna c then (v <- conv c ;; Ok (Some v)) else Ok None.

Definition required_columns : list string :=
  [ "track_id"; "track_name"; "artists"; "album_name"; "popularity";
    "duration_ms"; "danceability"; "energy"; "valence"; "acousticness";
    "instrumentalness"; "loudness"; "tempo"; "mode"; "explicit" ].

Definition has_column (df : Csv.DataFrame) (col : string) : bool :=
  existsb (String.eqb col) (Csv.columns df).

Definition missing_columns (df : Csv.DataFrame) : list string :=
  filter (fun col => negb (has_column df col)) required_columns.

(** The body of the [try] block up to [records.append(record)]
    (import_dataset.py, lines 86-113): an exception in any conversion
    leaves the row out. *)
Definition make_record (row : Csv.Row) : result Song.t :=
  popularity <- nullable cell_int (Csv.popularity row) ;;
  let is_hit := option_map (fun p => 50 <=? p) popularity in
  duration_ms <- cell_int (Csv.duration_ms row) ;;
  danceability <- cell_float (Csv.danceability row) ;;
  energy <- cell_float (Csv.energy row) ;;
  valence <- cell_float (Csv.valence row) ;;
  acousticness <- cell_float (Csv.acousticness row) ;;
  instrumentalness <- cell_float (Csv.instrumentalness row) ;;
  loudness <- cell_float (Csv.loudness row) ;;
  tempo <- cell_float (Csv.tempo row) ;;
  mode <- cell_int (Csv.mode row) ;;
  let explicit := cell_bool (Csv.explicit row) in
  key <- nullable cell_int (Csv.key row) ;;
  speechiness <- nullable cell_float (Csv.speechiness row) ;;
  liveness <- nullable cell_float (Csv.liveness row) ;;
  time_signature <- nullable cell_int (Csv.time_signature row) ;;
  Ok (Song.mk Models.unsaved
        (Csv.track_id row) (Csv.track_name row) (Csv.artists row)
        (Csv.album_name row) popularity (Csv.track_genre row)
        duration_ms danceability energy valence acousticness instrumentalness
        speechiness liveness loudness tempo mode key time_signature
        explicit false false is_hit).

(** [Song.objects.bulk_create(records, ignore_conflicts=True)]: the rows
    are inserted in order, without calling [save()], by a statement that
    skips a row the engine refuses instead of raising ([INSERT OR
    IGNORE]).  A skipped row has used up a primary key all the same: the
    key is allotted before the row is checked.  (The integers of a
    record are taken to fit the 64 bits of their columns.) *)
Fixpoint bulk_create (be : Backend.t) (records : list Song.t) (db : DB.t)
  : DB.t :=
  match records with
  | [] => db
  | r :: rest =>
      let row := Song.set_id (DB.next_song db) r in
      bulk_create be rest
        (DB.mk (if Backend.accepts_song be row
                then row :: DB.songs db else DB.songs db)
               (DB.predictions db) (DB.audit_logs db)
               (DB.next_song db + 1) (DB.next_prediction db) (DB.next_audit db))
  end.

(** The state of the loop over the rows. *)
Record progress : Type := mkProgress {
  store : DB.t;
  records : list Song.t;
  imported_count : Z;
  skipped_count : Z
}.

(** [str(v)] of an empty text cell is ['nan']. *)
Definition lookup_key (track_id : option string) : string :=
  SpotifyService.default "nan" track_id.

Definition import_row (be : Backend.t) (batch_size : Z) (st : progress)
    (row : Csv.Row) : progress :=
  if negb (match Models.filter_track_id (lookup_key (Csv.track_id row)) (store st)
           with [] => true | _ :: _ => false end)
  then mkProgress (store st) (records st) (imported_count st) (skipped_count st + 1)
  else
    match make_record row with
    | Raise _ => st
    | Ok record =>
        let records' := (records st ++ [record])%list in
        if batch_size <=? Z.of_nat (List.length records')
        then mkProgress (bulk_create be records' (store st)) []
                        (imported_count st + Z.of_nat (List.length records'))
                        (skipped_count st)
        else mkProgress (store st) records' (imported_count st) (skipped_count st)
    end.

Inductive report : Type :=
| MissingColumns (cols : list string)
| Imported (imported skipped : Z).

(** [Command.handle] (import_dataset.py, lines 30-150) once the file was
    read into [df], on the storage engine [be]. *)
Definition handle (be : Backend.t) (df : Csv.DataFrame) (batch_size : Z)
    (db : DB.t) : report * DB.t :=
  match missing_columns df with
  | (_ :: _) as cols => (MissingColumns cols, db)
  | [] =>
      let st := fold_left (import_row be batch_size) (Csv.rows df)
                          (mkProgress db [] 0 0) in
      (Imported (imported_count st + Z.of_nat (List.length (records st)))
                (skipped_count st),
       bulk_create be (records st) (store st))
  end.

End ImportDataset.

(* ================================================================= *)
(** ** Concrete songs, catalogs and classifiers

    The running example of the documentation: the track "Comedy" by
    Gen Hoshino, popularity 73. *)

Module Fixture.
Import Py.

Definition comedy_id : string := "5SuOikwiRyPMVoIQDJUgSV".

Definition comedy_features : FeatureSet.t :=
  FeatureSet.mk 230666 0.676 0.461 0.715 0.0322 0.00000101 0 (-6.746) 87.917 0.

(** The dataset row, as [import_dataset] stores it. *)
Definition comedy : Song.t :=
  Song.mk 1 (Some comedy_id) (Some "Comedy") (Some "Gen Hoshino")
    (Some "Comedy") (Some 73) (Some "acoustic")
    230666 0.676 0.461 0.715 0.0322 0.00000101 None None (-6.746) 87.917 0
    None None false false false (Some true).

Definition dataset_db : DB.t := DB.mk [comedy] [] [] 2 1 1.

Definition comedy_track : Catalog.Track :=
  Catalog.mkTrack comedy_id "Comedy" ["Gen Hoshino"] "Comedy" []
    "https://open.spotify.com/track/5SuOikwiRyPMVoIQDJUgSV" None (Some 73)
    230666 (Some false).

(** A catalog that knows this one track, finds it for every query, and
    refuses the audio-features endpoint. *)
Definition catalog : Catalog.t :=
  Catalog.mk
    (fun track_id =>
       if String.eqb track_id comedy_id then Ok comedy_track
       else Raise (ValueError TrackNotFound))
    (fun _ => Raise HTTPError)
    (fun _ _ => Ok [comedy_track]).

Definition comedy_audio_features : Catalog.AudioFeatures :=
  Catalog.mkAudioFeatures 230666 0.676 0.461 0.715 0.0322 0.00000101 (-6.746)
                          87.917 0.

(** The same catalog with an audio-features endpoint that answers. *)
Definition open_catalog : Catalog.t :=
  Catalog.mk (Catalog.track catalog)
             (fun _ => Ok (Some comedy_audio_features))
             (Catalog.search catalog).

(** A classifier with a constant answer: the class, and the probability of
    the positive class. *)
Definition constant_classifier (class : Z) (p_hit : float) : Classifier.t :=
  Classifier.mk (fun _ => Ok class)
                (Some (fun _ => Ok [(1 - p_hit)%float; p_hit])).

(** A classifier without [predict_proba]. *)
Definition bare_classifier (class : Z) : Classifier.t :=
  Classifier.mk (fun _ => Ok class) None.

Definition world (model : Classifier.t) : World.t :=
  World.mk catalog (Some model) Backend.permissive.

Definition by_url : SpotifyRequest.t :=
  SpotifyRequest.mk None
    (Some "https://open.spotify.com/track/5SuOikwiRyPMVoIQDJUgSV?si=abc")
    None None None None.

Definition by_title : SpotifyRequest.t :=
  SpotifyRequest.mk None None None None (Some " comedy ") (Some "gen hoshino").

(** The dataset row under an older spelling of the title. *)
Definition stale_db : DB.t :=
  DB.mk [ Song.mk 1 (Some comedy_id) (Some "Komedi") (Some "Gen Hoshino")
            (Some "Comedy") (Some 73) (Some "acoustic")
            230666 0.676 0.461 0.715 0.0322 0.00000101 None None (-6.746)
            87.917 0 None None false false false (Some true) ]
        [] [] 2 1 1.

(** The catalog some time later: the track's popularity is 40, and the
    audio-features endpoint answers. *)
Definition faded_catalog : Catalog.t :=
  Catalog.mk
    (fun track_id =>
       if String.eqb track_id comedy_id
       then Ok (Catalog.mkTrack comedy_id "Comedy" ["Gen Hoshino"] "Comedy" []
                  "https://open.spotify.com/track/5SuOikwiRyPMVoIQDJUgSV" None
                  (Some 40) 230666 (Some false))
       else Raise (ValueError TrackNotFound))
    (fun _ => Ok (Some comedy_audio_features))
    (fun _ _ => Ok []).

(** A catalog whose search finds nothing. *)
Definition silent_catalog : Catalog.t :=
  Catalog.mk (Catalog.track catalog) (Catalog.audio_features catalog)
             (fun _ _ => Ok []).

Definition cover (id : string) (popularity : Z) : Catalog.Track :=
  Catalog.mkTrack id "Comedy" ["Cover Band"; "Guest"] "Covers" []
    "https://open.spotify.com/track/cover" None (Some popularity) 200000 None.

(** A catalog whose search finds four covers of the song. *)
Definition busy_catalog : Catalog.t :=
  Catalog.mk (Catalog.track catalog) (Catalog.audio_features catalog)
             (fun _ _ => Ok [cover "c10" 10; cover "c40" 40; cover "c30" 30;
                             cover "c20" 20]).

(** The body of a manual request whose ["danceability"] is [null] and
    whose ["mode"] is absent. *)
Definition null_danceability : dict :=
  [ ("duration_ms", PInt 230666); ("danceability", PNone);
    ("energy", PFloat 0.461); ("valence", PFloat 0.715);
    ("acousticness", PFloat 0.0322); ("instrumentalness", PFloat 0.00000101);
    ("explicit", PInt 0); ("loudness", PFloat (-6.746));
    ("tempo", PFloat 87.917) ].

(** The ten fields of the documentation's example, with the duration
    given as the string ["230666.5"]. *)
Definition fractional_duration : dict :=
  [ ("duration_ms", PStr "230666.5"); ("danceability", PFloat 0.676);
    ("energy", PFloat 0.461); ("valence", PFloat 0.715);
    ("acousticness", PFloat 0.0322); ("instrumentalness", PFloat 0.00000101);
    ("explicit", PInt 0); ("loudness", PFloat (-6.746));
    ("tempo", PFloat 87.917); ("mode", PInt 0) ].

(** A row of the CSV file for "Comedy"; its [is_hit] column says False. *)
Definition csv_row (track_id : string) (duration_ms danceability : Csv.cell)
  : Csv.Row :=
  Csv.mkRow (Some track_id) (Some "Comedy") (Some "Gen Hoshino") (Some "Comedy")
    (Some "acoustic") (Csv.CInt 73) duration_ms danceability
    (Csv.CFloat 0.461) (Csv.CFloat 0.715) (Csv.CFloat 0.0322)
    (Csv.CFloat 0.00000101) (Csv.CFloat (-6.746)) (Csv.CFloat 87.917)
    (Csv.CInt 0) (Csv.CBool false) (Csv.CInt 1) (Csv.CFloat 0.143)
    (Csv.CFloat 0.358) (Csv.CInt 4) (Csv.CBool false).

Definition csv_columns : list string :=
  [ "track_id"; "artists"; "album_name"; "track_name"; "popularity";
    "duration_ms"; "explicit"; "danceability"; "energy"; "key"; "loudness";
    "mode"; "speechiness"; "acousticness"; "instrumentalness"; "liveness";
    "valence"; "tempo"; "time_signature"; "track_genre"; "is_hit" ].

(** Three rows: the duration of the first is empty, the second is
    complete, the danceability of the third is empty. *)
Definition csv_file : Csv.DataFrame :=
  Csv.mkDataFrame csv_columns
    [ csv_row "row1" Csv.NA (Csv.CFloat 0.676);
      csv_row "row2" (Csv.CInt 230666) (Csv.CFloat 0.676);
      csv_row "row3" (Csv.CInt 230666) Csv.NA ].

(** The documentation's example with one more field, ["note": NaN]. *)
Definition manual_with_nan : dict :=
  [ ("duration_ms", PInt 230666); ("danceability", PFloat 0.676);
    ("energy", PFloat 0.461); ("valence", PFloat 0.715);
    ("acousticness", PFloat 0.0322); ("instrumentalness", PFloat 0.00000101);
    ("explicit", PInt 0); ("loudness", PFloat (-6.746));
    ("tempo", PFloat 87.917); ("mode", PInt 0); ("note", PFloat nan) ].

(** The documentation's example of a manual request. *)
Definition manual_example : dict :=
  [ ("duration_ms", PInt 230666); ("danceability", PFloat 0.676);
    ("energy", PFloat 0.461); ("valence", PFloat 0.715);
    ("acousticness", PFloat 0.0322); ("instrumentalness", PFloat 0.00000101);
    ("explicit", PInt 0); ("loudness", PFloat (-6.746));
    ("tempo", PFloat 87.917); ("mode", PInt 0) ].

End Fixture.

(* ================================================================= *)
(** ** Vocabulary of the statements *)

(** The ten conversions of "Validate and convert", in the order in which
    the dictionary literal evaluates them, each reduced to whether it
    raises. *)
Definition ignore {A : Type} (r : Py.result A) : Py.result unit :=
  match r with Py.Ok _ => Py.Ok tt | Py.Raise e => Py.Raise e end.

Definition conversions (data : Py.dict) : list (Py.result unit) :=
  [ ignore (Views.int_item data "duration_ms");
    ignore (Inference.float_item data "danceability");
    ignore (Inference.float_item data "energy");
    ignore (Inference.float_item data "valence");
    ignore (Inference.float_item data "acousticness");
    ignore (Inference.float_item data "instrumentalness");
    ignore (Inference.float_item data "explicit");
    ignore (Inference.float_item data "loudness");
    ignore (Inference.float_item data "tempo");
    ignore (Views.int_item data "mode") ].

Fixpoint first_raise (l : list (Py.result unit)) : option Py.exn :=
  match l with
  | [] => None
  | Py.Ok _ :: l' => first_raise l'
  | Py.Raise e :: _ => Some e
  end.

(** The exceptions that [except (ValueError, TypeError)] catches. *)
Definition value_or_type_error (e : Py.exn) : bool :=
  match e with
  | Py.ValueError _ => true
  | Py.TypeError => true
  | _ => false
  end.

(** The body of a successful catalog prediction. *)
Definition body_of (r : Response) : option PredictionBody.t :=
  match r with Predicted b => Some b | _ => None end.

(** A stored song is consistent when its label is the one its popularity
    gives. *)
Definition consistent (s : Song.t) : Prop :=
  forall p, Song.popularity s = Some p -> Song.is_hit s = Some (50 <=? p).

Definition all_consistent (db : DB.t) : Prop := Forall consistent (DB.songs db).

(** What [persist] leaves behind, by the statement that raised. *)
Inductive persisted (be : Backend.t) (db db' : DB.t)
  : Py.result Response -> Prop :=
| persisted_nothing : forall e,
    DB.predictions db' = DB.predictions db ->
    DB.audit_logs db' = DB.audit_logs db ->
    persisted be db db' (Py.Raise e)
| persisted_orphan : forall p a,
    DB.predictions db' = p :: DB.predictions db ->
    DB.audit_logs db' = DB.audit_logs db ->
    PredictionAuditLog.prediction a = Prediction.id p ->
    Backend.accepts_audit be a = false ->
    persisted be db db' (Py.Raise Py.DatabaseError)
| persisted_both : forall p a response,
    DB.predictions db' = p :: DB.predictions db ->
    DB.audit_logs db' = a :: DB.audit_logs db ->
    PredictionAuditLog.prediction a = Prediction.id p ->
    status response = 200 ->
    persisted be db db' (Py.Ok response).

(** What a request leaves in the two tables, next to its answer. *)
Inductive left_behind (be : Backend.t) (db db' : DB.t) (response : Response)
  : Prop :=
| neither :
    DB.predictions db' = DB.predictions db ->
    DB.audit_logs db' = DB.audit_logs db ->
    status response <> 200 ->
    left_behind be db db' response
| both : forall p a,
    DB.predictions db' = p :: DB.predictions db ->
    DB.audit_logs db' = a :: DB.audit_logs db ->
    PredictionAuditLog.prediction a = Prediction.id p ->
    status response = 200 ->
    left_behind be db db' response
| prediction_only : forall p a,
    DB.predictions db' = p :: DB.predictions db ->
    DB.audit_logs db' = DB.audit_logs db ->
    PredictionAuditLog.prediction a = Prediction.id p ->
    Backend.accepts_audit be a = false ->
    status response = 500 ->
    left_behind be db db' response.

(** Every audit record refers to a stored prediction. *)
Definition audits_linked (db : DB.t) : Prop :=
  forall a, In a (DB.audit_logs db) ->
            exists p, In p (DB.predictions db)
                      /\ Prediction.id p = PredictionAuditLog.prediction a.

(* ================================================================= *)
(* ================================================================= *)
(** ** spotify_service.py: the access token and the authenticated request

    [SpotifyService._get_access_token] and [SpotifyService._make_request]
    (lines 50-101), below the typed catalog: the session keeps the token and
    its expiry, the clock is read with [time.time()], and the network
    answers each request, possibly differently each time. *)

Module SpotifySession.
Import Py.

Definition SPOTIFY_API_BASE : string := "https://api.spotify.com/v1".

(** [SPOTIFY_CLIENT_ID] and [SPOTIFY_CLIENT_SECRET]. *)
Record Credentials : Type := mkCredentials {
  client_id : string;
  client_secret : string
}.

(** The requests the client sends. *)
Inductive request : Type :=
| PostToken (client_id client_secret : string)
| Get (url : string) (bearer : string).

(** The JSON body of the token endpoint's answer: an object, with the
    keys the client reads at the types the endpoint documents (strings,
    and a whole number of seconds). *)
Record TokenBody : Type := mkTokenBody {
  error_description : option string;
  body_access_token : option string;
  expires_in : option Z
}.

(** An HTTP response: its status code and what [response.json()] gives. *)
Record Response (B : Type) : Type := mkResponse {
  status_code : Z;
  json : result B
}.

(** The network: the answer to a request, given the requests sent before
    it; [Raise e] when [requests.post] or [requests.get] itself raises. *)
Record Network : Type := mkNetwork {
  post : list request -> string -> string -> result (Response TokenBody);
  get : list request -> string -> string -> result (Response pyval)
}.

(** The service object, with what it did so far: the requests sent, oldest
    first, and the number of readings of the clock. *)
Record t : Type := mk {
  access_token : option string;
  token_expires_at : float;
  sent : list request;
  ticks : nat
}.

(** [SpotifyService.__init__] *)
Definition init : t := mk None 0 [] 0.

(** [raise Exception(f"Failed to get Spotify token: {error_msg}")] is a
    plain [Exception]; every other failure is one of the exceptions of
    [Py.exn]. *)
Inductive failure : Type :=
| TokenRefused (error_msg : string)
| Python (e : exn).

Inductive outcome (A : Type) : Type :=
| Returned (a : A)
| Failed (f : failure).

Arguments Returned {A} a.
Arguments Failed {A} f.

Definition log (r : request) (s : t) : t :=
  mk (access_token s) (token_expires_at s) (sent s ++ [r]) (ticks s).

Definition tick (s : t) : t :=
  mk (access_token s) (token_expires_at s) (sent s) (S (ticks s)).

Definition set_access_token (tok : option string) (s : t) : t :=
  mk tok (token_expires_at s) (sent s) (ticks s).

Definition set_token_expires_at (f : float) (s : t) : t :=
  mk (access_token s) f (sent s) (ticks s).

(** The token exchange of [_get_access_token] (lines 59-81). *)
Definition request_token (cred : Credentials) (clock : nat -> float)
    (net : Network) (s : t) : outcome string * t :=
  if orb (negb (truthy (client_id cred))) (negb (truthy (client_secret cred)))
  then (Failed (Python (ValueError CredentialsNotConfigured)), s)
  else
    let s1 := log (PostToken (client_id cred) (client_secret cred)) s in
    match post net (sent s) (client_id cred) (client_secret cred) with
    | Raise e => (Failed (Python e), s1)
    | Ok auth_response =>
        if negb (status_code auth_response =? 200) then
          match json auth_response with
          | Raise e => (Failed (Python e), s1)
          | Ok body =>
              (Failed (TokenRefused
                         (SpotifyService.default "Unknown error"
                            (error_description body))), s1)
          end
        else
          match json auth_response with
          | Raise e => (Failed (Python e), s1)
          | Ok token_data =>
              match body_access_token token_data with
              | None => (Failed (Python (KeyError "access_token")), s1)
              | Some tok =>
                  let s2 := set_access_token (Some tok) s1 in
                  let now := clock (ticks s2) in
                  let s3 := tick s2 in
                  match float_of_int
                          (SpotifyService.default 3600 (expires_in token_data)) with
                  | Raise e => (Failed (Python e), s3)
                  | Ok lifetime =>
                      (Returned tok, set_token_expires_at (now + lifetime)%float s3)
                  end
              end
          end
    end.

(** [_get_access_token] (lines 54-81): the clock is read only when a token
    is held. *)
Definition _get_access_token (cred : Credentials) (clock : nat -> float)
    (net : Network) (s : t) : outcome string * t :=
  match access_token s with
  | Some tok =>
      if truthy tok then
        let now := clock (ticks s) in
        let s1 := tick s in
        if PrimFloat.ltb now (token_expires_at s - 60)%float
        then (Returned tok, s1)
        else request_token cred clock net s1
      else request_token cred clock net s
  | None => request_token cred clock net s
  end.

(** [response.raise_for_status()] and [response.json()] (lines 100-101). *)
Definition conclude (response : Response pyval) (s : t) : outcome pyval * t :=
  if andb (400 <=? status_code response) (status_code response <? 600)
  then (Failed (Python HTTPError), s)
  else
    match json response with
    | Ok body => (Returned body, s)
    | Raise e => (Failed (Python e), s)
    end.

(** [_make_request] (lines 83-101). *)
Definition _make_request (cred : Credentials) (clock : nat -> float)
    (net : Network) (endpoint : string) (s : t) : outcome pyval * t :=
  match _get_access_token cred clock net s with
  | (Failed f, s1) => (Failed f, s1)
  | (Returned token, s1) =>
      let url := (SPOTIFY_API_BASE ++ endpoint)%string in
      let s2 := log (Get url token) s1 in
      match get net (sent s1) url token with
      | Raise e => (Failed (Python e), s2)
      | Ok response =>
          if status_code response =? 404
          then (Failed (Python (ValueError TrackNotFound)), s2)
          else if status_code response =? 401 then
            match _get_access_token cred clock net (set_access_token None s2) with
            | (Failed f, s3) => (Failed f, s3)
            | (Returned token', s3) =>
                let s4 := log (Get url token') s3 in
                match get net (sent s3) url token' with
                | Raise e => (Failed (Python e), s4)
                | Ok response' => conclude response' s4
                end
            end
          else conclude response s2
      end
  end.

End SpotifySession.

(* ================================================================= *)
(** ** spotify_service.py: the dataset search *)

(** [Song.objects....order_by('-popularity')]: the storage engine returns
    the rows by decreasing popularity.  Where it puts the rows whose
    popularity is null, and in which order it returns rows of equal
    popularity, is the engine's choice. *)
Module Ordering.

Definition t : Type := list Song.t -> list Song.t.

(** [a] may come before [b]. *)
Definition before (a b : Song.t) : Prop :=
  forall pa pb,
    Song.popularity a = Some pa -> Song.popularity b = Some pb -> pb <= pa.

Record lawful (order_by : t) : Prop := mkLawful {
  permutes : forall l, Permutation l (order_by l);
  sorts : forall l, StronglySorted before (order_by l)
}.

(** An engine that puts nulls last and keeps the table's order among
    rows of equal popularity. *)
Definition precedes (x y : Song.t) : bool :=
  match Song.popularity x, Song.popularity y with
  | Some px, Some py => py <=? px
  | Some _, None => true
  | None, Some _ => false
  | None, None => true
  end.

Fixpoint insert (x : Song.t) (l : list Song.t) : list Song.t :=
  match l with
  | [] => [x]
  | y :: l' => if precedes x y then x :: l else y :: insert x l'
  end.

Definition nulls_last : t := fold_right insert [].

End Ordering.

(** One entry of the list returned by [search_dataset]. *)
Module DatasetTrack.
Record t : Type := mk {
  id : string;
  title : string;
  artist : string;
  album : string;
  album_image : option string;
  duration_ms : Z;
  explicit : bool;
  popularity : Z;
  genre : string;
  in_dataset : bool
}.
End DatasetTrack.

Module DatasetSearch.
Import Py.

(** [Q(track_name__icontains=query) | Q(artists__icontains=query)] *)
Definition matches (query : string) (song : Song.t) : bool :=
  orb (Models.icontains (Song.track_name song) query)
      (Models.icontains (Song.artists song) query).

Definition to_track (song : Song.t) : DatasetTrack.t :=
  DatasetTrack.mk
    (SpotifyService.or_else (Song.track_id song) "")
    (SpotifyService.or_else (Song.track_name song) "")
    (SpotifyService.or_else (Song.artists song) "")
    (SpotifyService.or_else (Song.album_name song) "Unknown")
    None
    (Song.duration_ms song)
    (Song.explicit song)
    (SpotifyService.default 0 (Song.popularity song))
    (SpotifyService.or_else (Song.track_genre song) "unknown")
    true.

(** The rows of the query (spotify_service.py, lines 289-291). *)
Definition songs (order_by : Ordering.t) (db : DB.t) (query : string)
    (limit : nat) : list Song.t :=
  firstn limit (order_by (filter (matches query) (DB.songs db))).

(** [SpotifyService.search_dataset] (spotify_service.py, lines 274-308);
    [limit] is not negative. *)
Definition search_dataset (order_by : Ordering.t) (db : DB.t) (query : string)
    (limit : nat) : list DatasetTrack.t :=
  map to_track (songs order_by db query limit).

End DatasetSearch.

(* ================================================================= *)
(** ** views.py: the two search endpoints *)

Module SearchViews.
Import Py.

(** A request that passed [require_http_methods(["GET", "POST"])]: the
    query string's [q], or the outcome of [json.loads(request.body)],
    [None] when it raises [JSONDecodeError]. *)
Inductive Request : Type :=
| GET (q : option string)
| POST (body : option pyval).

Inductive Response : Type :=
| SpotifyTracks (tracks : list SearchResult.t) (query : string)     (* 200 *)
| DatasetTracks (tracks : list DatasetTrack.t) (query : string)     (* 200 *)
| MissingSearchQuery                                                (* 400 *)
| InvalidJSONFormat                                                 (* 400 *)
| SearchError (e : exn).                                            (* 500 *)

Definition status (r : Response) : Z :=
  match r with
  | SpotifyTracks _ _ => 200
  | DatasetTracks _ _ => 200
  | MissingSearchQuery => 400
  | InvalidJSONFormat => 400
  | SearchError _ => 500
  end.

(** [data.get('query', '').strip()]: only a JSON object has [get], only a
    string has [strip]. *)
Definition query_of_body (data : pyval) : result string :=
  match data with
  | PDict items =>
      match get items "query" with
      | None => Ok (strip "")
      | Some (PStr s) => Ok (strip s)
      | Some _ => Raise AttributeError
      end
  | _ => Raise AttributeError
  end.

(** The first lines of both views (views.py, lines 387-391 and 560-564):
    the query, trimmed. *)
Inductive parsed : Type :=
| Query (query : string)
| NotJSON                      (* [json.loads] raised [JSONDecodeError] *)
| Raised (e : exn).

Definition parse (request : Request) : parsed :=
  match request with
  | GET q => Query (strip (SpotifyService.default "" q))
  | POST None => NotJSON
  | POST (Some data) =>
      match query_of_body data with
      | Ok query => Query query
      | Raise e => Raised e
      end
  end.

(** [search_spotify] (views.py, lines 355-408). *)
Definition search_spotify (api : Catalog.t) (db : DB.t) (request : Request)
  : Response :=
  match parse request with
  | NotJSON => InvalidJSONFormat
  | Raised e => SearchError e
  | Query query =>
      if negb (truthy query) then MissingSearchQuery
      else
        match SpotifyService.search_tracks api db query 10 with
        | Ok tracks => SpotifyTracks tracks query
        | Raise e => SearchError e
        end
  end.

(** [search_dataset] (views.py, lines 529-584): its only [except] clause is
    [except Exception], which a [JSONDecodeError] reaches as well. *)
Definition search_dataset (order_by : Ordering.t) (db : DB.t)
    (request : Request) : Response :=
  match parse request with
  | NotJSON => SearchError (ValueError BuiltinValueError)
  | Raised e => SearchError e
  | Query query =>
      if negb (truthy query) then MissingSearchQuery
      else DatasetTracks (DatasetSearch.search_dataset order_by db query 20) query
  end.

End SearchViews.

(* ================================================================= *)
(** ** management/commands: clearing and the complete import *)

(** [Model.objects.all().delete()] on each of the three tables; a deletion
    cascades along the foreign keys ([on_delete=CASCADE]).  The keys that
    were handed out are not handed out again. *)
Module QuerySet.

Definition references_prediction (ps : list Prediction.t)
    (a : PredictionAuditLog.t) : bool :=
  existsb (fun p => Prediction.id p =? PredictionAuditLog.prediction a) ps.

Definition references_song (ss : list Song.t) (p : Prediction.t) : bool :=
  existsb (fun s => Song.id s =? Prediction.song p) ss.

Definition delete_audit_logs (db : DB.t) : DB.t :=
  DB.mk (DB.songs db) (DB.predictions db) []
        (DB.next_song db) (DB.next_prediction db) (DB.next_audit db).

Definition delete_predictions (db : DB.t) : DB.t :=
  DB.mk (DB.songs db) []
        (filter (fun a => negb (references_prediction (DB.predictions db) a))
                (DB.audit_logs db))
        (DB.next_song db) (DB.next_prediction db) (DB.next_audit db).

Definition delete_songs (db : DB.t) : DB.t :=
  let deleted := filter (references_song (DB.songs db)) (DB.predictions db) in
  DB.mk []
        (filter (fun p => negb (references_song (DB.songs db) p))
                (DB.predictions db))
        (filter (fun a => negb (references_prediction deleted a))
                (DB.audit_logs db))
        (DB.next_song db) (DB.next_prediction db) (DB.next_audit db).

(** [Song.objects.filter(is_hit=...).count()] *)
Definition count_is_hit (label : bool) (db : DB.t) : Z :=
  Z.of_nat (List.length
              (filter (fun s => match Song.is_hit s with
                                | Some b => Bool.eqb b label
                                | None => false
                                end) (DB.songs db))).

Definition count (A : Type) (table : list A) : Z := Z.of_nat (List.length table).

End QuerySet.

Module ClearDatabase.
Import Py.

Inductive report : Type :=
| Cancelled
| Cleared (song_count prediction_count audit_count : Z).

(** [Command.handle] (clear_database.py, lines 23-61); [answer] is what
    [input] returns, read only without [--confirm]. *)
Definition handle (confirm : bool) (answer : string) (db : DB.t)
  : report * DB.t :=
  if andb (negb confirm) (negb (String.eqb (lower answer) "yes"))
  then (Cancelled, db)
  else
    let song_count := QuerySet.count (DB.songs db) in
    let prediction_count := QuerySet.count (DB.predictions db) in
    let audit_count := QuerySet.count (DB.audit_logs db) in
    (Cleared song_count prediction_count audit_count,
     QuerySet.delete_songs
       (QuerySet.delete_predictions (QuerySet.delete_audit_logs db))).

End ClearDatabase.

Module ImportCompleteDataset.
Import Py.

(** The figures of the final report. *)
Record statistics : Type := mkStatistics {
  imported : Z;
  errors : Z;
  total_in_db : Z;
  hit_count : Z;
  flop_count : Z;
  all_imported : bool
}.

Inductive report : Type :=
| FileNotFound
| ErrorReadingCSV (e : exn)
| MissingColumns (cols : list string)
| ImportComplete (s : statistics)
| ZeroDivision (imported errors : Z).   (* [hit_count/total_in_db] raised *)

(** The state of the loop over the rows. *)
Record progress : Type := mkProgress {
  store : DB.t;
  records : list Song.t;
  imported_count : Z;
  error_count : Z
}.

(** One turn of the loop (import_complete_dataset.py, lines 102-149); the
    record is built as in [import_dataset]. *)
Definition import_row (be : Backend.t) (batch_size : Z) (st : progress)
    (row : Csv.Row) : progress :=
  match ImportDataset.make_record row with
  | Raise _ =>
      mkProgress (store st) (records st) (imported_count st) (error_count st + 1)
  | Ok record =>
      let records' := (records st ++ [record])%list in
      if batch_size <=? Z.of_nat (List.length records')
      then mkProgress (ImportDataset.bulk_create be records' (store st)) []
                      (imported_count st + Z.of_nat (List.length records'))
                      (error_count st)
      else mkProgress (store st) records' (imported_count st) (error_count st)
  end.

(** [Command.handle] (import_complete_dataset.py, lines 41-175), on the
    storage engine [be].  [file] is [None] when the path does not exist,
    and otherwise what [pd.read_csv] does. *)
Definition handle (be : Backend.t) (file : option (result Csv.DataFrame))
    (batch_size : Z) (no_clear : bool) (db : DB.t) : report * DB.t :=
  match file with
  | None => (FileNotFound, db)
  | Some read_csv =>
      let db0 :=
        if negb no_clear
        then QuerySet.delete_songs
               (QuerySet.delete_predictions (QuerySet.delete_audit_logs db))
        else db in
      match read_csv with
      | Raise e => (ErrorReadingCSV e, db0)
      | Ok df =>
          let total_records := Z.of_nat (List.length (Csv.rows df)) in
          match ImportDataset.missing_columns df with
          | (_ :: _) as cols => (MissingColumns cols, db0)
          | [] =>
              let st := fold_left (import_row be batch_size) (Csv.rows df)
                                  (mkProgress db0 [] 0 0) in
              let db1 := ImportDataset.bulk_create be (records st) (store st) in
              let imported_count :=
                imported_count st + Z.of_nat (List.length (records st)) in
              let total_in_db := QuerySet.count (DB.songs db1) in
              if total_in_db =? 0
              then (ZeroDivision imported_count (error_count st), db1)
              else
                (ImportComplete
                   (mkStatistics imported_count (error_count st) total_in_db
                      (QuerySet.count_is_hit true db1)
                      (QuerySet.count_is_hit false db1)
                      (total_in_db =? total_records)),
                 db1)
          end
      end
  end.

End ImportCompleteDataset.

(* ================================================================= *)
(** ** The two module-level caches *)

(** [inference.MODEL] and [spotify_service._dataset_cache]: each is [None]
    until the first load. *)
Module Cache.
Import Py.

(** [load_model] (inference.py, lines 26-40) with its cache: [file] is the
    unpickled artifact at [MODEL_PATH], [None] when there is no such
    file. *)
Definition load_model (file : option Classifier.t) (MODEL : option Classifier.t)
  : result Classifier.t * option Classifier.t :=
  match MODEL with
  | Some model => (Ok model, MODEL)
  | None =>
      match file with
      | Some model => (Ok model, Some model)
      | None => (Raise FileNotFoundError, None)
      end
  end.

(** [predict_song] (inference.py, lines 82-107) with the cache threaded. *)
Definition predict_song (file : option Classifier.t)
    (MODEL : option Classifier.t) (features : list float)
  : result (bool * number) * option Classifier.t :=
  match load_model file MODEL with
  | (Raise e, MODEL') => (Raise e, MODEL')
  | (Ok model, MODEL') =>
      (prediction <- Classifier.predict model features ;;
       confidence <- Inference.raw_confidence model features ;;
       Ok (negb (prediction =? 0), round_2 (times confidence 100)),
       MODEL')
  end.

Definition empty_frame : Csv.DataFrame := Csv.mkDataFrame [] [].

(** [get_dataset] (spotify_service.py, lines 34-44): [read_csv] is what
    [pd.read_csv(DATASET_PATH)] does. *)
Definition get_dataset (read_csv : result Csv.DataFrame)
    (_dataset_cache : option Csv.DataFrame)
  : result Csv.DataFrame * option Csv.DataFrame :=
  match _dataset_cache with
  | Some df => (Ok df, _dataset_cache)
  | None =>
      match read_csv with
      | Ok df => (Ok df, Some df)
      | Raise FileNotFoundError => (Ok empty_frame, Some empty_frame)
      | Raise e => (Raise e, None)
      end
  end.

End Cache.

(* ================================================================= *)
(** ** More vocabulary of the statements *)

(** Whether every character of a string satisfies [p], and whether the
    character [c] occurs in it. *)
Fixpoint all_chars (p : ascii -> bool) (s : string) : bool :=
  match s with
  | EmptyString => true
  | String c s' => andb (p c) (all_chars p s')
  end.

Fixpoint occurs (c : ascii) (s : string) : bool :=
  match s with
  | EmptyString => false
  | String c' s' => orb (Ascii.eqb c c') (occurs c s')
  end.

(** The characters of a catalog identifier: digits and ASCII letters. *)
Definition base62 (c : ascii) : bool :=
  let n := nat_of_ascii c in
  orb (andb (Nat.leb 48 n) (Nat.leb n 57))
      (orb (andb (Nat.leb 65 n) (Nat.leb n 90))
           (andb (Nat.leb 97 n) (Nat.leb n 122))).

Definition identifier (s : string) : bool := all_chars base62 s.

(** The characters of what may follow the identifier in a shared link:
    anything but white space and a slash. *)
Definition link_char (c : ascii) : bool :=
  negb (orb (Py.is_space c) (Ascii.eqb c "/"%char)).

(** The order of the search results, as a reader sees it: a track of the
    dataset is never listed after one that is not in it, and of two tracks
    that are both in the dataset, or both not, the less popular one is
    never listed first. *)
Definition ranked_before (a b : SearchResult.t) : Prop :=
  (SearchResult.in_dataset b = true -> SearchResult.in_dataset a = true)
  /\ (SearchResult.in_dataset a = SearchResult.in_dataset b ->
      SearchResult.popularity b <= SearchResult.popularity a).

(** The tracks with a given sort key. *)
Definition with_key (in_dataset : bool) (popularity : Z) (r : SearchResult.t)
  : bool :=
  andb (Bool.eqb (SearchResult.in_dataset r) in_dataset)
       (SearchResult.popularity r =? popularity).

(** Whether a request is a [GET]. *)
Definition is_get (r : SpotifySession.request) : bool :=
  match r with SpotifySession.Get _ _ => true | SpotifySession.PostToken _ _ => false end.

(** The records of the rows of a file that convert, in the file's order,
    and the same records with the primary keys handed out from [next]
    on. *)
Definition convertible (rows : list Csv.Row) : list Song.t :=
  flat_map (fun row => match ImportDataset.make_record row with
                       | Py.Ok record => [record]
                       | Py.Raise _ => []
                       end) rows.

Fixpoint numbered (next : Z) (records : list Song.t) : list Song.t :=
  match records with
  | [] => []
  | record :: rest => Song.set_id next record :: numbered (next + 1) rest
  end.

(** The rows that a bulk insert of [records] leaves in the table: the
    numbered records that the engine does not skip. *)
Definition stored (be : Backend.t) (next : Z) (records : list Song.t)
  : list Song.t :=
  filter (Backend.accepts_song be) (numbered next records).


(** The database with its three tables emptied. *)
Definition emptied (db : DB.t) : DB.t :=
  DB.mk [] [] [] (DB.next_song db) (DB.next_prediction db) (DB.next_audit db).

(** Whether the import finds the row's track id in the table ([exists()]
    in import_dataset.py, lines 80-82). *)
Definition already_stored (db : DB.t) (row : Csv.Row) : bool :=
  match Models.filter_track_id (ImportDataset.lookup_key (Csv.track_id row)) db with
  | [] => false
  | _ :: _ => true
  end.

(** The derived flags of a song are those its features give. *)
Definition flags_derived (s : Song.t) : Prop :=
  Song.is_acoustic s = PrimFloat.ltb 0.5 (Song.acousticness s)
  /\ Song.is_instrumental s = PrimFloat.ltb 0.5 (Song.instrumentalness s).



(** Primary keys are unique and were handed out by the counter. *)
Definition keys_fresh (db : DB.t) : Prop :=
  NoDup (map Song.id (DB.songs db))
  /\ Forall (fun i => i < DB.next_song db) (map Song.id (DB.songs db)).

(** No track id is stored twice. *)
Definition one_row_per_track (db : DB.t) : Prop :=
  forall tid, (List.length (Models.filter_track_id tid db) <= 1)%nat.

(** [a] occurs in [b]. *)
Definition substring (a b : string) : Prop :=
  exists p q, b = (p ++ a ++ q)%string.

(* ================================================================= *)
(** ** More concrete inputs *)

Module Scenario.
Import Py.

(** A file that lists the track "Comedy" twice. *)
Definition listed_twice : Csv.DataFrame :=
  Csv.mkDataFrame Fixture.csv_columns
    [ Fixture.csv_row Fixture.comedy_id (Csv.CInt 230666) (Csv.CFloat 0.676);
      Fixture.csv_row Fixture.comedy_id (Csv.CInt 230666) (Csv.CFloat 0.676) ].

(** A small table: "Comedy" (popularity 73), "Comedy Club" (no
    popularity) and "Tragedy" (popularity 90). *)
Definition plain_song (id : Z) (title artist : string) (popularity : option Z)
  : Song.t :=
  Song.mk id None (Some title) (Some artist) None popularity None
    200000 0.5 0.5 0.5 0.5 0.5 None None (-5) 120 1 None None false false false
    (option_map (fun p => 50 <=? p) popularity).

Definition library : DB.t :=
  DB.mk [ plain_song 3 "Comedy Club" "Someone" None;
          plain_song 2 "Tragedy" "Someone Else" (Some 90);
          Fixture.comedy ] [] [] 4 1 1.

(** A session that holds the token ["stale"], still valid by the clock,
    a network that answers 401 under that token and the requested address
    under any other, and a token endpoint that grants ["fresh"] for an
    hour. *)
Definition credentials : SpotifySession.Credentials :=
  SpotifySession.mkCredentials "client" "secret".

Definition session : SpotifySession.t :=
  SpotifySession.mk (Some "stale") 5000 [] 0.

Definition clock (n : nat) : float := 1000.

Definition network : SpotifySession.Network :=
  SpotifySession.mkNetwork
    (fun _ _ _ =>
       Ok (SpotifySession.mkResponse 200
             (Ok (SpotifySession.mkTokenBody None (Some "fresh") (Some 3600)))))
    (fun _ url bearer =>
       if String.eqb bearer "stale"
       then Ok (SpotifySession.mkResponse 401 (Ok PNone))
       else Ok (SpotifySession.mkResponse 200 (Ok (PStr url)))).

(** A network whose every answer is 404. *)
Definition nothing_there : SpotifySession.Network :=
  SpotifySession.mkNetwork (SpotifySession.post network)
    (fun _ _ _ => Ok (SpotifySession.mkResponse 404 (Ok PNone))).

(** A manual request under the title and artist of the dataset row. *)
Definition manual_comedy : ManualRequest.t :=
  ManualRequest.mk (Some "Comedy") (Some "Gen Hoshino") Fixture.manual_example.



End Scenario.

(** * Properties *)

Import Py.

Unset Implicit Arguments.

Ltac break_match :=
  match goal with
  | H : context [match ?x with _ => _ end] |- _ => destruct x eqn:?
  | |- context [match ?x with _ => _ end] => destruct x eqn:?
  end.

Ltac inv H := inversion H; subst; clear H.

Ltac solve_frame :=
  repeat (break_match; try discriminate);
  repeat match goal with
         | H : (_, _) = (_, _) |- _ => inv H
         end;
  simpl; auto.

(** ** The writes of a request *)

(** A table of the database other than [songs] is left alone by
    [store_song]. *)
Lemma store_song_frame :
  forall be track_id audio_data db r db1,
    Views.store_song be track_id audio_data db = (r, db1) ->
    DB.predictions db1 = DB.predictions db
    /\ DB.audit_logs db1 = DB.audit_logs db
    /\ DB.next_prediction db1 = DB.next_prediction db
    /\ DB.next_audit db1 = DB.next_audit db.
Proof.
  intros be track_id audio_data db r db1 H.
  unfold Views.store_song, Models.Song_get_or_create, Models.Song_create,
    Models.Song_save, Models.insert_song, Models.update_song in H.
  solve_frame.
Qed.

Lemma persist_persisted :
  forall be data track_id audio_data model_hit model_confidence db r db',
    Views.persist be data track_id audio_data model_hit model_confidence db
      = (r, db') ->
    persisted be db db' r.
Proof.
  intros be data track_id audio_data model_hit model_confidence db r db' H.
  unfold Views.persist in H.
  destruct (Views.store_song be track_id audio_data db) as [[song|e] db1] eqn:Hs.
  - apply store_song_frame in Hs. destruct Hs as (Hp & Ha & Hnp & Hna).
    unfold Models.Prediction_create in H.
    destruct (Backend.accepts_prediction be _) eqn:Hacc.
    + unfold Models.PredictionAuditLog_create in H. simpl in H.
      destruct (Backend.accepts_audit be _) eqn:Hacc2; inv H.
      * eapply persisted_both; simpl.
        -- now rewrite Hp.
        -- now rewrite Ha.
        -- reflexivity.
        -- reflexivity.
      * refine (@persisted_orphan be db _ _ _ _ _ _ Hacc2); simpl.
        -- now rewrite Hp.
        -- exact Ha.
        -- reflexivity.
    + inv H. eapply persisted_nothing; eauto.
  - inv H. apply store_song_frame in Hs. destruct Hs as (Hp & Ha & _).
    eapply persisted_nothing; eauto.
Qed.

(** A successful [persist] stored the prediction it answers with. *)
Lemma persist_ok :
  forall be data track_id audio_data model_hit model_confidence db response db',
    Views.persist be data track_id audio_data model_hit model_confidence db
      = (Ok response, db') ->
    exists song db1 p,
      Views.store_song be track_id audio_data db = (Ok song, db1)
      /\ p = Prediction.set_id (DB.next_prediction db1)
               (Views.new_prediction song audio_data model_hit
                                     (value model_confidence))
      /\ response = Predicted (Views.response_data track_id audio_data model_hit
                                 model_confidence song p)
      /\ DB.predictions db' = p :: DB.predictions db.
Proof.
  intros be data track_id audio_data model_hit model_confidence db response db' H.
  unfold Views.persist in H.
  destruct (Views.store_song be track_id audio_data db) as [[song|e] db1] eqn:Hs;
    [ | discriminate ].
  pose proof (store_song_frame _ _ _ _ _ _ Hs) as (Hp & _).
  unfold Models.Prediction_create, Models.PredictionAuditLog_create in H.
  destruct (Backend.accepts_prediction be _); [ | discriminate ].
  simpl in H.
  destruct (Backend.accepts_audit be _); [ | discriminate ].
  inv H. exists song, db1. eexists. repeat split. simpl. now rewrite Hp.
Qed.

Lemma handle_exception_not_200 : forall e, status (handle_exception e) <> 200.
Proof. intros [ why | | | | | | | | | ]; simpl; discriminate. Qed.

(** The reconciled verdict is what a successful request stores and
    reports. *)
Lemma predict_from_spotify_verdict :
  forall w db data body db' audio_data track_id model_hit model_confidence,
    Views.predict_from_spotify w db data = (Predicted body, db') ->
    Views.resolve (World.api w) db data = Ok (Views.Resolved audio_data track_id) ->
    Views.model_verdict (World.artifact w) audio_data
      = Ok (model_hit, model_confidence) ->
    let v := Views.reconcile (AudioData.source audio_data) model_hit
                             (value model_confidence) in
    PredictionBody.prediction body = label_of (Verdict.is_hit v)
    /\ PredictionBody.confidence body
       = value (round_2 (Views.reconciled_confidence
                           (AudioData.source audio_data) model_hit
                           model_confidence))
    /\ PredictionBody.model_confidence body = value (round_2 model_confidence)
    /\ exists p,
         DB.predictions db' = p :: DB.predictions db
         /\ Prediction.is_hit p = Verdict.is_hit v
         /\ Prediction.confidence p = Verdict.confidence v
         /\ Prediction.adjusted_by_dataset p = Verdict.adjusted_by_dataset v
         /\ Prediction.model_prediction p = label_of model_hit
         /\ Prediction.model_confidence p = value model_confidence.
Proof.
  intros w db data body db' audio_data track_id model_hit model_confidence
         Hrun Hres Hmodel v.
  unfold Views.predict_from_spotify in Hrun. rewrite Hres, Hmodel in Hrun.
  destruct (Views.persist _ _ _ _ _ _ _) as [[response|e] db2] eqn:Hp;
    simpl in Hrun.
  - inv Hrun. apply persist_ok in Hp.
    destruct Hp as (song & db1 & p & _ & Hp & Hbody & Hrows).
    inv Hbody. simpl. repeat split. eexists. split; [ exact Hrows | ].
    simpl. repeat split.
  - inv Hrun. exfalso. eapply handle_exception_not_200.
    match goal with H : handle_exception _ = _ |- _ => rewrite H end.
    reflexivity.
Qed.

(** ** C1 and C2: reconciliation *)

Lemma ltb_leb : forall x y, PrimFloat.ltb x y = true -> PrimFloat.leb x y = true.
Proof.
  intros x y. rewrite ltb_spec, leb_spec. unfold SFltb, SFleb.
  destruct (SFcompare _ _) as [ [ | | ] | ]; congruence.
Qed.

(** The confidence that is reported is the confidence that is stored,
    as the object it is. *)
Lemma reconciled_confidence_value :
  forall source model_hit model_confidence,
    value (Views.reconciled_confidence source model_hit model_confidence)
    = Verdict.confidence
        (Views.reconcile source model_hit (value model_confidence)).
Proof.
  intros [ genre is_hit_in_dataset | ] model_hit model_confidence; simpl;
    [ | reflexivity ].
  destruct (negb (Bool.eqb is_hit_in_dataset model_hit)); simpl;
    unfold max_of, min_of, Py.max, Py.min;
    destruct model_confidence as [ x | x ]; simpl;
    destruct (PrimFloat.ltb _ _); reflexivity.
Qed.

(** C1.  A prediction whose features come with a reference-dataset label
    that disagrees with the model's label takes the dataset's label, the
    confidence [max(60.0, model_confidence + 10.0)] and is marked as
    adjusted: this is the verdict computed, the row stored and (rounded to
    two decimals) the response of a successful request.  The maximum is
    the raised confidence when that is above 60 and is 60 otherwise, so
    it is never below 60.  In particular the model's FLOP at 50.0 against
    a dataset HIT gives HIT at 60.0, adjusted. *)
Theorem C1_dataset_label_wins_on_disagreement :
  forall w db data body db' audio_data track_id model_hit model_confidence
         genre reference_is_hit,
    Views.predict_from_spotify w db data = (Predicted body, db') ->
    Views.resolve (World.api w) db data = Ok (Views.Resolved audio_data track_id) ->
    Views.model_verdict (World.artifact w) audio_data
      = Ok (model_hit, model_confidence) ->
    AudioData.source audio_data = dataset genre reference_is_hit ->
    reference_is_hit <> model_hit ->
    let raised := (value model_confidence + 10)%float in
    exists confidence,
      Views.reconcile (AudioData.source audio_data) model_hit
                      (value model_confidence)
        = Verdict.mk reference_is_hit confidence true
      /\ confidence = Py.max 60 raised
      /\ (PrimFloat.ltb 60 raised = true -> confidence = raised)
      /\ (PrimFloat.ltb 60 raised = false -> confidence = 60%float)
      /\ PrimFloat.leb 60 confidence = true
      /\ PredictionBody.prediction body = label_of reference_is_hit
      /\ (PrimFloat.ltb 60 raised = true ->
          PredictionBody.confidence body
          = value (round_2 (plus model_confidence 10)))
      /\ (PrimFloat.ltb 60 raised = false ->
          PredictionBody.confidence body = 60%float)
      /\ (exists p,
            DB.predictions db' = p :: DB.predictions db
            /\ Prediction.is_hit p = reference_is_hit
            /\ Prediction.confidence p = confidence
            /\ Prediction.adjusted_by_dataset p = true)
      /\ Views.reconcile (dataset genre true) false 50
         = Verdict.mk true 60 true.
Proof.
  intros w db data body db' audio_data track_id model_hit model_confidence
         genre reference_is_hit Hrun Hres Hmodel Hsrc Hneq raised.
  assert (Hv : Views.reconcile (AudioData.source audio_data) model_hit
                 (value model_confidence)
               = Verdict.mk reference_is_hit (Py.max 60 raised) true).
  { rewrite Hsrc. unfold Views.reconcile.
    destruct reference_is_hit, model_hit; try reflexivity; congruence. }
  assert (Hr : Views.reconciled_confidence (AudioData.source audio_data)
                 model_hit model_confidence
               = max_of 60 (plus model_confidence 10)).
  { rewrite Hsrc. unfold Views.reconciled_confidence.
    destruct reference_is_hit, model_hit; try reflexivity; congruence. }
  assert (Hplus : value (plus model_confidence 10) = raised)
    by (destruct model_confidence; reflexivity).
  pose proof (predict_from_spotify_verdict _ _ _ _ _ _ _ _ _ Hrun Hres Hmodel)
    as (Hlabel & Hconf & _ & p & Hrows & Hhit & Hpc & Hadj & _).
  rewrite Hv in Hlabel, Hhit, Hpc, Hadj. rewrite Hr in Hconf. simpl in *.
  exists (Py.max 60 raised). unfold Py.max, max_of in *. rewrite Hplus in Hconf.
  destruct (PrimFloat.ltb 60 raised) eqn:Hlt.
  - repeat split; auto; try discriminate.
    + now apply ltb_leb.
    + exists p. auto.
  - repeat split; auto; try discriminate.
    exists p. auto.
Qed.

(** The dataset says HIT (popularity 73) and the classifier says FLOP
    with probability 0.7246 for HIT: the request answers HIT at 82.46.
    With probability 0.5, the documentation's example, it answers HIT at
    60.0. *)
Lemma C1_witness :
  (exists body db',
      Views.predict_from_spotify
          (Fixture.world (Fixture.constant_classifier 0 0.7246))
          Fixture.dataset_db Fixture.by_url = (Predicted body, db')
      /\ PredictionBody.model_confidence body = 72.46%float
      /\ PredictionBody.prediction body = HIT
      /\ PredictionBody.confidence body = 82.46%float
      /\ exists p,
           DB.predictions db' = p :: nil
           /\ Prediction.is_hit p = true
           /\ Prediction.confidence p = 82.46%float
           /\ Prediction.adjusted_by_dataset p = true)
  /\ (exists body db',
        Views.predict_from_spotify
            (Fixture.world (Fixture.constant_classifier 0 0.5))
            Fixture.dataset_db Fixture.by_url = (Predicted body, db')
        /\ PredictionBody.prediction body = HIT
        /\ PredictionBody.confidence body = 60%float).
Proof.
  split.
  - pose (w := Fixture.world (Fixture.constant_classifier 0 0.7246)).
    destruct (Views.resolve (World.api w) Fixture.dataset_db Fixture.by_url)
      as [[audio_data track_id | r] | e] eqn:Hres;
      try (vm_compute in Hres; discriminate).
    destruct (Views.predict_from_spotify w Fixture.dataset_db Fixture.by_url)
      as [response db'] eqn:Hrun.
    destruct response as [body | | | | | | | | ];
      try (vm_compute in Hrun; discriminate).
    assert (Hsrc : AudioData.source audio_data = dataset "acoustic" true)
      by (vm_compute in Hres; inv Hres; reflexivity).
    assert (Hmodel : Views.model_verdict (World.artifact w) audio_data
                     = Ok (false, Float64 72.46))
      by (vm_compute in Hres; inv Hres; vm_compute; reflexivity).
    destruct (C1_dataset_label_wins_on_disagreement _ _ _ _ _ _ _ _ _ _ _
                Hrun Hres Hmodel Hsrc ltac:(discriminate))
      as (confidence & _ & _ & Hraised & _ & _ & Hlabel & Hconf & _
          & (p & Hrows & Hhit & Hpc & Hadj) & _).
    exists body, db'. split; [ exact Hrun | ].
    split; [ vm_compute in Hrun; inv Hrun; reflexivity | ].
    split; [ exact Hlabel | ].
    split; [ exact (Hconf eq_refl) | ].
    exists p. rewrite Hpc, (Hraised eq_refl). repeat split; assumption.
  - pose (w := Fixture.world (Fixture.constant_classifier 0 0.5)).
    destruct (Views.resolve (World.api w) Fixture.dataset_db Fixture.by_url)
      as [[audio_data track_id | r] | e] eqn:Hres;
      try (vm_compute in Hres; discriminate).
    destruct (Views.predict_from_spotify w Fixture.dataset_db Fixture.by_url)
      as [response db'] eqn:Hrun.
    destruct response as [body | | | | | | | | ];
      try (vm_compute in Hrun; discriminate).
    assert (Hsrc : AudioData.source audio_data = dataset "acoustic" true)
      by (vm_compute in Hres; inv Hres; reflexivity).
    assert (Hmodel : Views.model_verdict (World.artifact w) audio_data
                     = Ok (false, Float64 50))
      by (vm_compute in Hres; inv Hres; vm_compute; reflexivity).
    destruct (C1_dataset_label_wins_on_disagreement _ _ _ _ _ _ _ _ _ _ _
                Hrun Hres Hmodel Hsrc ltac:(discriminate))
      as (confidence & _ & _ & _ & _ & _ & Hlabel & _ & Hconf & _).
    exists body, db'. split; [ exact Hrun | ].
    split; [ exact Hlabel | exact (Hconf eq_refl) ].
Defined.

(** C2.  When the dataset label agrees with the model's label the request
    keeps that label, takes the confidence [min(95.0, model_confidence +
    5.0)] and is not marked as adjusted: the minimum is the raised
    confidence when that is below 95 and is 95 otherwise, so it is never
    above 95.  Without a dataset label the model's label and confidence
    stand unchanged, not adjusted.  At 92.0 the boosted confidence is
    95.0, although 92.0 + 5.0 is 97.0. *)
Theorem C2_agreement_boosts_up_to_95 :
  forall w db data body db' audio_data track_id model_hit model_confidence,
    Views.predict_from_spotify w db data = (Predicted body, db') ->
    Views.resolve (World.api w) db data = Ok (Views.Resolved audio_data track_id) ->
    Views.model_verdict (World.artifact w) audio_data
      = Ok (model_hit, model_confidence) ->
    let raised := (value model_confidence + 5)%float in
    (forall genre,
        AudioData.source audio_data = dataset genre model_hit ->
        exists confidence,
          Views.reconcile (AudioData.source audio_data) model_hit
                          (value model_confidence)
            = Verdict.mk model_hit confidence false
          /\ confidence = Py.min 95 raised
          /\ (PrimFloat.ltb raised 95 = true -> confidence = raised)
          /\ (PrimFloat.ltb raised 95 = false -> confidence = 95%float)
          /\ PrimFloat.leb confidence 95 = true
          /\ PredictionBody.prediction body = label_of model_hit
          /\ (PrimFloat.ltb raised 95 = true ->
              PredictionBody.confidence body
              = value (round_2 (plus model_confidence 5)))
          /\ (PrimFloat.ltb raised 95 = false ->
              PredictionBody.confidence body = 95%float)
          /\ exists p,
               DB.predictions db' = p :: DB.predictions db
               /\ Prediction.is_hit p = model_hit
               /\ Prediction.confidence p = confidence
               /\ Prediction.adjusted_by_dataset p = false)
    /\ (AudioData.source audio_data = spotify_api ->
        Views.reconcile (AudioData.source audio_data) model_hit
                        (value model_confidence)
          = Verdict.mk model_hit (value model_confidence) false
        /\ PredictionBody.prediction body = label_of model_hit
        /\ PredictionBody.confidence body = value (round_2 model_confidence)
        /\ exists p,
             DB.predictions db' = p :: DB.predictions db
             /\ Prediction.is_hit p = model_hit
             /\ Prediction.confidence p = value model_confidence
             /\ Prediction.adjusted_by_dataset p = false)
    /\ (forall genre,
          Views.reconcile (dataset genre true) true 92 = Verdict.mk true 95 false)
    /\ (92 + 5)%float = 97%float.
Proof.
  intros w db data body db' audio_data track_id model_hit model_confidence
         Hrun Hres Hmodel raised.
  pose proof (predict_from_spotify_verdict _ _ _ _ _ _ _ _ _ Hrun Hres Hmodel)
    as (Hlabel & Hconf & _ & p & Hrows & Hhit & Hpc & Hadj & _).
  split; [ | split; [ | split; [ | reflexivity ] ] ].
  - intros genre Hsrc.
    assert (Hv : Views.reconcile (AudioData.source audio_data) model_hit
                   (value model_confidence)
                 = Verdict.mk model_hit (Py.min 95 raised) false).
    { rewrite Hsrc. unfold Views.reconcile. now rewrite Bool.eqb_reflx. }
    assert (Hr : Views.reconciled_confidence (AudioData.source audio_data)
                   model_hit model_confidence
                 = min_of 95 (plus model_confidence 5)).
    { rewrite Hsrc. unfold Views.reconciled_confidence.
      now rewrite Bool.eqb_reflx. }
    assert (Hplus : value (plus model_confidence 5) = raised)
      by (destruct model_confidence; reflexivity).
    rewrite Hv in Hlabel, Hhit, Hpc, Hadj. rewrite Hr in Hconf. simpl in *.
    exists (Py.min 95 raised). unfold Py.min, min_of in *.
    rewrite Hplus in Hconf.
    destruct (PrimFloat.ltb raised 95) eqn:Hlt.
    + repeat split; auto; try discriminate.
      * now apply ltb_leb.
      * exists p. auto.
    + repeat split; auto; try discriminate.
      exists p. auto.
  - intros Hsrc.
    assert (Hv : Views.reconcile (AudioData.source audio_data) model_hit
                   (value model_confidence)
                 = Verdict.mk model_hit (value model_confidence) false)
      by now rewrite Hsrc.
    rewrite Hv in Hlabel, Hhit, Hpc, Hadj. rewrite Hsrc in Hconf. simpl in *.
    repeat split; auto. exists p. auto.
  - intros genre. reflexivity.
Qed.

(** The dataset says HIT and the classifier says HIT with probability
    0.7246: the request answers HIT at 77.46.  With probability 0.92 it
    answers HIT at 95.0. *)
Lemma C2_witness :
  (exists body db',
      Views.predict_from_spotify
          (Fixture.world (Fixture.constant_classifier 1 0.7246))
          Fixture.dataset_db Fixture.by_url = (Predicted body, db')
      /\ PredictionBody.model_confidence body = 72.46%float
      /\ PredictionBody.prediction body = HIT
      /\ PredictionBody.confidence body = 77.46%float
      /\ exists p,
           DB.predictions db' = p :: nil
           /\ Prediction.is_hit p = true
           /\ Prediction.confidence p = 77.46%float
           /\ Prediction.adjusted_by_dataset p = false)
  /\ (exists body db',
        Views.predict_from_spotify
            (Fixture.world (Fixture.constant_classifier 1 0.92))
            Fixture.dataset_db Fixture.by_url = (Predicted body, db')
        /\ PredictionBody.model_confidence body = 92%float
        /\ PredictionBody.prediction body = HIT
        /\ PredictionBody.confidence body = 95%float).
Proof.
  split.
  - pose (w := Fixture.world (Fixture.constant_classifier 1 0.7246)).
    destruct (Views.resolve (World.api w) Fixture.dataset_db Fixture.by_url)
      as [[audio_data track_id | r] | e] eqn:Hres;
      try (vm_compute in Hres; discriminate).
    destruct (Views.predict_from_spotify w Fixture.dataset_db Fixture.by_url)
      as [response db'] eqn:Hrun.
    destruct response as [body | | | | | | | | ];
      try (vm_compute in Hrun; discriminate).
    assert (Hsrc : AudioData.source audio_data = dataset "acoustic" true)
      by (vm_compute in Hres; inv Hres; reflexivity).
    assert (Hmodel : Views.model_verdict (World.artifact w) audio_data
                     = Ok (true, Float64 72.46))
      by (vm_compute in Hres; inv Hres; vm_compute; reflexivity).
    destruct (C2_agreement_boosts_up_to_95 _ _ _ _ _ _ _ _ _ Hrun Hres Hmodel)
      as (Hagree & _).
    destruct (Hagree _ Hsrc)
      as (confidence & _ & _ & Hraised & _ & _ & Hlabel & Hconf & _
          & (p & Hrows & Hhit & Hpc & Hadj)).
    exists body, db'. split; [ exact Hrun | ].
    split; [ vm_compute in Hrun; inv Hrun; reflexivity | ].
    split; [ exact Hlabel | ].
    split; [ exact (Hconf eq_refl) | ].
    exists p. rewrite Hpc, (Hraised eq_refl). repeat split; assumption.
  - pose (w := Fixture.world (Fixture.constant_classifier 1 0.92)).
    destruct (Views.resolve (World.api w) Fixture.dataset_db Fixture.by_url)
      as [[audio_data track_id | r] | e] eqn:Hres;
      try (vm_compute in Hres; discriminate).
    destruct (Views.predict_from_spotify w Fixture.dataset_db Fixture.by_url)
      as [response db'] eqn:Hrun.
    destruct response as [body | | | | | | | | ];
      try (vm_compute in Hrun; discriminate).
    assert (Hsrc : AudioData.source audio_data = dataset "acoustic" true)
      by (vm_compute in Hres; inv Hres; reflexivity).
    assert (Hmodel : Views.model_verdict (World.artifact w) audio_data
                     = Ok (true, Float64 92))
      by (vm_compute in Hres; inv Hres; vm_compute; reflexivity).
    destruct (C2_agreement_boosts_up_to_95 _ _ _ _ _ _ _ _ _ Hrun Hres Hmodel)
      as (Hagree & _).
    destruct (Hagree _ Hsrc)
      as (confidence & _ & _ & _ & _ & _ & Hlabel & _ & Hconf & _).
    exists body, db'. split; [ exact Hrun | ].
    split; [ vm_compute in Hrun; inv Hrun; reflexivity | ].
    split; [ exact Hlabel | exact (Hconf eq_refl) ].
Defined.

(** ** The matching rule of the dataset lookup *)

Section FirstMatch.
Variable A : Type.
Variable f : A -> bool.

Lemma first_match_some :
  forall l x, hd_error (filter f l) = Some x -> In x l /\ f x = true.
Proof.
  induction l as [ | y l IH ]; simpl; intros x H; [ discriminate | ].
  destruct (f y) eqn:Hy.
  - simpl in H. inv H. auto.
  - destruct (IH _ H). auto.
Qed.

Lemma first_match_none :
  forall l, hd_error (filter f l) = None <-> (forall x, In x l -> f x = false).
Proof.
  induction l as [ | y l IH ]; simpl.
  - split; [ intros _ x [] | reflexivity ].
  - destruct (f y) eqn:Hy; simpl.
    + split; [ discriminate | ]. intros H.
      specialize (H y (or_introl eq_refl)). congruence.
    + rewrite IH. split.
      * intros H x [ <- | Hin ]; auto.
      * intros H x Hin. apply H. now right.
Qed.

Lemma first_match_exists :
  forall l x, In x l -> f x = true -> exists y, hd_error (filter f l) = Some y.
Proof.
  intros l x Hin Hx.
  destruct (hd_error (filter f l)) as [ y | ] eqn:H; [ now exists y | ].
  rewrite first_match_none in H. rewrite (H _ Hin) in Hx. discriminate.
Qed.
End FirstMatch.

Lemma startswith_refl : forall s, startswith s s = true.
Proof.
  induction s as [ | c s IH ]; simpl; [ reflexivity | ].
  now rewrite Ascii.eqb_refl, IH.
Qed.

Lemma contains_refl : forall s, contains s s = true.
Proof. intros [ | c s ]; simpl; [ reflexivity | ].
  now rewrite Ascii.eqb_refl, startswith_refl. Qed.

(** A title that matches exactly also matches as a substring. *)
Lemma iexact_icontains :
  forall column v, Models.iexact column v = true -> Models.icontains column v = true.
Proof.
  intros [ c | ] v; simpl; [ | discriminate ].
  intros H. apply String.eqb_eq in H. rewrite H. apply contains_refl.
Qed.

Lemma exact_match_partial :
  forall t a s,
    SpotifyService.exact_match t a s = true ->
    SpotifyService.partial_match t a s = true.
Proof.
  unfold SpotifyService.exact_match, SpotifyService.partial_match.
  intros t a s H. apply andb_true_iff in H. destruct H as (Ht & Ha).
  now rewrite (iexact_icontains _ _ Ht), Ha.
Qed.

(** The matching rule of the dataset lookup. *)
Lemma find_song_rule :
  forall db title artist,
    let t := strip title in
    let a := SpotifyService.artist_first artist in
    (forall song,
        SpotifyService.find_song db title artist = Some song ->
        In song (DB.songs db)
        /\ Models.icontains (Song.artists song) a = true
        /\ (Models.iexact (Song.track_name song) t = true
            \/ ((forall s, In s (DB.songs db) ->
                           SpotifyService.exact_match t a s = false)
                /\ Models.icontains (Song.track_name song) t = true)))
    /\ (forall s, In s (DB.songs db) ->
                  SpotifyService.exact_match t a s = true ->
                  exists song,
                    SpotifyService.find_song db title artist = Some song
                    /\ SpotifyService.exact_match t a song = true)
    /\ (SpotifyService.find_song db title artist = None <->
        (forall s, In s (DB.songs db) ->
                   SpotifyService.partial_match t a s = false)).
Proof.
  intros db title artist t a. unfold SpotifyService.find_song. fold t a.
  destruct (hd_error (filter (SpotifyService.exact_match t a) (DB.songs db)))
    as [ e | ] eqn:He.
  - destruct (first_match_some _ _ _ _ He) as (Hin & Hm).
    pose proof Hm as Hm'. unfold SpotifyService.exact_match in Hm'.
    apply andb_true_iff in Hm'. destruct Hm' as (Ht & Ha).
    split; [ | split ].
    + intros song H. inv H. auto.
    + intros s _ _. exists e. auto.
    + split; [ discriminate | ]. intros H.
      pose proof (exact_match_partial _ _ _ Hm) as Hp.
      rewrite (H _ Hin) in Hp. discriminate.
  - rewrite first_match_none in He.
    split; [ | split ].
    + intros song H. destruct (first_match_some _ _ _ _ H) as (Hin & Hm).
      unfold SpotifyService.partial_match in Hm.
      apply andb_true_iff in Hm. destruct Hm as (Ht & Ha). auto.
    + intros s Hin Hs. rewrite (He _ Hin) in Hs. discriminate.
    + apply first_match_none.
Qed.


(** ** C4: the classifier adapter *)

Lemma prepare_features_length :
  forall user_input v,
    Inference.prepare_features user_input = Ok v -> List.length v = 10%nat.
Proof.
  intros user_input v H. unfold Inference.prepare_features, bind in H.
  repeat (break_match; try discriminate). inv H. reflexivity.
Qed.

(** [round_half_even n d] is an integer nearest to [n / d], and the even
    one of the two when [n / d] lies half way. *)
Lemma round_half_even_nearest :
  forall n d : Z,
    0 <= n -> 0 < d ->
    let q := round_half_even n d in
    0 <= q
    /\ Z.abs (2 * n - 2 * q * d) <= d
    /\ (Z.abs (2 * n - 2 * q * d) = d -> Z.even q = true).
Proof.
  intros n d Hn Hd q. unfold round_half_even in q.
  pose proof (Z.div_mod n d ltac:(lia)) as Hdiv.
  pose proof (Z.mod_pos_bound n d Hd) as Hmod.
  pose proof (Z.div_pos n d Hn Hd) as Hq.
  assert (Hdown : 2 * n - 2 * (n / d) * d = 2 * (n mod d))
    by (rewrite Hdiv at 1; ring).
  assert (Hup : 2 * n - 2 * (n / d + 1) * d = 2 * (n mod d) - 2 * d)
    by (rewrite Hdiv at 1; ring).
  destruct (2 * (n mod d) ?= d) eqn:Hcmp; subst q.
  - apply Z.compare_eq in Hcmp.
    destruct (Z.even (n / d)) eqn:Heven.
    + rewrite Hdown. split; [ lia | split; [ lia | auto ] ].
    + rewrite Hup. split; [ lia | split; [ lia | ] ]. intros _.
      rewrite Z.even_add, Heven. reflexivity.
  - rewrite Z.compare_lt_iff in Hcmp. rewrite Hdown.
    split; [ lia | split; [ lia | ] ]. intros H. lia.
  - rewrite Z.compare_gt_iff in Hcmp. rewrite Hup.
    split; [ lia | split; [ lia | ] ]. intros H. lia.
Qed.

(** [rint] of a double with a fractional part is the integer nearest to
    its exact value [m * 2 ^ e], the even one at a tie, with the sign of
    the double; a double without a fractional part is returned as it
    is. *)
Lemma rint_nearest :
  forall (x : float) (s : bool) (m : positive) (e : Z),
    Prim2SF x = S754_finite s m e ->
    (0 <= e -> rint x = x)
    /\ (e < 0 ->
        exists n : Z,
          0 <= n
          /\ Z.abs (2 * Zpos m - 2 * n * 2 ^ (- e)) <= 2 ^ (- e)
          /\ (Z.abs (2 * Zpos m - 2 * n * 2 ^ (- e)) = 2 ^ (- e) ->
              Z.even n = true)
          /\ rint x = if n =? 0 then SF2Prim (S754_zero s)
                      else float_of_Z (if s then - n else n)).
Proof.
  intros x s m e Hx. unfold rint. rewrite Hx. split.
  - intros He. apply Z.leb_le in He. now rewrite He.
  - intros He. assert (Hneg : (0 <=? e) = false) by (apply Z.leb_gt; lia).
    rewrite Hneg.
    assert (Hpow : 0 < 2 ^ (- e)) by (apply Z.pow_pos_nonneg; lia).
    destruct (round_half_even_nearest (Zpos m) (2 ^ (- e)) ltac:(lia) Hpow)
      as (Hn & Hnear & Htie).
    exists (round_half_even (Zpos m) (2 ^ (- e))).
    split; [ exact Hn | split; [ exact Hnear | split; [ exact Htie | ] ] ].
    destruct (round_half_even (Zpos m) (2 ^ (- e))) as [ | p | p ];
      [ reflexivity | | lia ].
    destruct s; reflexivity.
Qed.

(** C4.  For every feature vector on which the loaded classifier's
    [predict] answers, [predict_song] returns the label [bool(prediction)]
    and, as confidence, the probability of the positive class ([proba[1]],
    the classes being FLOP and HIT in this order) times 100, rounded to two
    decimals.  The probability is a NumPy number and is rounded as NumPy
    does: the percentage is multiplied by 100, replaced by the nearest
    integer (the even one at a tie) and divided by 100, so that 0.57455
    gives 57.46, where Python's own [round] gives 57.45 for 57.455.  When
    the classifier has no probability interface (the attribute is missing
    or raises [AttributeError]) the confidence is exactly 50.0.  The
    vectors [prepare_features] builds have length 10. *)
Theorem C4_confidence_is_rounded_probability :
  forall (model : Classifier.t) (features : list float) (prediction : Z),
    Classifier.predict model features = Ok prediction ->
    (forall predict_proba proba,
        Classifier.predict_proba model = Some predict_proba ->
        predict_proba features = Ok proba ->
        (1 < List.length proba)%nat ->
        let percent := (nth 1 proba 0 * 100)%float in
        Inference.predict_song (Some model) features
          = Ok (negb (prediction =? 0),
                Float64 (rint (percent * 100) / 100)%float)
        /\ forall s m e,
             Prim2SF (percent * 100)%float = S754_finite s m e ->
             (0 <= e -> rint (percent * 100) = (percent * 100)%float)
             /\ (e < 0 ->
                 exists n : Z,
                   0 <= n
                   /\ Z.abs (2 * Zpos m - 2 * n * 2 ^ (- e)) <= 2 ^ (- e)
                   /\ (Z.abs (2 * Zpos m - 2 * n * 2 ^ (- e)) = 2 ^ (- e) ->
                       Z.even n = true)
                   /\ rint (percent * 100)
                      = if n =? 0 then SF2Prim (S754_zero s)
                        else float_of_Z (if s then - n else n)))
    /\ (Classifier.predict_proba model = None ->
        Inference.predict_song (Some model) features
          = Ok (negb (prediction =? 0), Float 50))
    /\ (forall predict_proba,
          Classifier.predict_proba model = Some predict_proba ->
          predict_proba features = Raise AttributeError ->
          Inference.predict_song (Some model) features
            = Ok (negb (prediction =? 0), Float 50))
    /\ (Inference.predict_song
          (Some (Fixture.constant_classifier 1 0.57455)) features
        = Ok (true, Float64 57.46)
        /\ (0.57455 * 100)%float = 57.455%float
        /\ round2 57.455 = 57.45%float
        /\ Inference.predict_song
             (Some (Fixture.constant_classifier 0 0.123449)) features
           = Ok (false, Float64 12.34))
    /\ (forall user_input,
          Inference.prepare_features user_input = Ok features ->
          List.length features = 10%nat).
Proof.
  intros model features prediction Hpred.
  split; [ | split; [ | split; [ | split ] ] ].
  - intros predict_proba proba Hattr Hproba Hlen percent. split.
    + unfold Inference.predict_song, Inference.load_model. simpl.
      rewrite Hpred. simpl. unfold Inference.raw_confidence.
      rewrite Hattr, Hproba.
      destruct proba as [ | p0 [ | p1 rest ] ]; simpl in Hlen; try lia.
      reflexivity.
    + intros s m e. apply rint_nearest.
  - intros Hattr. unfold Inference.predict_song, Inference.load_model. simpl.
    rewrite Hpred. simpl. unfold Inference.raw_confidence.
    rewrite Hattr. reflexivity.
  - intros predict_proba Hattr Hraise.
    unfold Inference.predict_song, Inference.load_model. simpl.
    rewrite Hpred. simpl. unfold Inference.raw_confidence.
    rewrite Hattr, Hraise. reflexivity.
  - split; [ | split; [ | split ] ]; vm_compute; reflexivity.
  - intros user_input. apply prepare_features_length.
Qed.

(** A classifier that answers HIT with probability 0.57455 gives the
    confidence 57.46; one without [predict_proba] gives 50.0. *)
Lemma C4_witness :
  let features := [230666; 0.676; 0.461; 0.715; 0.0322; 0.00000101; 0;
                   -6.746; 87.917; 0]%float in
  Inference.prepare_features (to_dict Fixture.comedy_features) = Ok features
  /\ Inference.predict_song (Some (Fixture.constant_classifier 1 0.57455))
       features
     = Ok (true, Float64 57.46)
  /\ Inference.predict_song (Some (Fixture.bare_classifier 0)) features
     = Ok (false, Float 50).
Proof.
  intros features. split; [ vm_compute; reflexivity | split ].
  - destruct (@C4_confidence_is_rounded_probability
                (Fixture.constant_classifier 1 0.57455) features 1 eq_refl)
      as (H & _).
    exact (proj1 (H _ [(1 - 0.57455)%float; 0.57455%float] eq_refl eq_refl
                    ltac:(simpl; lia))).
  - destruct (@C4_confidence_is_rounded_probability
                (Fixture.bare_classifier 0) features 0 eq_refl)
      as (_ & H & _).
    exact (H eq_refl).
Defined.

(** ** C5: validation of a manual request *)

Lemma validate_first_raise :
  forall data,
    match Views.validate data with
    | Ok _ => first_raise (conversions data) = None
    | Raise e => first_raise (conversions data) = Some e
    end.
Proof.
  intros data. unfold Views.validate, conversions, bind.
  destruct (Views.int_item data "duration_ms"); simpl; [ | reflexivity ].
  repeat (match goal with
          | |- context [Inference.float_item data ?k] =>
              destruct (Inference.float_item data k); simpl; [ | reflexivity ]
          end).
  destruct (Views.int_item data "mode"); simpl; reflexivity.
Qed.

Lemma manual_persist_response :
  forall be req validated is_hit confidence db r db',
    Views.manual_persist be req validated is_hit confidence db = (r, db') ->
    (exists body, r = Ok (PredictedManual body)) \/ (exists e, r = Raise e).
Proof.
  intros be req validated is_hit confidence db r db' H.
  unfold Views.manual_persist, Models.Song_create, Models.insert_song,
    Models.Prediction_create, Models.PredictionAuditLog_create in H.
  repeat (break_match; try discriminate);
    repeat match goal with H : (_, _) = (_, _) |- _ => inv H end;
    eauto.
Qed.

(** The four ways [predict_manual] ends. *)
Lemma predict_manual_cases :
  forall w db req,
    let data := ManualRequest.data req in
    (Views.missing_fields data <> []
     /\ Views.predict_manual w db req
        = (MissingRequiredFields (Views.missing_fields data), db))
    \/ (Views.missing_fields data = []
        /\ exists e, Views.validate data = Raise e
                     /\ value_or_type_error e = true
                     /\ Views.predict_manual w db req = (InvalidValue e, db))
    \/ (Views.missing_fields data = []
        /\ exists e, Views.validate data = Raise e
                     /\ value_or_type_error e = false
                     /\ Views.predict_manual w db req = (ServerError e, db))
    \/ (Views.missing_fields data = []
        /\ exists validated,
            Views.validate data = Ok validated
            /\ ((exists body db',
                    Views.predict_manual w db req = (PredictedManual body, db'))
                \/ (exists e db',
                       Views.predict_manual w db req = (ServerError e, db')))).
Proof.
  intros w db req data. unfold Views.predict_manual. fold data.
  destruct (Views.missing_fields data) as [ | k l ] eqn:Hm.
  - right. destruct (Views.validate data) as [ validated | e ] eqn:Hv.
    + right. right. split; [ reflexivity | ]. exists validated.
      split; [ reflexivity | ].
      destruct (Py.bind _ _) as [ [is_hit confidence] | e ].
      * destruct (Views.manual_persist _ _ _ _ _ _) as [r db'] eqn:Hp.
        destruct (manual_persist_response _ _ _ _ _ _ _ _ Hp) as [ (body & ->) | (e & ->) ];
          simpl; eauto.
      * simpl. eauto.
    + destruct (value_or_type_error e) eqn:He.
      * left. split; [ reflexivity | ]. exists e.
        destruct e; try discriminate; auto.
      * right. left. split; [ reflexivity | ]. exists e.
        destruct e; try discriminate; auto.
  - left. split; [ discriminate | reflexivity ].
Qed.

Lemma missing_fields_spec :
  forall data k,
    In k (Views.missing_fields data) <->
    In k Views.required_fields /\ has_key data k = false.
Proof.
  intros data k. unfold Views.missing_fields. rewrite filter_In.
  now rewrite negb_true_iff.
Qed.

Lemma prepare_features_of_validated :
  forall v,
    Inference.prepare_features (to_dict v)
    = (duration_ms <- float_of_int (FeatureSet.duration_ms v) ;;
       mode <- float_of_int (FeatureSet.mode v) ;;
       Ok [ duration_ms; FeatureSet.danceability v; FeatureSet.energy v;
            FeatureSet.valence v; FeatureSet.acousticness v;
            FeatureSet.instrumentalness v; FeatureSet.explicit v;
            FeatureSet.loudness v; FeatureSet.tempo v; mode ]).
Proof.
  intros v. unfold Inference.prepare_features, Inference.float_item, to_dict.
  simpl. destruct (float_of_int (FeatureSet.duration_ms v)); reflexivity.
Qed.

(** C5, as the code has it.  The manual endpoint answers
    "missing required fields", naming exactly the absent keys in schema
    order, iff at least one of the ten required keys is absent.  When all
    ten are present it answers "invalid value" iff the first conversion
    that raises ([int] for [duration_ms] and [mode], [float] for the other
    eight, in schema order) raises [ValueError] or [TypeError].  Both
    answers leave the database as it was.  When every conversion returns,
    the vector handed to the classifier is the ten values as floats in
    schema order. *)
Theorem C5_missing_fields_then_invalid_values :
  forall (w : World.t) (db : DB.t) (req : ManualRequest.t),
    let data := ManualRequest.data req in
    let answer := Views.predict_manual w db req in
    (forall k, In k (Views.missing_fields data) <->
               In k Views.required_fields /\ has_key data k = false)
    /\ ((exists k, In k Views.required_fields /\ has_key data k = false) <->
        fst answer = MissingRequiredFields (Views.missing_fields data))
    /\ (forall missing, fst answer = MissingRequiredFields missing ->
                        missing = Views.missing_fields data)
    /\ (forall e,
          fst answer = InvalidValue e <->
          (forall k, In k Views.required_fields -> has_key data k = true)
          /\ first_raise (conversions data) = Some e
          /\ value_or_type_error e = true)
    /\ (forall missing e,
          fst answer = MissingRequiredFields missing \/ fst answer = InvalidValue e ->
          snd answer = db)
    /\ (forall validated,
          Views.validate data = Ok validated ->
          first_raise (conversions data) = None
          /\ Inference.prepare_features (to_dict validated)
             = (duration_ms <- float_of_int (FeatureSet.duration_ms validated) ;;
                mode <- float_of_int (FeatureSet.mode validated) ;;
                Ok [ duration_ms; FeatureSet.danceability validated;
                     FeatureSet.energy validated; FeatureSet.valence validated;
                     FeatureSet.acousticness validated;
                     FeatureSet.instrumentalness validated;
                     FeatureSet.explicit validated; FeatureSet.loudness validated;
                     FeatureSet.tempo validated; mode ])).
Proof.
  intros w db req data answer.
  assert (Hall : Views.missing_fields data = [] <->
                 (forall k, In k Views.required_fields -> has_key data k = true)).
  { split.
    - intros Hnil k Hk. destruct (has_key data k) eqn:Hkey; [ reflexivity | ].
      assert (Hin : In k (Views.missing_fields data))
        by (apply missing_fields_spec; auto).
      rewrite Hnil in Hin. destruct Hin.
    - intros Hk. destruct (Views.missing_fields data) as [ | k l ] eqn:Hm;
        [ reflexivity | ].
      assert (Hin : In k (Views.missing_fields data)) by (rewrite Hm; now left).
      apply missing_fields_spec in Hin. destruct Hin as (Hreq & Hkey).
      rewrite (Hk _ Hreq) in Hkey. discriminate. }
  pose proof (validate_first_raise data) as Hfirst.
  pose proof (predict_manual_cases w db req) as Hcases.
  cbv zeta in Hcases. fold data in Hcases. subst answer.
  split; [ exact (missing_fields_spec data) | ].
  split; [ | split; [ | split; [ | split ] ] ].
  - split.
    + intros (k & Hreq & Hkey).
      assert (Hin : In k (Views.missing_fields data))
        by (apply missing_fields_spec; auto).
      destruct Hcases as [ (_ & ->) | [ (Hnil & _) | [ (Hnil & _) | (Hnil & _) ] ] ];
        try reflexivity; rewrite Hnil in Hin; destruct Hin.
    + intros Hans.
      destruct Hcases as [ (Hne & _) | [ (Hnil & e & _ & _ & He)
                                      | [ (Hnil & e & _ & _ & He)
                                        | (Hnil & v & _ & [ (b & d & He) | (e & d & He) ]) ] ] ];
        try (rewrite He in Hans; simpl in Hans;
             discriminate).
      destruct (Views.missing_fields data) as [ | k l ] eqn:Hm; [ congruence | ].
      exists k. apply missing_fields_spec. rewrite Hm. now left.
  - intros missing Hans.
    destruct Hcases as [ (_ & He) | [ (Hnil & e & _ & _ & He)
                                    | [ (Hnil & e & _ & _ & He)
                                      | (Hnil & v & _ & [ (b & d & He) | (e & d & He) ]) ] ] ];
      rewrite He in Hans; simpl in Hans;
      congruence.
  - intros e. split.
    + intros Hans.
      destruct Hcases as [ (_ & He) | [ (Hnil & e' & Hv & Hcatch & He)
                                      | [ (Hnil & e' & _ & _ & He)
                                        | (Hnil & v & _ & [ (b & d & He) | (e' & d & He) ]) ] ] ];
        rewrite He in Hans; simpl in Hans;
        try discriminate.
      inv Hans. rewrite Hv in Hfirst. split; [ now apply Hall | auto ].
    + intros (Hkeys & Hraise & Hcatch). apply Hall in Hkeys.
      destruct Hcases as [ (Hne & _) | [ (_ & e' & Hv & _ & He)
                                       | [ (_ & e' & Hv & Hno & He)
                                         | (_ & v & Hv & _) ] ] ];
        try congruence; rewrite Hv in Hfirst; try congruence.
      assert (e' = e) by congruence. subst e'.
      now rewrite He.
  - intros missing e Hans.
    destruct Hcases as [ (_ & He) | [ (Hnil & e' & _ & _ & He)
                                    | [ (Hnil & e' & _ & _ & He)
                                      | (Hnil & v & _ & [ (b & d & He) | (e' & d & He) ]) ] ] ];
      rewrite He in *; simpl in *;
      try reflexivity; destruct Hans; discriminate.
  - intros validated Hv. rewrite Hv in Hfirst.
    split; [ exact Hfirst | apply prepare_features_of_validated ].
Qed.

(** C5 as stated fails in both directions.  A request whose
    ["danceability"] is [null], a value that cannot be converted, and
    whose ["mode"] is absent is answered "missing required fields", not
    "invalid value".  A request with all ten fields whose duration is the
    string ["230666.5"], which converts to the real number 230666.5, is
    answered "invalid value", since [int("230666.5")] raises. *)
Lemma C5_counterexample :
  get Fixture.null_danceability "danceability" = Some PNone
  /\ to_float PNone = Raise TypeError
  /\ Views.predict_manual (Fixture.world (Fixture.bare_classifier 0)) DB.empty
       (ManualRequest.mk None None Fixture.null_danceability)
     = (MissingRequiredFields ["mode"], DB.empty)
  /\ Views.missing_fields Fixture.fractional_duration = []
  /\ map (fun kv => is_ok (to_float (snd kv))) Fixture.fractional_duration
     = [true; true; true; true; true; true; true; true; true; true]
  /\ to_float (PStr "230666.5") = Ok 230666.5%float
  /\ Views.predict_manual (Fixture.world (Fixture.bare_classifier 0)) DB.empty
       (ManualRequest.mk None None Fixture.fractional_duration)
     = (InvalidValue (ValueError BuiltinValueError), DB.empty).
Proof.
  repeat split; vm_compute; reflexivity.
Qed.

(** ** C6: the label of a stored song *)

Lemma auto_calculate_consistent : forall s, consistent (Song.auto_calculate s).
Proof.
  intros s p. unfold Song.auto_calculate. simpl. intros H. now rewrite H.
Qed.

Lemma set_id_consistent : forall i s, consistent s -> consistent (Song.set_id i s).
Proof. intros i s H p. simpl. apply H. Qed.

Lemma replace_song_consistent :
  forall row l, consistent row -> Forall consistent l ->
                Forall consistent (Models.replace_song row l).
Proof.
  intros row l Hrow. induction 1 as [ | s l Hs Hl IH ]; simpl.
  - constructor.
  - destruct (Song.id s =? Song.id row); constructor; auto.
Qed.

Lemma insert_song_consistent :
  forall be s db r db',
    Models.insert_song be s db = (r, db') ->
    consistent s -> all_consistent db -> all_consistent db'.
Proof.
  unfold Models.insert_song, all_consistent. intros be s db r db' H Hs Hdb.
  destruct (Backend.accepts_song be _); inv H; simpl; auto.
Qed.

Lemma update_song_consistent :
  forall be s db r db',
    Models.update_song be s db = (r, db') ->
    consistent s -> all_consistent db -> all_consistent db'.
Proof.
  unfold Models.update_song, all_consistent. intros be s db r db' H Hs Hdb.
  destruct (Backend.accepts_song be _); inv H; simpl;
    auto using replace_song_consistent.
Qed.

Lemma store_song_consistent :
  forall be track_id audio_data db r db',
    Views.store_song be track_id audio_data db = (r, db') ->
    all_consistent db -> all_consistent db'.
Proof.
  intros be track_id audio_data db r db' H Hdb.
  unfold Views.store_song, Models.Song_get_or_create, Models.Song_create,
    Models.Song_save in H.
  repeat (break_match; try discriminate);
    repeat match goal with H : (_, _) = (_, _) |- _ => inv H end;
    eauto using insert_song_consistent, update_song_consistent,
      auto_calculate_consistent.
Qed.

Lemma prediction_create_songs :
  forall be p db r db',
    Models.Prediction_create be p db = (r, db') -> DB.songs db' = DB.songs db.
Proof.
  unfold Models.Prediction_create. intros be p db r db' H.
  destruct (Backend.accepts_prediction be _); inv H; reflexivity.
Qed.

Lemma audit_create_songs :
  forall be a db r db',
    Models.PredictionAuditLog_create be a db = (r, db') ->
    DB.songs db' = DB.songs db.
Proof.
  unfold Models.PredictionAuditLog_create. intros be a db r db' H.
  destruct (Backend.accepts_audit be _); inv H; reflexivity.
Qed.

Lemma persist_consistent :
  forall be data track_id audio_data model_hit model_confidence db r db',
    Views.persist be data track_id audio_data model_hit model_confidence db
      = (r, db') ->
    all_consistent db -> all_consistent db'.
Proof.
  intros be data track_id audio_data model_hit model_confidence db r db' H Hdb.
  unfold Views.persist in H.
  destruct (Views.store_song be track_id audio_data db) as [[song|e] db1] eqn:Hs;
    pose proof (store_song_consistent _ _ _ _ _ _ Hs Hdb) as H1;
    [ | inv H; assumption ].
  destruct (Models.Prediction_create _ _ _) as [[p|e] db2] eqn:Hp;
    apply prediction_create_songs in Hp;
    [ | inv H; unfold all_consistent; now rewrite Hp ].
  destruct (Models.PredictionAuditLog_create _ _ _) as [[a|e] db3] eqn:Ha;
    apply audit_create_songs in Ha; inv H;
    unfold all_consistent; now rewrite Ha, Hp.
Qed.

Lemma predict_from_spotify_consistent :
  forall w db data,
    all_consistent db ->
    all_consistent (snd (Views.predict_from_spotify w db data)).
Proof.
  intros w db data Hdb. unfold Views.predict_from_spotify.
  destruct (Views.resolve _ _ _) as [ [audio_data track_id | response] | e ];
    simpl; auto.
  destruct (Views.model_verdict _ _) as [ [model_hit model_confidence] | e ];
    simpl; auto.
  destruct (Views.persist _ _ _ _ _ _ _) as [r db'] eqn:Hp.
  apply persist_consistent in Hp; auto. destruct r; simpl; auto.
Qed.

Lemma manual_persist_consistent :
  forall be req validated is_hit confidence db r db',
    Views.manual_persist be req validated is_hit confidence db = (r, db') ->
    all_consistent db -> all_consistent db'.
Proof.
  intros be req validated is_hit confidence db r db' H Hdb.
  unfold Views.manual_persist, Models.Song_create in H.
  destruct (Models.insert_song _ _ _) as [[song|e] db1] eqn:Hs;
    pose proof (insert_song_consistent _ _ _ _ _ Hs (auto_calculate_consistent _) Hdb)
      as H1;
    [ | inv H; assumption ].
  destruct (Models.Prediction_create _ _ _) as [[p|e] db2] eqn:Hp;
    apply prediction_create_songs in Hp;
    [ | inv H; unfold all_consistent; now rewrite Hp ].
  destruct (Models.PredictionAuditLog_create _ _ _) as [[a|e] db3] eqn:Ha;
    apply audit_create_songs in Ha; inv H;
    unfold all_consistent; now rewrite Ha, Hp.
Qed.

Lemma predict_manual_consistent :
  forall w db req,
    all_consistent db ->
    all_consistent (snd (Views.predict_manual w db req)).
Proof.
  intros w db req Hdb. unfold Views.predict_manual.
  destruct (Views.missing_fields _); [ | simpl; auto ].
  destruct (Views.validate _) as [ validated | e ];
    [ | destruct e; simpl; auto ].
  destruct (Py.bind _ _) as [ [is_hit confidence] | e ]; simpl; auto.
  destruct (Views.manual_persist _ _ _ _ _ _) as [r db'] eqn:Hp.
  apply manual_persist_consistent in Hp; auto. destruct r; simpl; auto.
Qed.

(** A record built from a CSV row carries the label of its popularity. *)
Lemma make_record_consistent :
  forall row record,
    ImportDataset.make_record row = Ok record -> consistent record.
Proof.
  intros row record H. unfold ImportDataset.make_record, bind in H.
  repeat (break_match; try discriminate). inv H.
  intros p. simpl. intros Hp. now rewrite Hp.
Qed.

Lemma bulk_create_consistent :
  forall be records db,
    Forall consistent records -> all_consistent db ->
    all_consistent (ImportDataset.bulk_create be records db).
Proof.
  intros be. induction records as [ | r records IH ]; simpl; intros db Hr Hdb;
    auto.
  inv Hr. apply IH; auto. unfold all_consistent. simpl.
  destruct (Backend.accepts_song be _); [ | assumption ].
  constructor; [ now apply set_id_consistent | assumption ].
Qed.

Lemma import_row_consistent :
  forall be batch_size st row,
    all_consistent (ImportDataset.store st) ->
    Forall consistent (ImportDataset.records st) ->
    all_consistent
      (ImportDataset.store (ImportDataset.import_row be batch_size st row))
    /\ Forall consistent
         (ImportDataset.records (ImportDataset.import_row be batch_size st row)).
Proof.
  intros be batch_size st row Hdb Hrec. unfold ImportDataset.import_row.
  destruct (negb _); simpl; auto.
  destruct (ImportDataset.make_record row) as [ record | e ] eqn:Hm; auto.
  assert (Hall : Forall consistent (ImportDataset.records st ++ [record])).
  { apply Forall_app. split; auto. constructor; auto.
    eapply make_record_consistent; eauto. }
  destruct (batch_size <=? _); simpl; auto.
  split; [ now apply bulk_create_consistent | constructor ].
Qed.

Lemma import_rows_consistent :
  forall be batch_size rows st,
    all_consistent (ImportDataset.store st) ->
    Forall consistent (ImportDataset.records st) ->
    let st' := fold_left (ImportDataset.import_row be batch_size) rows st in
    all_consistent (ImportDataset.store st')
    /\ Forall consistent (ImportDataset.records st').
Proof.
  intros be batch_size.
  induction rows as [ | row rows IH ]; simpl; intros st Hdb Hrec; auto.
  destruct (import_row_consistent be batch_size st row Hdb Hrec). now apply IH.
Qed.

Lemma handle_consistent :
  forall be df batch_size db,
    all_consistent db ->
    all_consistent (snd (ImportDataset.handle be df batch_size db)).
Proof.
  intros be df batch_size db Hdb. unfold ImportDataset.handle.
  destruct (ImportDataset.missing_columns df); simpl; auto.
  destruct (import_rows_consistent be batch_size (Csv.rows df)
              (ImportDataset.mkProgress db [] 0 0) Hdb (Forall_nil _)).
  now apply bulk_create_consistent.
Qed.

(** C6.  [Song.save] leaves a song whose popularity is not null with
    [is_hit = (popularity >= 50)], and so does the record that the CSV
    import builds from a row; hence the property holds of every stored
    song after a prediction request (catalog or manual) and after an
    import, on any storage engine, if it held before.  A dataset row of
    popularity 73 that the lookup settles on gives the reference label
    HIT. *)
Theorem C6_is_hit_follows_popularity :
  (forall s p,
      Song.popularity s = Some p ->
      Song.is_hit (Song.auto_calculate s) = Some (50 <=? p))
  /\ (forall row record p,
        ImportDataset.make_record row = Ok record ->
        Song.popularity record = Some p ->
        Song.is_hit record = Some (50 <=? p))
  /\ (forall w db data,
        all_consistent db ->
        all_consistent (snd (Views.predict_from_spotify w db data)))
  /\ (forall w db req,
        all_consistent db ->
        all_consistent (snd (Views.predict_manual w db req)))
  /\ (forall be df batch_size db,
        all_consistent db ->
        all_consistent (snd (ImportDataset.handle be df batch_size db)))
  /\ (forall db title artist song p,
        all_consistent db ->
        SpotifyService.find_song db title artist = Some song ->
        Song.popularity song = Some p ->
        exists d,
          SpotifyService.get_audio_features_from_dataset db title artist = Some d
          /\ DatasetFeatures.popularity d = p
          /\ DatasetFeatures.is_hit_in_dataset d = (50 <=? p))
  /\ option_map
       (fun d => (DatasetFeatures.popularity d,
                  DatasetFeatures.is_hit_in_dataset d))
       (SpotifyService.get_audio_features_from_dataset Fixture.dataset_db
          "Comedy" "Gen Hoshino")
     = Some (73, true).
Proof.
  split; [ | split; [ | split; [ | split; [ | split; [ | split ] ] ] ] ].
  - intros s p Hp. now apply auto_calculate_consistent.
  - intros row record p Hm. now apply (make_record_consistent _ _ Hm).
  - exact predict_from_spotify_consistent.
  - exact predict_manual_consistent.
  - exact handle_consistent.
  - intros db title artist song p Hdb Hfind Hp.
    unfold SpotifyService.get_audio_features_from_dataset. rewrite Hfind.
    eexists. split; [ reflexivity | ]. simpl. rewrite Hp. simpl.
    split; [ reflexivity | ].
    destruct (find_song_rule db title artist) as (Hsome & _).
    destruct (Hsome _ Hfind) as (Hin & _).
    unfold all_consistent in Hdb. rewrite Forall_forall in Hdb.
    now rewrite (Hdb _ Hin _ Hp).
  - reflexivity.
Qed.

(** ** C7: a title that is not in the training data *)

Lemma insert_sorted_in :
  forall x y l, In y (SpotifyService.insert_sorted x l) -> y = x \/ In y l.
Proof.
  intros x y. induction l as [ | z l IH ]; simpl.
  - intros [ <- | [] ]. now left.
  - destruct (SpotifyService.key_le x z); simpl.
    + intros [ <- | H ]; auto.
    + intros [ <- | H ]; auto. destruct (IH H); auto.
Qed.

Lemma sort_tracks_in :
  forall l y, In y (SpotifyService.sort_tracks l) -> In y l.
Proof.
  unfold SpotifyService.sort_tracks.
  induction l as [ | x l IH ]; simpl; intros y H; auto.
  destruct (insert_sorted_in _ _ _ H) as [ -> | H' ]; auto.
Qed.

Lemma firstn_in :
  forall (A : Type) (n : nat) (l : list A) (x : A),
    In x (firstn n l) -> In x l.
Proof.
  intros A. induction n as [ | n IH ]; intros [ | y l ] x; simpl;
    try (intros []).
  - left; assumption.
  - right; now apply IH.
Qed.

Lemma first_in_dataset_none :
  forall api db results,
    existsb SearchResult.in_dataset results = false ->
    Views.first_in_dataset api db results = None.
Proof.
  intros api db. induction results as [ | r results IH ]; simpl; auto.
  destruct (SearchResult.in_dataset r); simpl; [ discriminate | exact IH ].
Qed.

(** C7, as the code has it.  A title-and-artist request that finds no
    dataset row, and whose catalog search returns candidates none of which
    is tagged as present in the dataset, has one of two answers and writes
    nothing.  With at least one candidate it is answered "not in our
    training dataset" (status 400) with the first three candidates of the
    search results, or all of them when there are fewer, as
    (id, title, artist); each is a track the catalog returned.  With no
    candidate at all it is answered "not found on Spotify" (status 404),
    an answer that carries no hints. *)
Theorem C7_not_in_training_dataset_hints :
  forall (w : World.t) (db : DB.t) (data : SpotifyRequest.t)
         (results : list SearchResult.t),
    let title := strip (SpotifyService.default "" (SpotifyRequest.title data)) in
    let artist := strip (SpotifyService.default "" (SpotifyRequest.artist data)) in
    Views.track_input data = None ->
    opt_truthy (SpotifyRequest.title data) = true ->
    opt_truthy (SpotifyRequest.artist data) = true ->
    SpotifyService.get_audio_features_from_dataset db title artist = None ->
    SpotifyService.search_tracks (World.api w) db (title ++ " " ++ artist)%string 5
      = Ok results ->
    existsb SearchResult.in_dataset results = false ->
    let hints := map Views.hint (firstn 3 results) in
    (results <> [] ->
       Views.predict_from_spotify w db data
         = (NotInTrainingDataset title artist hints, db)
       /\ status (NotInTrainingDataset title artist hints) = 400
       /\ List.length hints = Nat.min 3 (List.length results)
       /\ (List.length hints <= 3)%nat
       /\ hints <> []
       /\ (forall h, In h hints ->
             exists items track,
               Catalog.search (World.api w) (title ++ " " ++ artist)%string 5
                 = Ok items
               /\ In track items
               /\ h = (Catalog.id track, Catalog.name track,
                       join ", " (Catalog.artists track))))
    /\ (results = [] ->
          Views.predict_from_spotify w db data
            = (NotFoundOnSpotify title artist, db)
          /\ status (NotFoundOnSpotify title artist) = 404
          /\ hints = []).
Proof.
  intros w db data results title artist Hinput Htitle Hartist Hlookup Hsearch
         Hnone hints.
  assert (Hrun : Views.predict_from_spotify w db data
                 = match results with
                   | [] => (NotFoundOnSpotify title artist, db)
                   | _ :: _ => (NotInTrainingDataset title artist hints, db)
                   end).
  { unfold Views.predict_from_spotify, Views.resolve.
    rewrite Hinput, Htitle, Hartist. simpl andb. cbv iota.
    unfold Views.resolve_by_title. fold title artist.
    rewrite Hlookup, Hsearch. simpl bind.
    destruct results as [ | r results ]; [ reflexivity | ].
    rewrite (first_in_dataset_none _ _ _ Hnone). reflexivity. }
  split.
  - intros Hne.
    split; [ | split; [ reflexivity | split; [ | split; [ | split ] ] ] ].
    + rewrite Hrun. destruct results; [ congruence | reflexivity ].
    + unfold hints. rewrite length_map, length_firstn. reflexivity.
    + unfold hints. rewrite length_map, length_firstn. lia.
    + unfold hints. destruct results; [ congruence | discriminate ].
    + intros h Hh. unfold hints in Hh. apply in_map_iff in Hh.
      destruct Hh as (r & <- & Hr). apply firstn_in in Hr.
      unfold SpotifyService.search_tracks in Hsearch.
      destruct (Catalog.search (World.api w) (title ++ " " ++ artist)%string 5)
        as [ items | e ]; [ | discriminate ].
      simpl in Hsearch. inv Hsearch. apply sort_tracks_in in Hr.
      apply in_map_iff in Hr. destruct Hr as (track & <- & Htrack).
      exists items, track. repeat split; auto.
  - intros ->. rewrite Hrun. repeat split.
Qed.

(** Four covers found, none in the dataset: the hint names the three most
    popular ones. *)
Lemma C7_witness :
  Views.predict_from_spotify
      (World.mk Fixture.busy_catalog None Backend.permissive)
      Fixture.dataset_db
      (SpotifyRequest.mk None None None None (Some "Comedy") (Some "Cover Band"))
  = (NotInTrainingDataset "Comedy" "Cover Band"
       [ ("c40", "Comedy", "Cover Band, Guest");
         ("c30", "Comedy", "Cover Band, Guest");
         ("c20", "Comedy", "Cover Band, Guest") ],
     Fixture.dataset_db).
Proof.
  refine (proj1 (proj1 (C7_not_in_training_dataset_hints
                   (World.mk Fixture.busy_catalog None Backend.permissive)
                   Fixture.dataset_db
                   (SpotifyRequest.mk None None None None
                      (Some "Comedy") (Some "Cover Band"))
                   (SpotifyService.sort_tracks
                      (map (SpotifyService.to_search_result Fixture.dataset_db)
                           [Fixture.cover "c10" 10; Fixture.cover "c40" 40;
                            Fixture.cover "c30" 30; Fixture.cover "c20" 20]))
                   eq_refl eq_refl eq_refl _ _ _) _)).
  - vm_compute; reflexivity.
  - vm_compute; reflexivity.
  - vm_compute; reflexivity.
  - vm_compute; discriminate.
Defined.

(** C7 as stated fails when the catalog search returns no candidate at
    all: no dataset row matches and no candidate is in the dataset, and
    the request is answered "not found on Spotify" (status 404), without
    hints. *)
Lemma C7_counterexample :
  SpotifyService.get_audio_features_from_dataset DB.empty "comedy" "gen hoshino"
    = None
  /\ SpotifyService.search_tracks Fixture.silent_catalog DB.empty
       "comedy gen hoshino" 5 = Ok []
  /\ existsb SearchResult.in_dataset [] = false
  /\ Views.predict_from_spotify
       (World.mk Fixture.silent_catalog None Backend.permissive)
       DB.empty Fixture.by_title
     = (NotFoundOnSpotify "comedy" "gen hoshino", DB.empty)
  /\ status (NotFoundOnSpotify "comedy" "gen hoshino") = 404.
Proof.
  repeat split; vm_compute; reflexivity.
Qed.

(** ** C8: predictions and their audit records *)

Lemma manual_persist_persisted :
  forall be req validated is_hit confidence db r db',
    Views.manual_persist be req validated is_hit confidence db = (r, db') ->
    persisted be db db' r.
Proof.
  intros be req validated is_hit confidence db r db' H.
  unfold Views.manual_persist, Models.Song_create, Models.insert_song in H.
  destruct (Backend.accepts_song be _).
  - unfold Models.Prediction_create in H. simpl in H.
    destruct (Backend.accepts_prediction be _).
    + unfold Models.PredictionAuditLog_create in H. simpl in H.
      destruct (Backend.accepts_audit be _) eqn:Hacc; inv H.
      * eapply persisted_both; simpl; reflexivity.
      * refine (@persisted_orphan be db _ _ _ _ _ _ Hacc); reflexivity.
    + inv H. now apply persisted_nothing.
  - inv H. now apply persisted_nothing.
Qed.

Lemma persisted_left_behind :
  forall be db db' r (on_error : exn -> Response),
    (forall e, status (on_error e) <> 200) ->
    on_error DatabaseError = ServerError DatabaseError ->
    persisted be db db' r ->
    left_behind be db db'
      (match r with Ok response => response | Raise e => on_error e end).
Proof.
  intros be db db' r on_error Hstatus Hdb H. destruct H.
  - now apply neither.
  - rewrite Hdb. eapply prediction_only; eauto.
  - eapply both; eauto.
Qed.

Lemma resolve_return_not_200 :
  forall api db data response,
    Views.resolve api db data = Ok (Views.Return response) ->
    status response <> 200.
Proof.
  intros api db data response H.
  unfold Views.resolve, Views.resolve_by_title, bind in H.
  repeat (break_match; try discriminate); inv H; simpl; discriminate.
Qed.

Lemma predict_from_spotify_left_behind :
  forall w db data,
    left_behind (World.backend w) db
      (snd (Views.predict_from_spotify w db data))
      (fst (Views.predict_from_spotify w db data)).
Proof.
  intros w db data. unfold Views.predict_from_spotify.
  destruct (Views.resolve _ _ _) as [ [audio_data track_id | response] | e ]
    eqn:Hres; simpl.
  - destruct (Views.model_verdict _ _) as [ [model_hit model_confidence] | e ];
      simpl.
    + destruct (Views.persist _ _ _ _ _ _ _) as [r db'] eqn:Hp.
      apply persist_persisted in Hp.
      apply (persisted_left_behind _ _ _ _ handle_exception
               handle_exception_not_200 eq_refl) in Hp.
      destruct r; exact Hp.
    + apply neither; auto using handle_exception_not_200.
  - apply neither; auto. eapply resolve_return_not_200; eauto.
  - apply neither; auto using handle_exception_not_200.
Qed.

Lemma predict_manual_left_behind :
  forall w db req,
    left_behind (World.backend w) db
      (snd (Views.predict_manual w db req))
      (fst (Views.predict_manual w db req)).
Proof.
  intros w db req. unfold Views.predict_manual.
  destruct (Views.missing_fields _);
    [ | apply neither; simpl; auto; discriminate ].
  destruct (Views.validate _) as [ validated | e ];
    [ | destruct e; apply neither; simpl; auto; discriminate ].
  destruct (Py.bind _ _) as [ [is_hit confidence] | e ]; simpl.
  - destruct (Views.manual_persist _ _ _ _ _ _) as [r db'] eqn:Hp.
    apply manual_persist_persisted in Hp.
    apply (persisted_left_behind _ _ _ _ ServerError) in Hp;
      [ destruct r; exact Hp | intros e; simpl; discriminate | reflexivity ].
  - apply neither; simpl; auto; discriminate.
Qed.

Lemma left_behind_linked :
  forall be db db' response,
    left_behind be db db' response -> audits_linked db -> audits_linked db'.
Proof.
  intros be db db' response H Hdb a Ha. destruct H as [ Hp Hl _ | p a' Hp Hl Hk _ | p a' Hp Hl _ _ _ ];
    rewrite Hl in Ha; rewrite Hp.
  - apply Hdb; assumption.
  - destruct Ha as [ <- | Ha ].
    + exists p. split; [ now left | now rewrite Hk ].
    + destruct (Hdb _ Ha) as (q & Hq & Hid). exists q. split; [ now right | exact Hid ].
  - destruct (Hdb _ Ha) as (q & Hq & Hid). exists q. split; [ now right | exact Hid ].
Qed.

(** C8, as the code has it.  A prediction request (catalog or manual)
    either writes neither a Prediction nor an audit record and fails, or
    writes both, the audit record referring to the prediction, and
    succeeds, or writes the Prediction alone and fails with status 500;
    the last happens only when the storage refuses the audit record
    itself.  So an audit record is never stored without its prediction,
    and with a storage that accepts every audit record the two are
    written together or not at all. *)
Theorem C8_audit_record_never_without_prediction :
  forall (w : World.t) (db : DB.t) (data : SpotifyRequest.t)
         (req : ManualRequest.t),
    let be := World.backend w in
    let catalog_run := Views.predict_from_spotify w db data in
    let manual_run := Views.predict_manual w db req in
    left_behind be db (snd catalog_run) (fst catalog_run)
    /\ left_behind be db (snd manual_run) (fst manual_run)
    /\ (audits_linked db ->
        audits_linked (snd catalog_run) /\ audits_linked (snd manual_run))
    /\ ((forall a, Backend.accepts_audit be a = true) ->
        List.length (DB.predictions (snd catalog_run))
          - List.length (DB.predictions db)
        = List.length (DB.audit_logs (snd catalog_run))
          - List.length (DB.audit_logs db)
        /\ List.length (DB.predictions (snd manual_run))
             - List.length (DB.predictions db)
           = List.length (DB.audit_logs (snd manual_run))
             - List.length (DB.audit_logs db))%nat.
Proof.
  intros w db data req be catalog_run manual_run.
  pose proof (predict_from_spotify_left_behind w db data) as Hc.
  pose proof (predict_manual_left_behind w db req) as Hm.
  fold be catalog_run in Hc. fold be manual_run in Hm.
  split; [ exact Hc | split; [ exact Hm | split ] ].
  - intros Hdb. split; eapply left_behind_linked; eauto.
  - intros Hacc. split.
    + destruct Hc as [ Hp Hl _ | p a Hp Hl _ _ | p a _ _ _ Hno _ ];
        [ | | rewrite Hacc in Hno; discriminate ];
        rewrite Hp, Hl; cbn [List.length]; lia.
    + destruct Hm as [ Hp Hl _ | p a Hp Hl _ _ | p a _ _ _ Hno _ ];
        [ | | rewrite Hacc in Hno; discriminate ];
        rewrite Hp, Hl; cbn [List.length]; lia.
Qed.

(** C8 as stated fails: the views write the Prediction and then the
    audit record, each committed on its own.  A manual request with the
    ten fields and one more, ["note": NaN], is predicted and its
    Prediction is stored; the audit record, which holds the request body,
    is refused by a storage whose JSON columns take strict JSON only; the
    request fails with status 500 and the Prediction stays, without an
    audit record.  The same happens to a catalog request when the storage
    refuses its audit record. *)
Lemma C8_counterexample :
  (let run := Views.predict_manual
                (World.mk Fixture.catalog (Some (Fixture.bare_classifier 0))
                          Backend.strict)
                DB.empty
                (ManualRequest.mk (Some "Comedy") None Fixture.manual_with_nan) in
   fst run = ServerError DatabaseError
   /\ status (fst run) = 500
   /\ map Prediction.id (DB.predictions (snd run)) = [1]
   /\ DB.audit_logs (snd run) = [])
  /\ (let run := Views.predict_from_spotify
                   (World.mk Fixture.catalog (Some (Fixture.bare_classifier 0))
                             Backend.audit_refused)
                   Fixture.dataset_db Fixture.by_url in
      fst run = ServerError DatabaseError
      /\ map Prediction.id (DB.predictions (snd run)) = [1]
      /\ DB.audit_logs (snd run) = []).
Proof.
  repeat split; vm_compute; reflexivity.
Qed.

(** ** C9: empty cells in the CSV import *)

(** The label the file carries is not read. *)
Lemma make_record_ignores_is_hit_column :
  forall (c : Csv.cell) (row : Csv.Row),
    ImportDataset.make_record (Csv.set_is_hit c row)
    = ImportDataset.make_record row.
Proof. intros c row. reflexivity. Qed.

(** An empty [duration_ms] or [mode] makes the row's record fail. *)
Lemma make_record_empty_integer :
  forall row,
    Csv.duration_ms row = Csv.NA \/ Csv.mode row = Csv.NA ->
    is_ok (ImportDataset.make_record row) = false.
Proof.
  intros row H. unfold ImportDataset.make_record, bind.
  destruct (ImportDataset.nullable _ _); [ | reflexivity ].
  destruct H as [ -> | H ]; [ reflexivity | ].
  repeat (match goal with
          | |- context [match ?r with Ok _ => _ | Raise _ => _ end] =>
              lazymatch r with
              | ImportDataset.cell_int (Csv.mode row) => fail
              | _ => destruct r; [ | reflexivity ]
              end
          end).
  rewrite H. reflexivity.
Qed.

(** An empty [danceability] becomes a NaN in the record, which an engine
    that binds a NaN as NULL does not store. *)
Lemma make_record_empty_float :
  forall row record,
    Csv.danceability row = Csv.NA ->
    ImportDataset.make_record row = Ok record ->
    is_nan (Song.danceability record) = true
    /\ forall i,
         Backend.accepts_song Backend.nan_as_null (Song.set_id i record) = false.
Proof.
  intros row record Hna H. unfold ImportDataset.make_record, bind in H.
  rewrite Hna in H. simpl in H.
  repeat (break_match; try discriminate). inv H. split; reflexivity.
Qed.

(** C9 at the failing input.  The file has every required column; its
    first row has an empty [duration_ms], its second row is complete, its
    third row has an empty [danceability]; every row's [is_hit] column
    says False and every popularity is 73.  The import does not fail and
    reports two rows imported, but no empty cell is read as 0: the first
    row is dropped ([int(NaN)] raises), and the record of the third has
    the danceability NaN, so that an engine that binds a NaN as NULL
    skips it and stores the second row alone, while an engine that
    accepts every row stores it with the NaN.  The stored label is
    computed from the popularity.  In general a row with an empty
    [duration_ms] or [mode] yields no record, a row with an empty
    [danceability] yields a record with a NaN, the [is_hit] column of the
    file is not read, and a file without one of the required columns is
    not imported at all. *)
Theorem C9_empty_cells_are_not_defaulted :
  let run := ImportDataset.handle Backend.nan_as_null Fixture.csv_file 1000
                                  DB.empty in
  let lenient := ImportDataset.handle Backend.permissive Fixture.csv_file 1000
                                      DB.empty in
  (ImportDataset.missing_columns Fixture.csv_file = []
   /\ fst run = ImportDataset.Imported 2 0
   /\ map Song.track_id (DB.songs (snd run)) = [Some "row2"]
   /\ map Song.duration_ms (DB.songs (snd run)) = [230666]
   /\ map Song.danceability (DB.songs (snd run)) = [0.676%float]
   /\ map Song.is_hit (DB.songs (snd run)) = [Some true]
   /\ ImportDataset.make_record (Fixture.csv_row "row1" Csv.NA (Csv.CFloat 0.676))
      = Raise (ValueError BuiltinValueError)
   /\ option_map (fun record => is_nan (Song.danceability record))
        (match ImportDataset.make_record
                 (Fixture.csv_row "row3" (Csv.CInt 230666) Csv.NA) with
         | Ok record => Some record
         | Raise _ => None
         end)
      = Some true
   /\ fst lenient = ImportDataset.Imported 2 0
   /\ map Song.track_id (DB.songs (snd lenient)) = [Some "row3"; Some "row2"]
   /\ map (fun s => is_nan (Song.danceability s)) (DB.songs (snd lenient))
      = [true; false])
  /\ (forall row,
        Csv.duration_ms row = Csv.NA \/ Csv.mode row = Csv.NA ->
        is_ok (ImportDataset.make_record row) = false)
  /\ (forall row record,
        Csv.danceability row = Csv.NA ->
        ImportDataset.make_record row = Ok record ->
        is_nan (Song.danceability record) = true
        /\ forall i,
             Backend.accepts_song Backend.nan_as_null (Song.set_id i record)
             = false)
  /\ (forall c row,
        ImportDataset.make_record (Csv.set_is_hit c row)
        = ImportDataset.make_record row)
  /\ (forall be,
        ImportDataset.handle be
          (Csv.mkDataFrame
             (List.remove string_dec "duration_ms" Fixture.csv_columns)
             (Csv.rows Fixture.csv_file))
          1000 DB.empty
        = (ImportDataset.MissingColumns ["duration_ms"], DB.empty)).
Proof.
  intros run lenient. split; [ repeat split; vm_compute; reflexivity | ].
  split; [ exact make_record_empty_integer | ].
  split; [ exact make_record_empty_float | ].
  split; [ exact make_record_ignores_is_hit_column | ].
  intros be. vm_compute; reflexivity.
Qed.

(** ** C10: a prediction request rewrites the stored song *)

Lemma replace_song_in :
  forall row old l,
    In old l -> Song.id old = Song.id row -> In row (Models.replace_song row l).
Proof.
  intros row old. induction l as [ | s l IH ]; simpl; intros Hin Hid.
  - destruct Hin.
  - destruct (Song.id s =? Song.id row) eqn:Hs.
    + now left.
    + right. destruct Hin as [ -> | Hin ]; [ | now apply IH ].
      rewrite Hid, Z.eqb_refl in Hs. discriminate.
Qed.

Lemma persist_songs :
  forall be data track_id audio_data model_hit model_confidence db r db'
         song db1,
    Views.store_song be track_id audio_data db = (Ok song, db1) ->
    Views.persist be data track_id audio_data model_hit model_confidence db
      = (r, db') ->
    DB.songs db' = DB.songs db1.
Proof.
  intros be data track_id audio_data model_hit model_confidence db r db'
         song db1 Hs H.
  unfold Views.persist in H. rewrite Hs in H.
  destruct (Models.Prediction_create _ _ _) as [[p|e] db2] eqn:Hp;
    apply prediction_create_songs in Hp; [ | inv H; exact Hp ].
  destruct (Models.PredictionAuditLog_create _ _ _) as [[a|e] db3] eqn:Ha;
    apply audit_create_songs in Ha; inv H; congruence.
Qed.

(** A request by identifier, unfolded: resolution, the model's verdict,
    then the three writes. *)
Lemma predict_by_identifier :
  forall w db data input,
    Views.track_input data = Some input ->
    Views.predict_from_spotify w db data
    = Views.finish
        match SpotifyService.get_audio_features (World.api w) db
                (SpotifyService.extract_track_id input) with
        | Raise e => (Raise e, db)
        | Ok audio_data =>
            match Views.model_verdict (World.artifact w) audio_data with
            | Raise e => (Raise e, db)
            | Ok (model_hit, model_confidence) =>
                Views.persist (World.backend w) data
                  (Some (SpotifyService.extract_track_id input)) audio_data
                  model_hit model_confidence db
            end
        end.
Proof.
  intros w db data input Hinput.
  unfold Views.predict_from_spotify, Views.resolve. rewrite Hinput.
  destruct (SpotifyService.get_audio_features _ _ _); reflexivity.
Qed.

(** [get_or_create] on a track that has a stored row: the row when it is
    the only one, [MultipleObjectsReturned] otherwise. *)
Lemma store_song_stored :
  forall be tid audio_data db old,
    truthy tid = true ->
    In old (DB.songs db) ->
    Song.track_id old = Some tid ->
    (Models.filter_track_id tid db = [old]
     /\ Views.store_song be (Some tid) audio_data db
        = Models.update_song be
            (Song.auto_calculate (Views.overwrite old audio_data)) db)
    \/ (Models.filter_track_id tid db <> [old]
        /\ Views.store_song be (Some tid) audio_data db
           = (Raise MultipleObjectsReturned, db)).
Proof.
  intros be tid audio_data db old Htruthy Hin Htid.
  assert (Hold : In old (Models.filter_track_id tid db)).
  { unfold Models.filter_track_id. apply filter_In. split; [ exact Hin | ].
    rewrite Htid. simpl. apply String.eqb_refl. }
  unfold Views.store_song, Models.Song_get_or_create. rewrite Htruthy.
  destruct (Models.filter_track_id tid db) as [ | s [ | s' rest ] ].
  - destruct Hold.
  - destruct Hold as [ -> | [] ]. left. split; reflexivity.
  - right. split; [ discriminate | reflexivity ].
Qed.

(** Once the song is written, [persist] leaves the songs as they are and
    either answers with that song or raises the error of a refused
    write. *)
Lemma persist_after_store :
  forall be data track_id audio_data model_hit model_confidence db song db1,
    Views.store_song be track_id audio_data db = (Ok song, db1) ->
    DB.songs (snd (Views.persist be data track_id audio_data model_hit
                                 model_confidence db))
      = DB.songs db1
    /\ ((exists body,
            fst (Views.persist be data track_id audio_data model_hit
                               model_confidence db) = Ok (Predicted body)
            /\ PredictionBody.song_id body = Song.id song)
        \/ fst (Views.persist be data track_id audio_data model_hit
                              model_confidence db) = Raise DatabaseError).
Proof.
  intros be data track_id audio_data model_hit model_confidence db song db1 Hs.
  unfold Views.persist. rewrite Hs.
  unfold Models.Prediction_create.
  destruct (Backend.accepts_prediction be _); [ | split; [ reflexivity | now right ] ].
  unfold Models.PredictionAuditLog_create. cbv zeta. cbn [DB.next_audit].
  destruct (Backend.accepts_audit be _); simpl;
    (split; [ reflexivity | ]); [ left | now right ].
  eexists. split; reflexivity.
Qed.

(** C10, as the code has it.  Take a request by identifier whose
    [track_id] already has a stored song.  When the request reaches the
    song write (the track resolves, the model gives its verdict, the
    stored row is the only one of that track and the engine accepts the
    new values), the row is overwritten: title, artists, album, popularity
    and the ten features take the newly resolved values, and [save] has
    recomputed [is_hit] from the new popularity; the row keeps its
    identifier, genre and position.  This holds whatever the answer is:
    200, or 500 when the prediction or the audit record is refused
    afterwards.  A request answered with a prediction has reached the
    write.  A request that fails before it (the resolution or the model
    raises, several rows carry the [track_id], the engine refuses the
    row) leaves the table as it was and is not answered 200.  A request
    that rewrites can change the label that later requests are reconciled
    against: a stored HIT row whose title the catalog spells differently
    is rewritten from the catalog's data (popularity 40) and is the FLOP
    reference label of the next request. *)
Theorem C10_request_overwrites_stored_song :
  forall (w : World.t) (db : DB.t) (data : SpotifyRequest.t) (input : string)
         (old : Song.t),
    Views.track_input data = Some input ->
    let track_id := SpotifyService.extract_track_id input in
    truthy track_id = true ->
    In old (DB.songs db) ->
    Song.track_id old = Some track_id ->
    let run := Views.predict_from_spotify w db data in
    (forall audio_data verdict,
        SpotifyService.get_audio_features (World.api w) db track_id
          = Ok audio_data ->
        Views.model_verdict (World.artifact w) audio_data = Ok verdict ->
        Models.filter_track_id track_id db = [old] ->
        let row := Song.auto_calculate (Views.overwrite old audio_data) in
        let model_input := AudioData.features audio_data in
        Backend.accepts_song (World.backend w) row = true ->
        (DB.songs (snd run) = Models.replace_song row (DB.songs db)
         /\ In row (DB.songs (snd run))
         /\ ((exists body, fst run = Predicted body
                           /\ PredictionBody.song_id body = Song.id old)
             \/ fst run = ServerError DatabaseError))
        /\ (Song.id row = Song.id old
            /\ Song.track_id row = Some track_id
            /\ Song.track_genre row = Song.track_genre old)
        /\ (Song.track_name row = AudioData.title audio_data
            /\ Song.artists row = AudioData.artist audio_data
            /\ Song.album_name row = Some (AudioData.album audio_data)
            /\ Song.popularity row = Some (AudioData.popularity audio_data))
        /\ (Song.duration_ms row = FeatureSet.duration_ms model_input
            /\ Song.danceability row = FeatureSet.danceability model_input
            /\ Song.energy row = FeatureSet.energy model_input
            /\ Song.valence row = FeatureSet.valence model_input
            /\ Song.acousticness row = FeatureSet.acousticness model_input
            /\ Song.instrumentalness row
               = FeatureSet.instrumentalness model_input
            /\ Song.loudness row = FeatureSet.loudness model_input
            /\ Song.tempo row = FeatureSet.tempo model_input
            /\ Song.mode row = FeatureSet.mode model_input
            /\ Song.explicit row
               = PrimFloat.eqb (FeatureSet.explicit model_input) 1)
        /\ Song.is_hit row = Some (50 <=? AudioData.popularity audio_data))
    /\ (forall body,
          fst run = Predicted body ->
          exists audio_data verdict,
            SpotifyService.get_audio_features (World.api w) db track_id
              = Ok audio_data
            /\ Views.model_verdict (World.artifact w) audio_data = Ok verdict
            /\ Models.filter_track_id track_id db = [old]
            /\ Backend.accepts_song (World.backend w)
                 (Song.auto_calculate (Views.overwrite old audio_data)) = true
            /\ DB.songs (snd run)
               = Models.replace_song
                   (Song.auto_calculate (Views.overwrite old audio_data))
                   (DB.songs db)
            /\ PredictionBody.song_id body = Song.id old)
    /\ (forall e,
          SpotifyService.get_audio_features (World.api w) db track_id = Raise e ->
          run = (handle_exception e, db))
    /\ (forall audio_data e,
          SpotifyService.get_audio_features (World.api w) db track_id
            = Ok audio_data ->
          Views.model_verdict (World.artifact w) audio_data = Raise e ->
          run = (handle_exception e, db))
    /\ (forall audio_data verdict,
          SpotifyService.get_audio_features (World.api w) db track_id
            = Ok audio_data ->
          Views.model_verdict (World.artifact w) audio_data = Ok verdict ->
          Models.filter_track_id track_id db <> [old] ->
          run = (ServerError MultipleObjectsReturned, db))
    /\ (forall audio_data verdict,
          SpotifyService.get_audio_features (World.api w) db track_id
            = Ok audio_data ->
          Views.model_verdict (World.artifact w) audio_data = Ok verdict ->
          Models.filter_track_id track_id db = [old] ->
          Backend.accepts_song (World.backend w)
            (Song.auto_calculate (Views.overwrite old audio_data)) = false ->
          run = (ServerError DatabaseError, db))
    /\ (DB.songs (snd run) <> DB.songs db -> status (fst run) = 200 \/ status (fst run) = 500)
    /\ (let world := World.mk Fixture.faded_catalog
                       (Some (Fixture.bare_classifier 0)) Backend.permissive in
        let first := Views.predict_from_spotify world Fixture.stale_db
                                                Fixture.by_url in
        let second := Views.predict_from_spotify world (snd first)
                                                 Fixture.by_url in
        map Song.is_hit (DB.songs Fixture.stale_db) = [Some true]
        /\ option_map PredictionBody.in_dataset (body_of (fst first)) = Some false
        /\ map Song.is_hit (DB.songs (snd first)) = [Some false]
        /\ option_map PredictionBody.dataset_label (body_of (fst second))
           = Some (Some FLOP)).
Proof.
  intros w db data input old Hinput track_id Htruthy Hin Htid run.
  assert (Hrun : run = Views.finish
            match SpotifyService.get_audio_features (World.api w) db track_id with
            | Raise e => (Raise e, db)
            | Ok audio_data =>
                match Views.model_verdict (World.artifact w) audio_data with
                | Raise e => (Raise e, db)
                | Ok (model_hit, model_confidence) =>
                    Views.persist (World.backend w) data (Some track_id)
                      audio_data model_hit model_confidence db
                end
            end)
    by exact (predict_by_identifier w db data input Hinput).
  clearbody run.
  assert (Hreached :
    forall audio_data model_hit model_confidence,
      SpotifyService.get_audio_features (World.api w) db track_id
        = Ok audio_data ->
      Views.model_verdict (World.artifact w) audio_data
        = Ok (model_hit, model_confidence) ->
      Models.filter_track_id track_id db = [old] ->
      Backend.accepts_song (World.backend w)
        (Song.auto_calculate (Views.overwrite old audio_data)) = true ->
      DB.songs (snd run)
        = Models.replace_song
            (Song.auto_calculate (Views.overwrite old audio_data)) (DB.songs db)
      /\ ((exists body, fst run = Predicted body
                        /\ PredictionBody.song_id body = Song.id old)
          \/ fst run = ServerError DatabaseError)).
  { intros audio_data model_hit model_confidence Hf Hv Hfilter Hacc.
    rewrite Hrun, Hf, Hv.
    destruct (store_song_stored (World.backend w) track_id audio_data db old
                Htruthy Hin Htid) as [ (_ & Hs) | (Hne & _) ];
      [ | contradiction ].
    unfold Models.update_song in Hs. rewrite Hacc in Hs.
    destruct (persist_after_store (World.backend w) data (Some track_id)
                audio_data model_hit model_confidence db _ _ Hs)
      as (Hsongs & Hanswer).
    destruct (Views.persist _ _ _ _ _ _ _) as [ r db' ].
    simpl fst in Hanswer. simpl snd in Hsongs.
    destruct Hanswer as [ (body & -> & Hbody) | -> ]; simpl.
    - split; [ exact Hsongs | left; exists body; split; [ reflexivity | exact Hbody ] ].
    - split; [ exact Hsongs | now right ]. }
  assert (Hearly : forall e,
    SpotifyService.get_audio_features (World.api w) db track_id = Raise e ->
    run = (handle_exception e, db)).
  { intros e Hf. rewrite Hrun, Hf. reflexivity. }
  assert (Hmodel : forall audio_data e,
    SpotifyService.get_audio_features (World.api w) db track_id = Ok audio_data ->
    Views.model_verdict (World.artifact w) audio_data = Raise e ->
    run = (handle_exception e, db)).
  { intros audio_data e Hf Hv. rewrite Hrun, Hf, Hv. reflexivity. }
  assert (Hmany : forall audio_data verdict,
    SpotifyService.get_audio_features (World.api w) db track_id = Ok audio_data ->
    Views.model_verdict (World.artifact w) audio_data = Ok verdict ->
    Models.filter_track_id track_id db <> [old] ->
    run = (ServerError MultipleObjectsReturned, db)).
  { intros audio_data [model_hit model_confidence] Hf Hv Hne.
    rewrite Hrun, Hf, Hv.
    destruct (store_song_stored (World.backend w) track_id audio_data db old
                Htruthy Hin Htid) as [ (Hone & _) | (_ & Hs) ];
      [ contradiction | ].
    unfold Views.persist. rewrite Hs. reflexivity. }
  assert (Hrefused : forall audio_data verdict,
    SpotifyService.get_audio_features (World.api w) db track_id = Ok audio_data ->
    Views.model_verdict (World.artifact w) audio_data = Ok verdict ->
    Models.filter_track_id track_id db = [old] ->
    Backend.accepts_song (World.backend w)
      (Song.auto_calculate (Views.overwrite old audio_data)) = false ->
    run = (ServerError DatabaseError, db)).
  { intros audio_data [model_hit model_confidence] Hf Hv Hone Hacc.
    rewrite Hrun, Hf, Hv.
    destruct (store_song_stored (World.backend w) track_id audio_data db old
                Htruthy Hin Htid) as [ (_ & Hs) | (Hne & _) ];
      [ | contradiction ].
    unfold Models.update_song in Hs. rewrite Hacc in Hs.
    unfold Views.persist. rewrite Hs. reflexivity. }
  assert (Hcases :
    (exists audio_data verdict,
        SpotifyService.get_audio_features (World.api w) db track_id
          = Ok audio_data
        /\ Views.model_verdict (World.artifact w) audio_data = Ok verdict
        /\ Models.filter_track_id track_id db = [old]
        /\ Backend.accepts_song (World.backend w)
             (Song.auto_calculate (Views.overwrite old audio_data)) = true)
    \/ (exists e, run = (handle_exception e, db))).
  { destruct (SpotifyService.get_audio_features (World.api w) db track_id)
      as [ audio_data | e ] eqn:Hf;
      [ | right; exists e; now apply Hearly ].
    destruct (Views.model_verdict (World.artifact w) audio_data)
      as [ verdict | e ] eqn:Hv;
      [ | right; exists e; now apply (Hmodel audio_data) ].
    destruct (store_song_stored (World.backend w) track_id audio_data db old
                Htruthy Hin Htid) as [ (Hone & _) | (Hne & _) ];
      [ | right; exists MultipleObjectsReturned;
          now apply (Hmany audio_data verdict) ].
    destruct (Backend.accepts_song (World.backend w)
                (Song.auto_calculate (Views.overwrite old audio_data))) eqn:Hacc;
      [ left; exists audio_data, verdict; auto
      | right; exists DatabaseError;
        now apply (Hrefused audio_data verdict) ]. }
  split; [ | split; [ | split; [ exact Hearly | split; [ exact Hmodel |
             split; [ exact Hmany | split; [ exact Hrefused | split ] ] ] ] ] ].
  - intros audio_data [model_hit model_confidence] Hf Hv Hone row model_input Hacc.
    destruct (Hreached audio_data model_hit model_confidence Hf Hv Hone Hacc)
      as (Hsongs & Hanswer).
    split; [ split; [ exact Hsongs | split; [ | exact Hanswer ] ] | ].
    + rewrite Hsongs. eapply replace_song_in; [ exact Hin | reflexivity ].
    + split; [ repeat split; assumption | ]. repeat split.
  - intros body Hbody.
    destruct Hcases as [ (audio_data & [model_hit model_confidence] & Hf & Hv
                          & Hone & Hacc) | (e & He) ].
    + destruct (Hreached audio_data model_hit model_confidence Hf Hv Hone Hacc)
        as (Hsongs & Hanswer).
      exists audio_data, (model_hit, model_confidence).
      repeat (split; [ assumption | ]).
      destruct Hanswer as [ (body' & Hbody' & Hid) | Herr ]; congruence.
    + rewrite He in Hbody. simpl in Hbody. destruct e; discriminate.
  - intros Hchanged.
    destruct Hcases as [ (audio_data & [model_hit model_confidence] & Hf & Hv
                          & Hone & Hacc) | (e & He) ].
    + destruct (Hreached audio_data model_hit model_confidence Hf Hv Hone Hacc)
        as (_ & [ (body & -> & _) | -> ]); [ now left | now right ].
    + rewrite He in Hchanged. simpl in Hchanged. congruence.
  - repeat split; vm_compute; reflexivity.
Qed.

(** The rewriting scenario, as an instance: the stored row "Komedi"
    (popularity 73, HIT) and a request for the same track, which the
    catalog calls "Comedy" with popularity 40.  The row is rewritten when
    the request is answered 200, and also when the audit record is refused
    and the request is answered 500. *)
Lemma C10_witness :
  let answered := Views.predict_from_spotify
                    (World.mk Fixture.faded_catalog
                       (Some (Fixture.bare_classifier 0)) Backend.permissive)
                    Fixture.stale_db Fixture.by_url in
  let failed := Views.predict_from_spotify
                  (World.mk Fixture.faded_catalog
                     (Some (Fixture.bare_classifier 0)) Backend.audit_refused)
                  Fixture.stale_db Fixture.by_url in
  (map Song.track_name (DB.songs Fixture.stale_db) = [Some "Komedi"]
   /\ map Song.popularity (DB.songs Fixture.stale_db) = [Some 73]
   /\ map Song.is_hit (DB.songs Fixture.stale_db) = [Some true])
  /\ (status (fst answered) = 200
      /\ map Song.track_name (DB.songs (snd answered)) = [Some "Comedy"]
      /\ map Song.popularity (DB.songs (snd answered)) = [Some 40]
      /\ map Song.is_hit (DB.songs (snd answered)) = [Some false])
  /\ (fst failed = ServerError DatabaseError
      /\ status (fst failed) = 500
      /\ map Song.track_name (DB.songs (snd failed)) = [Some "Comedy"]
      /\ map Song.popularity (DB.songs (snd failed)) = [Some 40]
      /\ map Song.is_hit (DB.songs (snd failed)) = [Some false]).
Proof.
  intros answered failed.
  split; [ repeat split; vm_compute; reflexivity | ].
  destruct (SpotifyService.get_audio_features Fixture.faded_catalog
              Fixture.stale_db Fixture.comedy_id) as [ audio_data | e ] eqn:Hf;
    [ | vm_compute in Hf; discriminate ].
  destruct (Views.model_verdict (Some (Fixture.bare_classifier 0)) audio_data)
    as [ verdict | e ] eqn:Hv;
    [ | vm_compute in Hf; inv Hf; vm_compute in Hv; discriminate ].
  split.
  - destruct (C10_request_overwrites_stored_song
                (World.mk Fixture.faded_catalog
                   (Some (Fixture.bare_classifier 0)) Backend.permissive)
                Fixture.stale_db Fixture.by_url
                "https://open.spotify.com/track/5SuOikwiRyPMVoIQDJUgSV?si=abc"
                (hd Fixture.comedy (DB.songs Fixture.stale_db))
                eq_refl eq_refl (or_introl eq_refl) eq_refl)
      as (Hreached & _).
    destruct (Hreached audio_data verdict Hf Hv eq_refl eq_refl)
      as ((Hsongs & _ & Hanswer) & _).
    fold answered in Hsongs, Hanswer. rewrite Hsongs.
    vm_compute in Hf. inv Hf.
    split; [ | repeat split; vm_compute; reflexivity ].
    destruct Hanswer as [ (body & -> & _) | Herr ]; [ reflexivity | ].
    vm_compute in Herr. discriminate.
  - destruct (C10_request_overwrites_stored_song
                (World.mk Fixture.faded_catalog
                   (Some (Fixture.bare_classifier 0)) Backend.audit_refused)
                Fixture.stale_db Fixture.by_url
                "https://open.spotify.com/track/5SuOikwiRyPMVoIQDJUgSV?si=abc"
                (hd Fixture.comedy (DB.songs Fixture.stale_db))
                eq_refl eq_refl (or_introl eq_refl) eq_refl)
      as (Hreached & _).
    destruct (Hreached audio_data verdict Hf Hv eq_refl eq_refl)
      as ((Hsongs & _ & Hanswer) & _).
    fold failed in Hsongs, Hanswer. rewrite Hsongs.
    vm_compute in Hf. inv Hf.
    assert (Herr : fst failed = ServerError DatabaseError).
    { destruct Hanswer as [ (body & Hbody & _) | Herr ]; [ | exact Herr ].
      vm_compute in Hbody. discriminate. }
    split; [ exact Herr | ]. rewrite Herr.
    repeat split; vm_compute; reflexivity.
Defined.

(** C10 as stated fails for a request that does not get as far as the
    song write.  The track of the request has a stored row, the dataset
    lookup misses it (the catalog spells the title "Comedy", the row
    "Komedi"), and the audio-features endpoint refuses: the request is
    answered 400 and the row keeps its title, popularity and label.  The
    same holds when the model cannot be loaded (500), and when two rows
    carry the identifier, as after the import of a file that lists the
    track twice (500). *)
Lemma C10_counterexample :
  let refused := Views.predict_from_spotify
                   (Fixture.world (Fixture.bare_classifier 0))
                   Fixture.stale_db Fixture.by_url in
  let unloaded := Views.predict_from_spotify
                    (World.mk Fixture.faded_catalog None Backend.permissive)
                    Fixture.stale_db Fixture.by_url in
  let doubled := snd (ImportDataset.handle Backend.nan_as_null
                        Scenario.listed_twice 1000 DB.empty) in
  let twice := Views.predict_from_spotify
                 (Fixture.world (Fixture.bare_classifier 0)) doubled
                 Fixture.by_url in
  (Views.track_input Fixture.by_url
     = Some "https://open.spotify.com/track/5SuOikwiRyPMVoIQDJUgSV?si=abc"
   /\ SpotifyService.extract_track_id
        "https://open.spotify.com/track/5SuOikwiRyPMVoIQDJUgSV?si=abc"
      = Fixture.comedy_id
   /\ map Song.track_id (DB.songs Fixture.stale_db) = [Some Fixture.comedy_id]
   /\ map Song.track_name (DB.songs Fixture.stale_db) = [Some "Komedi"])
  /\ (status (fst refused) = 400
      /\ snd refused = Fixture.stale_db
      /\ map Song.track_name (DB.songs (snd refused)) = [Some "Komedi"]
      /\ map Song.popularity (DB.songs (snd refused)) = [Some 73]
      /\ map Song.is_hit (DB.songs (snd refused)) = [Some true])
  /\ (status (fst unloaded) = 500
      /\ snd unloaded = Fixture.stale_db)
  /\ (map Song.track_id (DB.songs doubled)
        = [Some Fixture.comedy_id; Some Fixture.comedy_id]
      /\ status (fst twice) = 500
      /\ snd twice = doubled).
Proof.
  repeat split; vm_compute; reflexivity.
Qed.

(* ================================================================= *)
(** * Further properties of the code *)

(* ================================================================= *)
(** ** Strings *)

Lemma append_empty : forall s : string, (s ++ "")%string = s.
Proof. induction s as [ | c s IH ]; simpl; congruence. Qed.

Lemma append_assoc :
  forall a b c : string, ((a ++ b) ++ c)%string = (a ++ (b ++ c))%string.
Proof. induction a as [ | x a IH ]; simpl; intros; congruence. Qed.

Lemma all_chars_app :
  forall p a b, all_chars p (a ++ b) = andb (all_chars p a) (all_chars p b).
Proof.
  intros p. induction a as [ | c a IH ]; simpl; intros b; [ reflexivity | ].
  now rewrite IH, andb_assoc.
Qed.

(** A character that fails [p] does not occur in a string of [p]s. *)
Lemma all_chars_occurs :
  forall p c s, all_chars p s = true -> p c = false -> occurs c s = false.
Proof.
  intros p c. induction s as [ | x s IH ]; simpl; intros Hs Hc; [ reflexivity | ].
  apply andb_true_iff in Hs. destruct Hs as (Hx & Hs).
  rewrite (IH Hs Hc), orb_false_r.
  destruct (Ascii.eqb c x) eqn:E; [ | reflexivity ].
  apply Ascii.eqb_eq in E. congruence.
Qed.

Lemma startswith_occurs :
  forall c sep s,
    startswith sep s = true -> occurs c sep = true -> occurs c s = true.
Proof.
  intros c. induction sep as [ | x sep IH ]; simpl; intros s H Hc;
    [ discriminate | ].
  destruct s as [ | y s ]; [ discriminate | ].
  apply andb_true_iff in H. destruct H as (Hxy & H).
  apply Ascii.eqb_eq in Hxy. subst y. simpl.
  destruct (Ascii.eqb c x); simpl in *; [ reflexivity | ]. now apply IH.
Qed.

Lemma startswith_absent :
  forall c sep s,
    occurs c s = false -> occurs c sep = true -> startswith sep s = false.
Proof.
  intros c sep s Hs Hsep. destruct (startswith sep s) eqn:E; [ | reflexivity ].
  rewrite (startswith_occurs _ _ _ E Hsep) in Hs. discriminate.
Qed.

Lemma contains_absent :
  forall c needle hay,
    occurs c hay = false -> occurs c needle = true -> contains needle hay = false.
Proof.
  intros c needle. induction hay as [ | x hay IH ]; intros Hh Hn.
  - simpl. rewrite (startswith_absent c needle "" Hh Hn). reflexivity.
  - cbn [contains]. rewrite (startswith_absent c _ _ Hh Hn). simpl.
    simpl in Hh. apply orb_false_iff in Hh. destruct Hh as (_ & Hh). now apply IH.
Qed.

Lemma startswith_app : forall p r, startswith p (p ++ r) = true.
Proof.
  induction p as [ | c p IH ]; simpl; intros r; [ reflexivity | ].
  now rewrite Ascii.eqb_refl, IH.
Qed.

Lemma contains_app : forall p n r, contains n (p ++ n ++ r) = true.
Proof.
  induction p as [ | c p IH ]; intros n r.
  - simpl append. destruct (n ++ r)%string eqn:E; cbn [contains];
      rewrite <- E, startswith_app; reflexivity.
  - simpl append. cbn [contains]. rewrite IH. apply orb_true_r.
Qed.

(** A piece that holds no character of the separator is not split. *)
Lemma split_go_absent :
  forall c sep s cur,
    occurs c s = false -> occurs c sep = true ->
    split_go sep 0 cur s = [(cur ++ s)%string].
Proof.
  intros c sep. induction s as [ | x s IH ]; intros cur Hs Hsep.
  - simpl. now rewrite append_empty.
  - cbn [split_go]. rewrite (startswith_absent c _ _ Hs Hsep).
    simpl in Hs. apply orb_false_iff in Hs. destruct Hs as (_ & Hs).
    rewrite (IH _ Hs Hsep), append_assoc. reflexivity.
Qed.

(** The first piece of a split at a single character. *)
Lemma split_go_char :
  forall c a r cur,
    occurs c a = false ->
    split_go (String c "") 0 cur (a ++ String c r)
    = (cur ++ a)%string :: split_go (String c "") 0 "" r.
Proof.
  intros c. induction a as [ | x a IH ]; intros r cur Ha.
  - simpl append. cbn [split_go startswith]. rewrite Ascii.eqb_refl. simpl.
    now rewrite append_empty.
  - simpl in Ha. apply orb_false_iff in Ha. destruct Ha as (Hx & Ha).
    simpl append. cbn [split_go startswith]. rewrite Hx. simpl.
    rewrite (IH _ _ Ha), append_assoc. reflexivity.
Qed.

Lemma lstrip_head :
  forall c s, is_space c = false -> lstrip (String c s) = String c s.
Proof. intros c s H. simpl. now rewrite H. Qed.

Lemma rstrip_no_space :
  forall s, all_chars (fun c => negb (is_space c)) s = true -> rstrip s = s.
Proof.
  induction s as [ | c s IH ]; simpl; intros H; [ reflexivity | ].
  apply andb_true_iff in H. destruct H as (Hc & Hs).
  rewrite (IH Hs). apply negb_true_iff in Hc. rewrite Hc.
  destruct s; reflexivity.
Qed.

Lemma rstrip_app :
  forall a b,
    all_chars (fun c => negb (is_space c)) a = true ->
    rstrip (a ++ b) = (a ++ rstrip b)%string.
Proof.
  induction a as [ | c a IH ]; simpl; intros b H; [ reflexivity | ].
  apply andb_true_iff in H. destruct H as (Hc & Ha).
  apply negb_true_iff in Hc. rewrite (IH _ Ha), Hc.
  destruct (a ++ rstrip b)%string; reflexivity.
Qed.

Lemma strip_no_space :
  forall s, all_chars (fun c => negb (is_space c)) s = true -> strip s = s.
Proof.
  intros s H. unfold strip.
  assert (Hl : lstrip s = s).
  { destruct s as [ | c s ]; [ reflexivity | ]. simpl in H.
    apply andb_true_iff in H. destruct H as (Hc & _).
    apply negb_true_iff in Hc. now apply lstrip_head. }
  rewrite Hl. now apply rstrip_no_space.
Qed.

Lemma all_chars_weaken :
  forall (p q : ascii -> bool) s,
    (forall c, p c = true -> q c = true) ->
    all_chars p s = true -> all_chars q s = true.
Proof.
  intros p q s Hpq. induction s as [ | c s IH ]; simpl; [ reflexivity | ].
  intros H. apply andb_true_iff in H. destruct H as (Hc & Hs).
  now rewrite (Hpq _ Hc), (IH Hs).
Qed.

Lemma base62_no_space : forall c, base62 c = true -> negb (is_space c) = true.
Proof.
  intros c. unfold base62, is_space.
  destruct (nat_of_ascii c) as [ | n ] eqn:E; [ discriminate | ].
  do 32 (destruct n as [ | n ]; [ simpl; intros; discriminate | ]).
  intros _. reflexivity.
Qed.

Lemma link_char_no_space : forall c, link_char c = true -> negb (is_space c) = true.
Proof.
  intros c. unfold link_char. rewrite negb_orb. intros H.
  apply andb_true_iff in H. tauto.
Qed.

Lemma base62_link_char : forall c, base62 c = true -> link_char c = true.
Proof.
  intros c H. unfold link_char. rewrite negb_orb.
  rewrite (base62_no_space _ H). simpl.
  destruct (Ascii.eqb c "/"%char) eqn:E; [ | reflexivity ].
  apply Ascii.eqb_eq in E. subst c. discriminate.
Qed.

(* ================================================================= *)
(** ** extract_track_id *)

Lemma identifier_occurs :
  forall id c, identifier id = true -> base62 c = false -> occurs c id = false.
Proof. intros id c H Hc. exact (all_chars_occurs base62 c id H Hc). Qed.

Lemma identifier_strip : forall id, identifier id = true -> strip id = id.
Proof.
  intros id H. apply strip_no_space.
  exact (all_chars_weaken base62 _ id base62_no_space H).
Qed.

Lemma contains_link :
  forall r,
    contains "open.spotify.com/track/" ("https://open.spotify.com/track/" ++ r)
    = true.
Proof. intros r. exact (contains_app "https://" "open.spotify.com/track/" r). Qed.

(** X1.  [extract_track_id] gives back an identifier made of digits and
    ASCII letters from each of the forms it accepts: the identifier itself,
    [spotify:track:<id>], [https://open.spotify.com/track/<id>] and that
    link followed by [?] and a query string without a slash or white
    space.  White space around the input makes no difference. *)
Theorem extract_track_id_round_trip :
  forall id rest : string,
    identifier id = true ->
    all_chars link_char rest = true ->
    SpotifyService.extract_track_id id = id
    /\ SpotifyService.extract_track_id ("spotify:track:" ++ id) = id
    /\ SpotifyService.extract_track_id ("https://open.spotify.com/track/" ++ id) = id
    /\ SpotifyService.extract_track_id
         ("https://open.spotify.com/track/" ++ id ++ "?" ++ rest) = id
    /\ (forall s s',
          strip s = strip s' ->
          SpotifyService.extract_track_id s = SpotifyService.extract_track_id s').
Proof.
  intros id rest Hid Hrest.
  assert (Hslash : occurs "/" id = false) by now apply identifier_occurs.
  assert (Hquery : occurs "?" id = false) by now apply identifier_occurs.
  assert (Hcolon : occurs ":" id = false) by now apply identifier_occurs.
  assert (Hspace : all_chars (fun c => negb (is_space c)) id = true)
    by exact (all_chars_weaken base62 _ id base62_no_space Hid).
  assert (Hrest_slash : occurs "/" rest = false)
    by (apply (all_chars_occurs link_char); [ exact Hrest | reflexivity ]).
  assert (Hrest_space : all_chars (fun c => negb (is_space c)) rest = true)
    by exact (all_chars_weaken link_char _ rest link_char_no_space Hrest).
  unfold SpotifyService.extract_track_id, split, first, last_item.
  split; [ | split; [ | split; [ | split ] ] ].
  - rewrite (identifier_strip _ Hid).
    rewrite (contains_absent "/" "open.spotify.com/track/" id Hslash eq_refl).
    rewrite (startswith_absent ":" "spotify:track:" id Hcolon eq_refl).
    reflexivity.
  - rewrite strip_no_space by (rewrite all_chars_app, Hspace; reflexivity).
    rewrite (contains_absent "/" "open.spotify.com/track/" ("spotify:track:" ++ id))
      by (simpl; auto).
    rewrite startswith_app.
    change ("spotify:track:" ++ id)%string
      with ("spotify" ++ String ":" ("track" ++ String ":" id))%string.
    rewrite (split_go_char ":" "spotify" _ "" eq_refl).
    rewrite (split_go_char ":" "track" _ "" eq_refl).
    rewrite (split_go_absent ":" ":" id "" Hcolon eq_refl). reflexivity.
  - rewrite strip_no_space by (rewrite all_chars_app, Hspace; reflexivity).
    rewrite contains_link.
    simpl.
    rewrite (split_go_absent "/" "track/" id "" Hslash eq_refl). simpl.
    rewrite (split_go_absent "?" "?" id "" Hquery eq_refl). simpl.
    rewrite (split_go_absent "/" "/" id "" Hslash eq_refl). reflexivity.
  - assert (Hall : all_chars (fun c => negb (is_space c))
                     ("https://open.spotify.com/track/" ++ id ++ "?" ++ rest)
                   = true)
      by (rewrite !all_chars_app, Hspace, Hrest_space; reflexivity).
    rewrite (strip_no_space _ Hall).
    rewrite contains_link.
    assert (Htail : occurs "/" (id ++ String "?" rest) = false).
    { clear - Hslash Hrest_slash. induction id as [ | c id IH ]; simpl in *.
      - exact Hrest_slash.
      - apply orb_false_iff in Hslash. destruct Hslash as (Hc & Hs).
        rewrite Hc. simpl. now apply IH. }
    simpl.
    rewrite (split_go_absent "/" "track/" _ "" Htail eq_refl). simpl.
    rewrite (split_go_char "?" id rest "" Hquery). simpl.
    rewrite (split_go_absent "/" "/" id "" Hslash eq_refl). reflexivity.
  - intros s s' H. now rewrite H.
Qed.

(** The documentation's track, as an identifier, as a URI and as a shared
    link. *)
Lemma extract_track_id_round_trip_witness :
  SpotifyService.extract_track_id "5SuOikwiRyPMVoIQDJUgSV"
    = "5SuOikwiRyPMVoIQDJUgSV"
  /\ SpotifyService.extract_track_id "spotify:track:5SuOikwiRyPMVoIQDJUgSV"
     = "5SuOikwiRyPMVoIQDJUgSV"
  /\ SpotifyService.extract_track_id
       "https://open.spotify.com/track/5SuOikwiRyPMVoIQDJUgSV?si=abc"
     = "5SuOikwiRyPMVoIQDJUgSV".
Proof.
  destruct (extract_track_id_round_trip "5SuOikwiRyPMVoIQDJUgSV" "si=abc"
              eq_refl eq_refl) as (H1 & H2 & _ & H4 & _).
  split; [ exact H1 | split; [ exact H2 | exact H4 ] ].
Defined.

(* ================================================================= *)
(** ** search_tracks *)

Lemma key_le_ranked :
  forall a b, SpotifyService.key_le a b = true <-> ranked_before a b.
Proof.
  intros a b. unfold SpotifyService.key_le, ranked_before.
  destruct (SearchResult.in_dataset a), (SearchResult.in_dataset b);
    rewrite ?Z.leb_le; split; intros H;
    try (split; [ tauto || discriminate || auto | intros; try discriminate; lia ]);
    try (destruct H as (H1 & H2); try (specialize (H2 eq_refl); lia);
         try reflexivity; try (now specialize (H1 eq_refl))).
Qed.

Lemma key_le_total :
  forall a b, SpotifyService.key_le a b = false -> SpotifyService.key_le b a = true.
Proof.
  intros a b. unfold SpotifyService.key_le.
  destruct (SearchResult.in_dataset a), (SearchResult.in_dataset b);
    rewrite ?Z.leb_le, ?Z.leb_gt; intros; try discriminate; try reflexivity; lia.
Qed.

Lemma key_le_trans :
  forall a b c,
    SpotifyService.key_le a b = true -> SpotifyService.key_le b c = true ->
    SpotifyService.key_le a c = true.
Proof.
  intros a b c. unfold SpotifyService.key_le.
  destruct (SearchResult.in_dataset a), (SearchResult.in_dataset b),
    (SearchResult.in_dataset c);
    rewrite ?Z.leb_le; intros; try discriminate; try reflexivity; lia.
Qed.

Lemma insert_sorted_perm :
  forall x l, Permutation (x :: l) (SpotifyService.insert_sorted x l).
Proof.
  intros x. induction l as [ | y l IH ]; simpl; [ apply Permutation_refl | ].
  destruct (SpotifyService.key_le x y); [ apply Permutation_refl | ].
  eapply perm_trans; [ apply perm_swap | ]. now apply perm_skip.
Qed.

Lemma sort_tracks_perm :
  forall l, Permutation l (SpotifyService.sort_tracks l).
Proof.
  unfold SpotifyService.sort_tracks.
  induction l as [ | x l IH ]; simpl; [ constructor | ].
  eapply perm_trans; [ apply perm_skip, IH | apply insert_sorted_perm ].
Qed.

Lemma insert_sorted_sorted :
  forall x l,
    StronglySorted (fun a b => SpotifyService.key_le a b = true) l ->
    StronglySorted (fun a b => SpotifyService.key_le a b = true)
                   (SpotifyService.insert_sorted x l).
Proof.
  intros x. induction 1 as [ | y l Hl IH Hy ]; simpl.
  - repeat constructor.
  - destruct (SpotifyService.key_le x y) eqn:Hxy.
    + constructor; [ now constructor | ].
      constructor; [ exact Hxy | ].
      rewrite Forall_forall in *. intros z Hz.
      eapply key_le_trans; [ exact Hxy | now apply Hy ].
    + constructor; [ exact IH | ].
      rewrite Forall_forall in *. intros z Hz.
      destruct (insert_sorted_in _ _ _ Hz) as [ -> | Hz' ];
        [ now apply key_le_total | now apply Hy ].
Qed.

Lemma sort_tracks_sorted :
  forall l,
    StronglySorted (fun a b => SpotifyService.key_le a b = true)
                   (SpotifyService.sort_tracks l).
Proof.
  unfold SpotifyService.sort_tracks.
  induction l as [ | x l IH ]; simpl; [ constructor | ].
  now apply insert_sorted_sorted.
Qed.

Lemma strongly_sorted_impl :
  forall (A : Type) (R S : A -> A -> Prop) (l : list A),
    (forall a b, R a b -> S a b) -> StronglySorted R l -> StronglySorted S l.
Proof.
  intros A R S l HRS. induction 1 as [ | x l Hl IH Hx ]; constructor; auto.
  rewrite Forall_forall in *. auto.
Qed.

(** Inserting a track does not disturb the order of the tracks of one
    key: the sort is stable. *)
Lemma insert_sorted_with_key :
  forall d p x l,
    filter (with_key d p) (SpotifyService.insert_sorted x l)
    = filter (with_key d p) (x :: l).
Proof.
  intros d p x. induction l as [ | y l IH ]; [ reflexivity | ].
  cbn [SpotifyService.insert_sorted].
  destruct (SpotifyService.key_le x y) eqn:Hxy; [ reflexivity | ].
  cbn [filter] in *. rewrite IH.
  destruct (with_key d p y) eqn:Hy; [ | reflexivity ].
  destruct (with_key d p x) eqn:Hx; [ | reflexivity ].
  exfalso. unfold with_key in Hx, Hy.
  apply andb_true_iff in Hx, Hy. destruct Hx as (Hxd & Hxp), Hy as (Hyd & Hyp).
  apply Bool.eqb_prop in Hxd, Hyd. apply Z.eqb_eq in Hxp, Hyp.
  unfold SpotifyService.key_le in Hxy. rewrite Hxd, Hyd, Hxp, Hyp in Hxy.
  destruct d; rewrite Z.leb_refl in Hxy; discriminate.
Qed.

Lemma sort_tracks_with_key :
  forall d p l,
    filter (with_key d p) (SpotifyService.sort_tracks l) = filter (with_key d p) l.
Proof.
  intros d p. unfold SpotifyService.sort_tracks.
  induction l as [ | x l IH ]; [ reflexivity | ].
  cbn [fold_right]. rewrite insert_sorted_with_key. cbn [filter].
  now rewrite IH.
Qed.

(** X3.  When [search_tracks] returns, its list is a rearrangement of
    the catalog's answer (one entry per item, none added or dropped) in
    which tracks of the dataset come before the others and, within each
    of the two groups, a more popular track never comes after a less
    popular one; tracks with the same flag and popularity keep the
    catalog's order. *)
Theorem search_tracks_ranks_the_catalog_results :
  forall (api : Catalog.t) (db : DB.t) (query : string) (limit : Z)
         (tracks : list SearchResult.t),
    SpotifyService.search_tracks api db query limit = Ok tracks ->
    exists items,
      Catalog.search api query limit = Ok items
      /\ Permutation (map (SpotifyService.to_search_result db) items) tracks
      /\ List.length tracks = List.length items
      /\ StronglySorted ranked_before tracks
      /\ (forall in_dataset popularity,
             filter (with_key in_dataset popularity) tracks
             = filter (with_key in_dataset popularity)
                      (map (SpotifyService.to_search_result db) items)).
Proof.
  intros api db query limit tracks H. unfold SpotifyService.search_tracks in H.
  destruct (Catalog.search api query limit) as [ items | e ]; [ | discriminate ].
  simpl in H. inv H. exists items. split; [ reflexivity | ].
  pose proof (sort_tracks_perm (map (SpotifyService.to_search_result db) items))
    as Hperm.
  split; [ exact Hperm | split; [ | split ] ].
  - rewrite <- (Permutation_length Hperm). apply length_map.
  - eapply strongly_sorted_impl; [ | apply sort_tracks_sorted ].
    intros a b. apply key_le_ranked.
  - intros d p. apply sort_tracks_with_key.
Qed.

(** Four covers, none of them in the dataset: the most popular first. *)
Lemma search_tracks_witness :
  exists tracks,
    SpotifyService.search_tracks Fixture.busy_catalog Fixture.dataset_db
        "comedy" 10 = Ok tracks
    /\ map SearchResult.id tracks = ["c40"; "c30"; "c20"; "c10"]
    /\ StronglySorted ranked_before tracks.
Proof.
  destruct (SpotifyService.search_tracks Fixture.busy_catalog Fixture.dataset_db
              "comedy" 10) as [ tracks | e ] eqn:Hsearch;
    [ | vm_compute in Hsearch; discriminate ].
  exists tracks. split; [ reflexivity | ].
  destruct (search_tracks_ranks_the_catalog_results _ _ _ _ _ Hsearch)
    as (items & _ & _ & _ & Hsorted & _).
  split; [ | exact Hsorted ].
  vm_compute in Hsearch. inv Hsearch. reflexivity.
Defined.

(* ================================================================= *)
(** ** The access token *)

Lemma request_token_sent :
  forall cred clock net s r s',
    SpotifySession.request_token cred clock net s = (r, s') ->
    (SpotifySession.sent s' = SpotifySession.sent s
     /\ exists f, r = SpotifySession.Failed f)
    \/ SpotifySession.sent s'
       = SpotifySession.sent s
           ++ [SpotifySession.PostToken (SpotifySession.client_id cred)
                                        (SpotifySession.client_secret cred)].
Proof.
  intros cred clock net s r s' H. unfold SpotifySession.request_token in H.
  repeat (break_match; try discriminate); inv H; simpl; eauto.
Qed.

Lemma request_token_returned :
  forall cred clock net s tok s',
    SpotifySession.request_token cred clock net s
      = (SpotifySession.Returned tok, s') ->
    SpotifySession.access_token s' = Some tok
    /\ SpotifySession.sent s'
       = SpotifySession.sent s
           ++ [SpotifySession.PostToken (SpotifySession.client_id cred)
                                        (SpotifySession.client_secret cred)]
    /\ exists response token_data lifetime,
         SpotifySession.post net (SpotifySession.sent s)
           (SpotifySession.client_id cred) (SpotifySession.client_secret cred)
           = Ok response
         /\ SpotifySession.status_code response = 200
         /\ SpotifySession.json response = Ok token_data
         /\ SpotifySession.body_access_token token_data = Some tok
         /\ float_of_int (SpotifyService.default 3600
                            (SpotifySession.expires_in token_data))
            = Ok lifetime
         /\ SpotifySession.token_expires_at s'
            = (clock (SpotifySession.ticks s) + lifetime)%float
         /\ SpotifySession.ticks s' = S (SpotifySession.ticks s).
Proof.
  intros cred clock net s tok s' H. unfold SpotifySession.request_token in H.
  repeat (break_match; try discriminate); inv H; simpl.
  split; [ reflexivity | split; [ reflexivity | ] ].
  do 3 eexists. repeat split; eauto.
  match goal with
  | H : negb (_ =? 200) = false |- _ =>
      apply negb_false_iff in H; now apply Z.eqb_eq in H
  end.
Qed.

Lemma app_one_neq : forall (A : Type) (l : list A) (x : A), (l ++ [x])%list <> l.
Proof.
  intros A l x H. apply (f_equal (@List.length A)) in H.
  rewrite length_app in H. simpl in H. lia.
Qed.

Lemma get_access_token_sent :
  forall cred clock net s,
    let run := SpotifySession._get_access_token cred clock net s in
    SpotifySession.sent (snd run) = SpotifySession.sent s
    \/ SpotifySession.sent (snd run)
       = SpotifySession.sent s
           ++ [SpotifySession.PostToken (SpotifySession.client_id cred)
                                        (SpotifySession.client_secret cred)].
Proof.
  intros cred clock net s run.
  assert (Hsent : forall s0 r s',
             SpotifySession.request_token cred clock net s0 = (r, s') ->
             SpotifySession.sent s0 = SpotifySession.sent s ->
             SpotifySession.sent s' = SpotifySession.sent s
             \/ SpotifySession.sent s'
                = SpotifySession.sent s
                    ++ [SpotifySession.PostToken (SpotifySession.client_id cred)
                          (SpotifySession.client_secret cred)]).
  { intros s0 r s' H Hs0.
    destruct (request_token_sent _ _ _ _ _ _ H) as [ (Hs & _) | Hs ];
      rewrite Hs, Hs0; auto. }
  subst run. unfold SpotifySession._get_access_token.
  destruct (SpotifySession.access_token s) as [ tok | ].
  - destruct (truthy tok).
    + destruct (PrimFloat.ltb _ _); [ now left | ].
      destruct (SpotifySession.request_token _ _ _ _) as [r s'] eqn:H.
      exact (Hsent _ _ _ H eq_refl).
    + destruct (SpotifySession.request_token _ _ _ _) as [r s'] eqn:H.
      exact (Hsent _ _ _ H eq_refl).
  - destruct (SpotifySession.request_token _ _ _ _) as [r s'] eqn:H.
    exact (Hsent _ _ _ H eq_refl).
Qed.

(** After a 401 the token is dropped, so the next token comes from a
    request. *)
Lemma get_access_token_after_drop :
  forall cred clock net s tok s',
    SpotifySession._get_access_token cred clock net
      (SpotifySession.set_access_token None s)
      = (SpotifySession.Returned tok, s') ->
    SpotifySession.sent s'
    = SpotifySession.sent s
        ++ [SpotifySession.PostToken (SpotifySession.client_id cred)
                                     (SpotifySession.client_secret cred)]
    /\ SpotifySession.access_token s' = Some tok.
Proof.
  intros cred clock net s tok s' H.
  unfold SpotifySession._get_access_token in H. simpl in H.
  destruct (request_token_returned _ _ _ _ _ _ H) as (Htok & Hsent & _).
  auto.
Qed.

(** X4.  [_get_access_token] returns the held token without any request
    as long as the clock is more than 60 seconds before the expiry;
    otherwise it sends at most one request, to the token endpoint.  A token
    that is returned is the one held afterwards; a new one comes from a 200
    answer and expires [expires_in] seconds (3600 when the key is absent)
    after the clock reading taken on receipt.  Without a client id or
    secret no request is sent. *)
Theorem access_token_is_reused_until_a_minute_before_expiry :
  forall (cred : SpotifySession.Credentials) (clock : nat -> float)
         (net : SpotifySession.Network) (s : SpotifySession.t),
    let run := SpotifySession._get_access_token cred clock net s in
    let token_request :=
      SpotifySession.PostToken (SpotifySession.client_id cred)
                               (SpotifySession.client_secret cred) in
    (forall tok,
        SpotifySession.access_token s = Some tok ->
        truthy tok = true ->
        PrimFloat.ltb (clock (SpotifySession.ticks s))
                      (SpotifySession.token_expires_at s - 60) = true ->
        run = (SpotifySession.Returned tok, SpotifySession.tick s))
    /\ (SpotifySession.sent (snd run) = SpotifySession.sent s
        \/ SpotifySession.sent (snd run)
           = SpotifySession.sent s ++ [token_request])
    /\ (forall tok,
          fst run = SpotifySession.Returned tok ->
          SpotifySession.access_token (snd run) = Some tok)
    /\ (forall tok,
          fst run = SpotifySession.Returned tok ->
          SpotifySession.sent (snd run) = SpotifySession.sent s ->
          SpotifySession.access_token s = Some tok
          /\ PrimFloat.ltb (clock (SpotifySession.ticks s))
                           (SpotifySession.token_expires_at s - 60) = true)
    /\ (forall tok,
          fst run = SpotifySession.Returned tok ->
          SpotifySession.sent (snd run)
            = SpotifySession.sent s ++ [token_request] ->
          exists response token_data lifetime reading,
            SpotifySession.post net (SpotifySession.sent s)
              (SpotifySession.client_id cred) (SpotifySession.client_secret cred)
              = Ok response
            /\ SpotifySession.status_code response = 200
            /\ SpotifySession.json response = Ok token_data
            /\ SpotifySession.body_access_token token_data = Some tok
            /\ float_of_int (SpotifyService.default 3600
                               (SpotifySession.expires_in token_data))
               = Ok lifetime
            /\ reading = clock (Nat.pred (SpotifySession.ticks (snd run)))
            /\ SpotifySession.token_expires_at (snd run)
               = (reading + lifetime)%float)
    /\ (truthy (SpotifySession.client_id cred) = false
        \/ truthy (SpotifySession.client_secret cred) = false ->
        SpotifySession.sent (snd run) = SpotifySession.sent s
        /\ ((exists tok, fst run = SpotifySession.Returned tok)
            \/ fst run
               = SpotifySession.Failed
                   (SpotifySession.Python (ValueError CredentialsNotConfigured)))).
Proof.
  intros cred clock net s run token_request.
  assert (Hreq : forall s0 tok s',
             SpotifySession.request_token cred clock net s0
               = (SpotifySession.Returned tok, s') ->
             SpotifySession.sent s0 = SpotifySession.sent s ->
             SpotifySession.sent s' <> SpotifySession.sent s).
  { intros s0 tok s' H Hs0 Heq.
    destruct (request_token_returned _ _ _ _ _ _ H) as (_ & Hs & _).
    rewrite Hs, Hs0 in Heq. exact (app_one_neq _ _ _ Heq). }
  unfold SpotifySession._get_access_token in run.
  split; [ | split; [ | split; [ | split; [ | split ] ] ] ].
  - intros tok Htok Htruthy Hfresh. subst run.
    now rewrite Htok, Htruthy, Hfresh.
  - exact (get_access_token_sent cred clock net s).
  - intros tok Hret. subst run.
    destruct (SpotifySession.access_token s) as [ held | ] eqn:Hheld.
    + destruct (truthy held).
      * destruct (PrimFloat.ltb _ _).
        -- simpl in Hret. inv Hret. exact Hheld.
        -- destruct (SpotifySession.request_token _ _ _ _) as [r s'] eqn:H.
           simpl in Hret. subst r.
           exact (proj1 (request_token_returned _ _ _ _ _ _ H)).
      * destruct (SpotifySession.request_token _ _ _ _) as [r s'] eqn:H.
        simpl in Hret. subst r.
        exact (proj1 (request_token_returned _ _ _ _ _ _ H)).
    + destruct (SpotifySession.request_token _ _ _ _) as [r s'] eqn:H.
      simpl in Hret. subst r.
      exact (proj1 (request_token_returned _ _ _ _ _ _ H)).
  - intros tok Hret Hsame. subst run.
    destruct (SpotifySession.access_token s) as [ held | ] eqn:Hheld.
    + destruct (truthy held).
      * destruct (PrimFloat.ltb _ _) eqn:Hfresh.
        -- simpl in Hret. inv Hret. auto.
        -- destruct (SpotifySession.request_token _ _ _ _) as [r s'] eqn:H.
           simpl in Hret, Hsame. subst r.
           destruct (Hreq _ _ _ H eq_refl Hsame).
      * destruct (SpotifySession.request_token _ _ _ _) as [r s'] eqn:H.
        simpl in Hret, Hsame. subst r. destruct (Hreq _ _ _ H eq_refl Hsame).
    + destruct (SpotifySession.request_token _ _ _ _) as [r s'] eqn:H.
      simpl in Hret, Hsame. subst r. destruct (Hreq _ _ _ H eq_refl Hsame).
  - intros tok Hret Hgrew. subst run.
    assert (Hgrant : forall s0 s',
               SpotifySession.request_token cred clock net s0
                 = (SpotifySession.Returned tok, s') ->
               SpotifySession.sent s0 = SpotifySession.sent s ->
               exists response token_data lifetime reading,
                 SpotifySession.post net (SpotifySession.sent s)
                   (SpotifySession.client_id cred)
                   (SpotifySession.client_secret cred) = Ok response
                 /\ SpotifySession.status_code response = 200
                 /\ SpotifySession.json response = Ok token_data
                 /\ SpotifySession.body_access_token token_data = Some tok
                 /\ float_of_int (SpotifyService.default 3600
                                    (SpotifySession.expires_in token_data))
                    = Ok lifetime
                 /\ reading = clock (Nat.pred (SpotifySession.ticks s'))
                 /\ SpotifySession.token_expires_at s'
                    = (reading + lifetime)%float).
    { intros s0 s' H Hs0.
      destruct (request_token_returned _ _ _ _ _ _ H)
        as (_ & _ & response & token_data & lifetime & Hpost & Hstatus & Hjson
            & Htok & Hlife & Hexp & Hticks).
      rewrite Hs0 in Hpost. exists response, token_data, lifetime.
      eexists. repeat split; eauto. rewrite Hticks. exact Hexp. }
    destruct (SpotifySession.access_token s) as [ held | ] eqn:Hheld.
    + destruct (truthy held).
      * destruct (PrimFloat.ltb _ _) eqn:Hfresh.
        -- simpl in Hgrew. symmetry in Hgrew. destruct (app_one_neq _ _ _ Hgrew).
        -- destruct (SpotifySession.request_token _ _ _ _) as [r s'] eqn:H.
           simpl in Hret. subst r. exact (Hgrant _ _ H eq_refl).
      * destruct (SpotifySession.request_token _ _ _ _) as [r s'] eqn:H.
        simpl in Hret. subst r. exact (Hgrant _ _ H eq_refl).
    + destruct (SpotifySession.request_token _ _ _ _) as [r s'] eqn:H.
      simpl in Hret. subst r. exact (Hgrant _ _ H eq_refl).
  - intros Hcred.
    assert (Hnone : forall s0,
               SpotifySession.request_token cred clock net s0
               = (SpotifySession.Failed
                    (SpotifySession.Python (ValueError CredentialsNotConfigured)),
                  s0)).
    { intros s0. unfold SpotifySession.request_token.
      destruct Hcred as [ -> | -> ]; simpl; [ reflexivity | ].
      now rewrite orb_true_r. }
    subst run. destruct (SpotifySession.access_token s) as [ held | ].
    + destruct (truthy held).
      * destruct (PrimFloat.ltb _ _); simpl; [ eauto | ].
        rewrite Hnone. simpl. auto.
      * rewrite Hnone. simpl. auto.
    + rewrite Hnone. simpl. auto.
Qed.

(* ================================================================= *)
(** ** The authenticated request *)

Lemma conclude_cases :
  forall response s,
    ((400 <= SpotifySession.status_code response < 600)
     /\ SpotifySession.conclude response s
        = (SpotifySession.Failed (SpotifySession.Python HTTPError), s))
    \/ ((SpotifySession.status_code response < 400
         \/ 600 <= SpotifySession.status_code response)
        /\ SpotifySession.conclude response s
           = (match SpotifySession.json response with
              | Ok body => SpotifySession.Returned body
              | Raise e => SpotifySession.Failed (SpotifySession.Python e)
              end, s)).
Proof.
  intros response s. unfold SpotifySession.conclude.
  destruct (400 <=? SpotifySession.status_code response) eqn:Hlo;
    destruct (SpotifySession.status_code response <? 600) eqn:Hhi; simpl;
    rewrite ?Z.leb_le, ?Z.leb_gt, ?Z.ltb_lt, ?Z.ltb_ge in *;
    [ left; split; [ lia | reflexivity ] | right | right | right ];
    (split; [ lia | destruct (SpotifySession.json response); reflexivity ]).
Qed.

Lemma conclude_sent :
  forall response s,
    SpotifySession.sent (snd (SpotifySession.conclude response s))
    = SpotifySession.sent s.
Proof.
  intros response s. unfold SpotifySession.conclude.
  destruct (andb _ _); [ reflexivity | ].
  destruct (SpotifySession.json response); reflexivity.
Qed.

(** X5.  [_make_request] sends at most two GET requests, both to the
    endpoint's URL, and at most four requests in all.  A 404 answer to the
    first GET raises the track-not-found [ValueError] at once.  A 401
    answer drops the token, asks for a new one and repeats the GET once;
    the second answer is final, so that a second 401, or a 404 to the
    retry, is an [HTTPError].  A body is returned only from the last GET
    sent, when its status is not an error status. *)
Theorem make_request_retries_once_after_401 :
  forall (cred : SpotifySession.Credentials) (clock : nat -> float)
         (net : SpotifySession.Network) (endpoint : string)
         (s : SpotifySession.t),
    let url := (SpotifySession.SPOTIFY_API_BASE ++ endpoint)%string in
    let token_request :=
      SpotifySession.PostToken (SpotifySession.client_id cred)
                               (SpotifySession.client_secret cred) in
    let run := SpotifySession._make_request cred clock net endpoint s in
    (exists extra,
        SpotifySession.sent (snd run) = SpotifySession.sent s ++ extra
        /\ (List.length extra <= 4)%nat
        /\ (List.length (filter is_get extra) <= 2)%nat
        /\ Forall (fun r => r = token_request
                            \/ exists tok, r = SpotifySession.Get url tok) extra)
    /\ (forall tok s1 response,
          SpotifySession._get_access_token cred clock net s
            = (SpotifySession.Returned tok, s1) ->
          SpotifySession.get net (SpotifySession.sent s1) url tok = Ok response ->
          let s2 := SpotifySession.log (SpotifySession.Get url tok) s1 in
          (SpotifySession.status_code response = 404 ->
           run = (SpotifySession.Failed
                    (SpotifySession.Python (ValueError TrackNotFound)), s2))
          /\ (SpotifySession.status_code response <> 404 ->
              SpotifySession.status_code response <> 401 ->
              run = SpotifySession.conclude response s2)
          /\ (SpotifySession.status_code response = 401 ->
              forall tok' s3,
                SpotifySession._get_access_token cred clock net
                  (SpotifySession.set_access_token None s2)
                  = (SpotifySession.Returned tok', s3) ->
                SpotifySession.sent s3
                = SpotifySession.sent s1
                    ++ [SpotifySession.Get url tok; token_request]
                /\ forall response',
                    SpotifySession.get net (SpotifySession.sent s3) url tok'
                      = Ok response' ->
                    run = SpotifySession.conclude response'
                            (SpotifySession.log (SpotifySession.Get url tok') s3)))
    /\ (forall body,
          fst run = SpotifySession.Returned body ->
          exists before tok response,
            SpotifySession.sent (snd run)
              = before ++ [SpotifySession.Get url tok]
            /\ SpotifySession.get net before url tok = Ok response
            /\ SpotifySession.json response = Ok body
            /\ (SpotifySession.status_code response < 400
                \/ 600 <= SpotifySession.status_code response))
    /\ (forall response s',
          SpotifySession.status_code response = 404
          \/ SpotifySession.status_code response = 401 ->
          SpotifySession.conclude response s'
          = (SpotifySession.Failed (SpotifySession.Python HTTPError), s')).
Proof.
  intros cred clock net endpoint s url token_request run.
  split; [ | split; [ | split ] ].
  - subst run. unfold SpotifySession._make_request. fold url.
    pose proof (get_access_token_sent cred clock net s) as H1. cbv zeta in H1.
    fold token_request in H1.
    destruct (SpotifySession._get_access_token cred clock net s)
      as [ [ tok | f ] s1 ] eqn:Htoken; simpl in H1.
    + assert (Hfirst : exists e1,
                 SpotifySession.sent s1 = SpotifySession.sent s ++ e1
                 /\ (List.length e1 <= 1)%nat
                 /\ filter is_get e1 = []
                 /\ Forall (fun r => r = token_request
                                     \/ exists tok, r = SpotifySession.Get url tok)
                           e1).
      { destruct H1 as [ H1 | H1 ].
        - exists []. rewrite app_nil_r. simpl. auto.
        - exists [token_request]. simpl. repeat split; auto. }
      destruct Hfirst as (e1 & He1 & Hlen1 & Hget1 & Hall1).
      assert (Hone : exists extra,
                 SpotifySession.sent
                   (SpotifySession.log (SpotifySession.Get url tok) s1)
                 = SpotifySession.sent s ++ extra
                 /\ (List.length extra <= 4)%nat
                 /\ (List.length (filter is_get extra) <= 2)%nat
                 /\ Forall (fun r => r = token_request
                                     \/ exists tok, r = SpotifySession.Get url tok)
                           extra).
      { exists (e1 ++ [SpotifySession.Get url tok]). simpl.
        rewrite He1, <- app_assoc, length_app, filter_app, Hget1. simpl.
        repeat split; try lia. apply Forall_app. split; [ exact Hall1 | ].
        constructor; [ right; eauto | constructor ]. }
      destruct (SpotifySession.get net (SpotifySession.sent s1) url tok)
        as [ response | e ]; [ | exact Hone ].
      destruct (SpotifySession.status_code response =? 404); [ exact Hone | ].
      destruct (SpotifySession.status_code response =? 401);
        [ | rewrite conclude_sent; exact Hone ].
      pose proof (get_access_token_sent cred clock net
                    (SpotifySession.set_access_token None
                       (SpotifySession.log (SpotifySession.Get url tok) s1)))
        as H2. cbv zeta in H2. fold token_request in H2.
      destruct (SpotifySession._get_access_token cred clock net
                  (SpotifySession.set_access_token None _))
        as [ [ tok' | f ] s3 ] eqn:Htoken2; simpl in H2.
      * assert (Hsecond : exists e2,
                   SpotifySession.sent s3
                   = SpotifySession.sent s ++ e1 ++ SpotifySession.Get url tok :: e2
                   /\ (List.length e2 <= 1)%nat
                   /\ filter is_get e2 = []
                   /\ Forall (fun r => r = token_request
                                       \/ exists tok, r = SpotifySession.Get url tok)
                             e2).
        { destruct H2 as [ H2 | H2 ]; rewrite H2, He1, <- !app_assoc; simpl.
          - exists []. simpl. auto.
          - exists [token_request]. simpl. repeat split; auto. }
        destruct Hsecond as (e2 & He2 & Hlen2 & Hget2 & Hall2).
        assert (Htwo : exists extra,
                   SpotifySession.sent
                     (SpotifySession.log (SpotifySession.Get url tok') s3)
                   = SpotifySession.sent s ++ extra
                   /\ (List.length extra <= 4)%nat
                   /\ (List.length (filter is_get extra) <= 2)%nat
                   /\ Forall (fun r => r = token_request
                                       \/ exists tok, r = SpotifySession.Get url tok)
                             extra).
        { exists (e1 ++ SpotifySession.Get url tok :: e2
                     ++ [SpotifySession.Get url tok']).
          simpl. rewrite He2, <- !app_assoc. simpl.
          rewrite !length_app, !filter_app. simpl.
          rewrite !length_app, !filter_app, Hget1, Hget2. simpl.
          repeat split; try lia.
          apply Forall_app. split; [ exact Hall1 | ].
          constructor; [ right; eauto | ].
          apply Forall_app. split; [ exact Hall2 | ].
          constructor; [ right; eauto | constructor ]. }
        destruct (SpotifySession.get net (SpotifySession.sent s3) url tok')
          as [ response' | e ]; [ | exact Htwo ].
        rewrite conclude_sent. exact Htwo.
      * simpl. destruct H2 as [ H2 | H2 ]; rewrite H2; simpl;
          [ exists (e1 ++ [SpotifySession.Get url tok])
          | exists (e1 ++ [SpotifySession.Get url tok; token_request]) ];
          rewrite He1, <- !app_assoc; simpl;
          rewrite !length_app, !filter_app, Hget1; simpl;
          (repeat split; try lia);
          (apply Forall_app; split; [ exact Hall1 | ]);
          repeat (constructor; eauto).
    + simpl. destruct H1 as [ H1 | H1 ]; rewrite H1.
      * exists []. rewrite app_nil_r. simpl. repeat split; auto.
      * exists [token_request]. simpl. repeat split; auto.
  - intros tok s1 response Htoken Hget s2.
    subst run. unfold SpotifySession._make_request. fold url.
    rewrite Htoken, Hget. fold s2.
    split; [ | split ].
    + intros H404. rewrite H404. reflexivity.
    + intros Hn404 Hn401.
      destruct (SpotifySession.status_code response =? 404) eqn:E1;
        [ apply Z.eqb_eq in E1; contradiction | ].
      destruct (SpotifySession.status_code response =? 401) eqn:E2;
        [ apply Z.eqb_eq in E2; contradiction | reflexivity ].
    + intros H401 tok' s3 Htoken2. rewrite H401. simpl.
      rewrite Htoken2.
      destruct (get_access_token_after_drop _ _ _ _ _ _ Htoken2) as (Hsent3 & _).
      split.
      * rewrite Hsent3. subst s2. simpl. now rewrite <- app_assoc.
      * intros response' Hget2. now rewrite Hget2.
  - intros body Hret. subst run. unfold SpotifySession._make_request in Hret.
    fold url in Hret.
    destruct (SpotifySession._get_access_token cred clock net s)
      as [ [ tok | f ] s1 ] eqn:Htoken; [ | discriminate ].
    unfold SpotifySession._make_request. fold url. rewrite Htoken.
    destruct (SpotifySession.get net (SpotifySession.sent s1) url tok)
      as [ response | e ] eqn:Hget; [ | discriminate ].
    destruct (SpotifySession.status_code response =? 404); [ discriminate | ].
    destruct (SpotifySession.status_code response =? 401).
    + destruct (SpotifySession._get_access_token cred clock net
                  (SpotifySession.set_access_token None _))
        as [ [ tok' | f ] s3 ] eqn:Htoken2; [ | discriminate ].
      destruct (SpotifySession.get net (SpotifySession.sent s3) url tok')
        as [ response' | e ] eqn:Hget2; [ | discriminate ].
      destruct (conclude_cases response'
                  (SpotifySession.log (SpotifySession.Get url tok') s3))
        as [ (_ & Hc) | (Hstatus & Hc) ]; rewrite Hc in *; [ discriminate | ].
      simpl in Hret. destruct (SpotifySession.json response') eqn:Hjson;
        [ | discriminate ].
      inv Hret. exists (SpotifySession.sent s3), tok', response'. auto.
    + destruct (conclude_cases response
                  (SpotifySession.log (SpotifySession.Get url tok) s1))
        as [ (_ & Hc) | (Hstatus & Hc) ]; rewrite Hc in *; [ discriminate | ].
      simpl in Hret. destruct (SpotifySession.json response) eqn:Hjson;
        [ | discriminate ].
      inv Hret. exists (SpotifySession.sent s1), tok, response. auto.
  - intros response s' Hstatus.
    destruct (conclude_cases response s') as [ (_ & Hc) | (Hs & _) ];
      [ exact Hc | lia ].
Qed.

(** A refused token is replaced and the request repeated once; a 404 is
    answered at once. *)
Example session_examples :
  SpotifySession._make_request Scenario.credentials Scenario.clock
      Scenario.network "/tracks/x" Scenario.session
    = (SpotifySession.Returned (PStr "https://api.spotify.com/v1/tracks/x"),
       SpotifySession.mk (Some "fresh") 4600
         [ SpotifySession.Get "https://api.spotify.com/v1/tracks/x" "stale";
           SpotifySession.PostToken "client" "secret";
           SpotifySession.Get "https://api.spotify.com/v1/tracks/x" "fresh" ]
         2)
  /\ SpotifySession._make_request Scenario.credentials Scenario.clock
       Scenario.nothing_there "/tracks/x" SpotifySession.init
     = (SpotifySession.Failed (SpotifySession.Python (ValueError TrackNotFound)),
        SpotifySession.mk (Some "fresh") 4600
          [ SpotifySession.PostToken "client" "secret";
            SpotifySession.Get "https://api.spotify.com/v1/tracks/x" "fresh" ]
          1)
  /\ fst (SpotifySession._get_access_token
            (SpotifySession.mkCredentials "" "secret") Scenario.clock
            Scenario.network SpotifySession.init)
     = SpotifySession.Failed
         (SpotifySession.Python (ValueError CredentialsNotConfigured)).
Proof.
  split; [ | split ]; vm_compute; reflexivity.
Qed.

(* ================================================================= *)
(** ** The dataset search *)

Lemma precedes_total :
  forall a b, Ordering.precedes a b = false -> Ordering.precedes b a = true.
Proof.
  intros a b. unfold Ordering.precedes.
  destruct (Song.popularity a), (Song.popularity b);
    rewrite ?Z.leb_le, ?Z.leb_gt; intros; try discriminate; try reflexivity; lia.
Qed.

Lemma precedes_trans :
  forall a b c,
    Ordering.precedes a b = true -> Ordering.precedes b c = true ->
    Ordering.precedes a c = true.
Proof.
  intros a b c. unfold Ordering.precedes.
  destruct (Song.popularity a), (Song.popularity b), (Song.popularity c);
    rewrite ?Z.leb_le; intros; try discriminate; try reflexivity; lia.
Qed.

Lemma precedes_before :
  forall a b, Ordering.precedes a b = true -> Ordering.before a b.
Proof.
  intros a b H pa pb Ha Hb. unfold Ordering.precedes in H.
  rewrite Ha, Hb in H. now apply Z.leb_le.
Qed.

Lemma ordering_insert_perm :
  forall x l, Permutation (x :: l) (Ordering.insert x l).
Proof.
  intros x. induction l as [ | y l IH ]; simpl; [ apply Permutation_refl | ].
  destruct (Ordering.precedes x y); [ apply Permutation_refl | ].
  eapply perm_trans; [ apply perm_swap | ]. now apply perm_skip.
Qed.

Lemma ordering_insert_sorted :
  forall x l,
    StronglySorted (fun a b => Ordering.precedes a b = true) l ->
    StronglySorted (fun a b => Ordering.precedes a b = true) (Ordering.insert x l).
Proof.
  intros x. induction 1 as [ | y l Hl IH Hy ]; simpl.
  - repeat constructor.
  - destruct (Ordering.precedes x y) eqn:Hxy.
    + constructor; [ now constructor | ].
      constructor; [ exact Hxy | ].
      rewrite Forall_forall in *. intros z Hz.
      eapply precedes_trans; [ exact Hxy | now apply Hy ].
    + constructor; [ exact IH | ].
      rewrite Forall_forall in *. intros z Hz.
      apply (Permutation_in _ (Permutation_sym (ordering_insert_perm x l))) in Hz.
      destruct Hz as [ <- | Hz ]; [ now apply precedes_total | now apply Hy ].
Qed.

(** The engine that puts nulls last is a lawful one. *)
Lemma nulls_last_lawful : Ordering.lawful Ordering.nulls_last.
Proof.
  split; unfold Ordering.nulls_last.
  - induction l as [ | x l IH ]; simpl; [ constructor | ].
    eapply perm_trans; [ apply perm_skip, IH | apply ordering_insert_perm ].
  - intros l. apply (strongly_sorted_impl _ _ _ _ precedes_before).
    induction l as [ | x l IH ]; simpl; [ constructor | ].
    now apply ordering_insert_sorted.
Qed.

Lemma strongly_sorted_app :
  forall (A : Type) (R : A -> A -> Prop) (l1 l2 : list A),
    StronglySorted R (l1 ++ l2) ->
    StronglySorted R l1
    /\ StronglySorted R l2
    /\ (forall a b, In a l1 -> In b l2 -> R a b).
Proof.
  intros A R. induction l1 as [ | x l1 IH ]; simpl; intros l2 H.
  - repeat split; [ constructor | exact H | intros a b [] ].
  - inv H. destruct (IH _ H2) as (H1 & Hl2 & Hcross).
    rewrite Forall_forall in H3.
    repeat split; auto.
    + constructor; [ exact H1 | ]. rewrite Forall_forall. intros y Hy.
      apply H3. apply in_or_app. now left.
    + intros a b [ <- | Ha ] Hb; [ | now apply Hcross ].
      apply H3. apply in_or_app. now right.
Qed.

(** X6.  For any storage engine that orders by falling popularity,
    [search_dataset] returns min(limit, number of matching rows) entries;
    each is a stored row whose title or artists contain the query (case
    ignored), listed by falling popularity; no matching row left out is
    more popular than a listed one, and none is left out when fewer than
    [limit] are listed.  Every entry has [in_dataset] true and no album
    image. *)
Theorem dataset_search_lists_the_most_popular_matches :
  forall (order_by : Ordering.t) (db : DB.t) (query : string) (limit : nat),
    Ordering.lawful order_by ->
    let matching := filter (DatasetSearch.matches query) (DB.songs db) in
    let rows := DatasetSearch.songs order_by db query limit in
    let tracks := DatasetSearch.search_dataset order_by db query limit in
    tracks = map DatasetSearch.to_track rows
    /\ List.length tracks = Nat.min limit (List.length matching)
    /\ (forall song, In song rows ->
          In song (DB.songs db)
          /\ (Models.icontains (Song.track_name song) query = true
              \/ Models.icontains (Song.artists song) query = true))
    /\ StronglySorted Ordering.before rows
    /\ (exists unlisted,
          Permutation matching (rows ++ unlisted)
          /\ (forall listed song,
                In listed rows -> In song unlisted -> Ordering.before listed song)
          /\ ((List.length tracks < limit)%nat -> unlisted = []))
    /\ (forall track, In track tracks ->
          DatasetTrack.in_dataset track = true
          /\ DatasetTrack.album_image track = None).
Proof.
  intros order_by db query limit [ Hperm Hsorted ] matching rows tracks.
  assert (Hsplit : (rows ++ skipn limit (order_by matching))%list
                   = order_by matching)
    by apply firstn_skipn.
  pose proof (Hsorted matching) as Hs. rewrite <- Hsplit in Hs.
  destruct (strongly_sorted_app _ _ _ _ Hs) as (Hrows & _ & Hcross).
  assert (Hlen : List.length rows = Nat.min limit (List.length matching)).
  { unfold rows, DatasetSearch.songs. fold matching.
    now rewrite length_firstn, <- (Permutation_length (Hperm matching)). }
  split; [ reflexivity | split; [ | split; [ | split; [ | split ] ] ] ].
  - unfold tracks, DatasetSearch.search_dataset. fold rows.
    now rewrite length_map.
  - intros song Hin.
    assert (Hm : In song matching).
    { apply (Permutation_in _ (Permutation_sym (Hperm matching))).
      rewrite <- Hsplit. apply in_or_app. now left. }
    unfold matching in Hm. apply filter_In in Hm. destruct Hm as (Hdb & Hm).
    split; [ exact Hdb | ]. unfold DatasetSearch.matches in Hm.
    now apply orb_true_iff in Hm.
  - exact Hrows.
  - exists (skipn limit (order_by matching)).
    split; [ rewrite Hsplit; apply Hperm | split; [ exact Hcross | ] ].
    intros Hfew. unfold tracks, DatasetSearch.search_dataset in Hfew.
    fold rows in Hfew. rewrite length_map, Hlen in Hfew.
    apply skipn_all2. rewrite <- (Permutation_length (Hperm matching)). lia.
  - intros track Hin. unfold tracks, DatasetSearch.search_dataset in Hin.
    apply in_map_iff in Hin. destruct Hin as (song & <- & _). split; reflexivity.
Qed.

(** The two rows of the small table whose title contains "comedy", the
    one with a popularity first. *)
Lemma dataset_search_witness :
  map DatasetTrack.title
      (DatasetSearch.search_dataset Ordering.nulls_last Scenario.library
                                    "COMEDY" 20)
    = ["Comedy"; "Comedy Club"]
  /\ List.length (DatasetSearch.search_dataset Ordering.nulls_last
                    Scenario.library "COMEDY" 1) = 1%nat
  /\ StronglySorted Ordering.before
       (DatasetSearch.songs Ordering.nulls_last Scenario.library "COMEDY" 20).
Proof.
  destruct (dataset_search_lists_the_most_popular_matches Ordering.nulls_last
              Scenario.library "COMEDY" 20 nulls_last_lawful)
    as (_ & _ & _ & Hsorted & _).
  split; [ vm_compute; reflexivity | ].
  split; [ vm_compute; reflexivity | exact Hsorted ].
Defined.

(* ================================================================= *)
(** ** The search endpoints *)

Lemma truthy_iff : forall s, truthy s = true <-> s <> "".
Proof. intros [ | c s ]; simpl; split; congruence. Qed.

Lemma parse_raised :
  forall request e,
    SearchViews.parse request = SearchViews.Raised e ->
    e = AttributeError
    /\ exists data,
        request = SearchViews.POST (Some data)
        /\ SearchViews.query_of_body data = Raise AttributeError.
Proof.
  intros [ q | [ data | ] ] e; simpl; try discriminate.
  destruct (SearchViews.query_of_body data) as [ query | e' ] eqn:H;
    [ discriminate | ].
  intros He. inv He.
  assert (e = AttributeError).
  { unfold SearchViews.query_of_body in H.
    repeat (break_match; try discriminate); now inv H. }
  subst e. eauto.
Qed.

(** X7.  The two search endpoints answer 200 exactly when the request
    carries a query that is not empty after [strip] (and, for
    [search_spotify], the catalog search returns); they answer 400 for an
    empty or absent query.  A POST body that is not JSON is a 400 from
    [search_spotify] but a 500 from [search_dataset], which has no clause
    for the decoding error.  A catalog failure is a 500, and a JSON body
    that is not an object, or whose query is not a string, is a 500 from
    both. *)
Theorem search_endpoints_status :
  forall (api : Catalog.t) (order_by : Ordering.t) (db : DB.t)
         (request : SearchViews.Request),
    let spotify := SearchViews.search_spotify api db request in
    let dataset := SearchViews.search_dataset order_by db request in
    (SearchViews.status dataset = 200 <->
       exists query,
         SearchViews.parse request = SearchViews.Query query /\ query <> ""
         /\ dataset = SearchViews.DatasetTracks
                        (DatasetSearch.search_dataset order_by db query 20) query)
    /\ (SearchViews.status spotify = 200 <->
          exists query items,
            SearchViews.parse request = SearchViews.Query query /\ query <> ""
            /\ Catalog.search api query 10 = Ok items
            /\ spotify = SearchViews.SpotifyTracks
                           (SpotifyService.sort_tracks
                              (map (SpotifyService.to_search_result db) items))
                           query)
    /\ (SearchViews.status dataset = 400 <->
          SearchViews.parse request = SearchViews.Query "")
    /\ (SearchViews.status spotify = 400 <->
          SearchViews.parse request = SearchViews.Query ""
          \/ request = SearchViews.POST None)
    /\ (request = SearchViews.POST None ->
          spotify = SearchViews.InvalidJSONFormat
          /\ SearchViews.status dataset = 500)
    /\ (forall query e,
          SearchViews.parse request = SearchViews.Query query -> query <> "" ->
          Catalog.search api query 10 = Raise e ->
          spotify = SearchViews.SearchError e
          /\ SearchViews.status spotify = 500)
    /\ (forall e,
          SearchViews.parse request = SearchViews.Raised e ->
          e = AttributeError
          /\ spotify = SearchViews.SearchError AttributeError
          /\ dataset = SearchViews.SearchError AttributeError).
Proof.
  intros api order_by db request spotify dataset.
  subst spotify dataset.
  unfold SearchViews.search_spotify, SearchViews.search_dataset,
    SpotifyService.search_tracks.
  destruct (SearchViews.parse request) as [ query | | e ] eqn:Hparse.
  - destruct (truthy query) eqn:Htruthy; simpl.
    + assert (Hne : query <> "") by now apply truthy_iff.
      assert (Hpost : request <> SearchViews.POST None)
        by (intros ->; discriminate).
      destruct (Catalog.search api query 10) as [ items | e ] eqn:Hsearch; simpl.
      * split; [ split; [ eauto | reflexivity ] | ].
        split; [ split; [ intros _; exists query, items; auto | reflexivity ] | ].
        split; [ split; [ discriminate | intros H; inv H; congruence ] | ].
        split; [ split; [ discriminate
                        | intros [ H | H ]; [ inv H | ]; congruence ] | ].
        split; [ intros H; congruence | ].
        split; [ intros q e H _ H'; inv H; congruence | discriminate ].
      * split; [ split; [ eauto | reflexivity ] | ].
        split; [ split; [ discriminate
                        | intros (q & i & H & _ & H' & _); inv H; congruence ] | ].
        split; [ split; [ discriminate | intros H; inv H; congruence ] | ].
        split; [ split; [ discriminate
                        | intros [ H | H ]; [ inv H | ]; congruence ] | ].
        split; [ intros H; congruence | ].
        split; [ | discriminate ].
        intros q e' H _ H'. inv H. rewrite Hsearch in H'. inv H'. auto.
    + assert (He : query = "")
        by (destruct query; [ reflexivity | discriminate ]).
      subst query. simpl.
      assert (Hpost : request <> SearchViews.POST None)
        by (intros ->; discriminate).
      split; [ split; [ discriminate | intros (q & H & Hq & _); inv H; congruence ] | ].
      split; [ split; [ discriminate
                      | intros (q & i & H & Hq & _); inv H; congruence ] | ].
      split; [ split; reflexivity | ].
      split; [ split; [ auto | reflexivity ] | ].
      split; [ intros H; congruence | ].
      split; [ intros q e H Hq; inv H; congruence | discriminate ].
  - assert (Hreq : request = SearchViews.POST None).
    { destruct request as [ q | [ data | ] ]; simpl in Hparse;
        try discriminate; [ | reflexivity ].
      destruct (SearchViews.query_of_body data); discriminate. }
    simpl.
    split; [ split; [ discriminate | intros (q & H & _); discriminate ] | ].
    split; [ split; [ discriminate | intros (q & i & H & _); discriminate ] | ].
    split; [ split; discriminate | ].
    split; [ split; [ auto | reflexivity ] | ].
    split; [ auto | ].
    split; discriminate.
  - destruct (parse_raised _ _ Hparse) as (-> & data & Hreq & _).
    simpl.
    split; [ split; [ discriminate | intros (q & H & _); discriminate ] | ].
    split; [ split; [ discriminate | intros (q & i & H & _); discriminate ] | ].
    split; [ split; discriminate | ].
    split; [ split; [ discriminate | intros [ H | H ]; congruence ] | ].
    split; [ intros H; congruence | ].
    split; [ discriminate | ].
    intros e H. inv H. auto.
Qed.

(* ================================================================= *)
(** ** Clearing and the complete import *)

Lemma delete_everything :
  forall db,
    QuerySet.delete_songs
      (QuerySet.delete_predictions (QuerySet.delete_audit_logs db))
    = DB.mk [] [] [] (DB.next_song db) (DB.next_prediction db) (DB.next_audit db).
Proof. intros db. reflexivity. Qed.

Lemma bulk_create_app :
  forall be a b db,
    ImportDataset.bulk_create be (a ++ b) db
    = ImportDataset.bulk_create be b (ImportDataset.bulk_create be a db).
Proof.
  intros be. induction a as [ | r a IH ]; simpl; intros b db;
    [ reflexivity | apply IH ].
Qed.

(** What [bulk_create] does to the database: the rows the engine does
    not skip are added, and every record uses up a primary key. *)
Lemma bulk_create_spec :
  forall be records db,
    ImportDataset.bulk_create be records db
    = DB.mk (rev (stored be (DB.next_song db) records) ++ DB.songs db)
            (DB.predictions db) (DB.audit_logs db)
            (DB.next_song db + Z.of_nat (List.length records))
            (DB.next_prediction db) (DB.next_audit db).
Proof.
  intros be. induction records as [ | r records IH ]; intros db.
  - simpl. rewrite Z.add_0_r. now destruct db.
  - cbn [ImportDataset.bulk_create]. rewrite IH. unfold stored.
    cbn [numbered filter DB.songs DB.predictions DB.audit_logs DB.next_song
           DB.next_prediction DB.next_audit].
    destruct (Backend.accepts_song be (Song.set_id (DB.next_song db) r)).
    + cbn [rev]. rewrite <- app_assoc. simpl. f_equal. lia.
    + f_equal. cbn [List.length]. lia.
Qed.

Lemma numbered_ids :
  forall records next s, In s (numbered next records) -> next <= Song.id s.
Proof.
  induction records as [ | r records IH ]; simpl; intros next s H; [ destruct H | ].
  destruct H as [ <- | H ]; [ simpl; lia | ].
  specialize (IH _ _ H). lia.
Qed.


Lemma numbered_in :
  forall records next s,
    In s (numbered next records) ->
    exists record, In record records /\ s = Song.set_id (Song.id s) record.
Proof.
  induction records as [ | r records IH ]; simpl; intros next s H; [ destruct H | ].
  destruct H as [ <- | H ].
  - exists r. split; [ now left | reflexivity ].
  - destruct (IH _ _ H) as (record & Hin & Hs). exists record. auto.
Qed.


Lemma stored_in :
  forall be next records s,
    In s (stored be next records) ->
    In s (numbered next records) /\ Backend.accepts_song be s = true.
Proof. intros be next records s H. unfold stored in H. now apply filter_In in H. Qed.


Lemma convertible_app :
  forall a b, convertible (a ++ b) = (convertible a ++ convertible b)%list.
Proof. intros a b. unfold convertible. apply flat_map_app. Qed.


(** The loop of the complete import: whatever the batch size, the rows that
    convert are sent to the table, in the order of the file. *)
Lemma complete_import_rows :
  forall be batch_size rows st,
    let st' :=
      fold_left (ImportCompleteDataset.import_row be batch_size) rows st in
    ImportDataset.bulk_create be (ImportCompleteDataset.records st')
                              (ImportCompleteDataset.store st')
    = ImportDataset.bulk_create be
        (ImportCompleteDataset.records st ++ convertible rows)
        (ImportCompleteDataset.store st)
    /\ ImportCompleteDataset.imported_count st'
       + Z.of_nat (List.length (ImportCompleteDataset.records st'))
       = ImportCompleteDataset.imported_count st
         + Z.of_nat (List.length (ImportCompleteDataset.records st))
         + Z.of_nat (List.length (convertible rows))
    /\ ImportCompleteDataset.error_count st'
       = ImportCompleteDataset.error_count st
         + Z.of_nat (List.length rows)
         - Z.of_nat (List.length (convertible rows)).
Proof.
  intros be batch_size. induction rows as [ | row rows IH ]; intros st.
  - simpl. rewrite app_nil_r. repeat split; lia.
  - cbv zeta. cbn [fold_left].
    specialize (IH (ImportCompleteDataset.import_row be batch_size st row)).
    cbv zeta in IH. destruct IH as (Hdb & Himported & Herrors).
    rewrite Hdb, Himported, Herrors. clear Hdb Himported Herrors.
    unfold ImportCompleteDataset.import_row.
    change (convertible (row :: rows))
      with (match ImportDataset.make_record row with
            | Ok record => [record]
            | Raise _ => []
            end ++ convertible rows)%list.
    destruct (ImportDataset.make_record row) as [ record | e ].
    + destruct (batch_size <=? _).
      * cbn [ImportCompleteDataset.records ImportCompleteDataset.store
               ImportCompleteDataset.imported_count
               ImportCompleteDataset.error_count].
        rewrite <- bulk_create_app, <- app_assoc.
        repeat split; rewrite ?length_app; cbn [List.length app]; lia.
      * cbn [ImportCompleteDataset.records ImportCompleteDataset.store
               ImportCompleteDataset.imported_count
               ImportCompleteDataset.error_count].
        rewrite <- app_assoc.
        repeat split; rewrite ?length_app; cbn [List.length app]; lia.
    + cbn [ImportCompleteDataset.records ImportCompleteDataset.store
             ImportCompleteDataset.imported_count
             ImportCompleteDataset.error_count app].
      repeat split; cbn [List.length]; lia.
Qed.

(** The complete import on a readable file with the required columns. *)
Lemma complete_import_run :
  forall (be : Backend.t) (df : Csv.DataFrame) (batch_size : Z)
         (no_clear : bool) (db : DB.t),
    ImportDataset.missing_columns df = [] ->
    let kept := if no_clear then db else emptied db in
    let good := convertible (Csv.rows df) in
    let db1 := ImportDataset.bulk_create be good kept in
    let total := Z.of_nat (List.length (DB.songs db1)) in
    ImportCompleteDataset.handle be (Some (Ok df)) batch_size no_clear db
    = (if total =? 0
       then ImportCompleteDataset.ZeroDivision
              (Z.of_nat (List.length good))
              (Z.of_nat (List.length (Csv.rows df)) - Z.of_nat (List.length good))
       else ImportCompleteDataset.ImportComplete
              (ImportCompleteDataset.mkStatistics
                 (Z.of_nat (List.length good))
                 (Z.of_nat (List.length (Csv.rows df))
                  - Z.of_nat (List.length good))
                 total
                 (QuerySet.count_is_hit true db1)
                 (QuerySet.count_is_hit false db1)
                 (total =? Z.of_nat (List.length (Csv.rows df)))),
       db1).
Proof.
  intros be df batch_size no_clear db Hcols kept good db1 total.
  unfold ImportCompleteDataset.handle. rewrite Hcols.
  rewrite delete_everything. fold (emptied db).
  replace (if negb no_clear then emptied db else db) with kept
    by (subst kept; now destruct no_clear).
  destruct (complete_import_rows be batch_size (Csv.rows df)
              (ImportCompleteDataset.mkProgress kept [] 0 0))
    as (Hdb & Himported & Herrors).
  cbn [ImportCompleteDataset.records ImportCompleteDataset.store
         ImportCompleteDataset.imported_count ImportCompleteDataset.error_count
         app List.length] in Hdb, Himported, Herrors.
  fold good in Hdb, Himported, Herrors. fold db1 in Hdb.
  rewrite Hdb, Herrors. unfold QuerySet.count. fold total.
  replace (ImportCompleteDataset.imported_count _ + _)
    with (Z.of_nat (List.length good)) by lia.
  replace (0 + Z.of_nat (List.length (Csv.rows df)) - Z.of_nat (List.length good))
    with (Z.of_nat (List.length (Csv.rows df)) - Z.of_nat (List.length good))
    by lia.
  destruct (total =? 0); reflexivity.
Qed.



(** X9.  Without [--no-clear], the complete import leaves the database
    untouched only when the file does not exist.  When the file cannot be
    read, lacks a required column or has no row that converts, the three
    tables have already been emptied and stay empty.  Whatever happens
    after the file was found, no prediction or audit record survives and
    every song left has a new primary key. *)
Theorem complete_import_clears_before_it_reads :
  forall (be : Backend.t) (file : option (result Csv.DataFrame))
         (batch_size : Z) (db : DB.t),
    let run := ImportCompleteDataset.handle be file batch_size false db in
    (file = None -> run = (ImportCompleteDataset.FileNotFound, db))
    /\ (forall e,
          file = Some (Raise e) ->
          run = (ImportCompleteDataset.ErrorReadingCSV e, emptied db))
    /\ (forall df,
          file = Some (Ok df) -> ImportDataset.missing_columns df <> [] ->
          run = (ImportCompleteDataset.MissingColumns
                   (ImportDataset.missing_columns df), emptied db))
    /\ (forall df,
          file = Some (Ok df) -> ImportDataset.missing_columns df = [] ->
          convertible (Csv.rows df) = [] ->
          run = (ImportCompleteDataset.ZeroDivision
                   0 (Z.of_nat (List.length (Csv.rows df))), emptied db))
    /\ (file <> None ->
        DB.predictions (snd run) = []
        /\ DB.audit_logs (snd run) = []
        /\ forall song, In song (DB.songs (snd run)) ->
                        DB.next_song db <= Song.id song).
Proof.
  intros be file batch_size db run.
  assert (Hgood : forall df,
             file = Some (Ok df) -> ImportDataset.missing_columns df = [] ->
             snd run = ImportDataset.bulk_create be (convertible (Csv.rows df))
                         (emptied db)).
  { intros df -> Hcols. subst run.
    now rewrite (complete_import_run be df batch_size false db Hcols). }
  split; [ intros ->; reflexivity | ].
  split; [ intros e ->; reflexivity | ].
  split; [ | split ].
  - intros df -> Hcols. subst run. unfold ImportCompleteDataset.handle.
    destruct (ImportDataset.missing_columns df); [ congruence | reflexivity ].
  - intros df Hfile Hcols Hnone. subst file. subst run.
    rewrite (complete_import_run be df batch_size false db Hcols), Hnone.
    simpl. now rewrite Z.sub_0_r.
  - intros Hfile. destruct file as [ [ df | e ] | ]; [ | | congruence ].
    + destruct (ImportDataset.missing_columns df) as [ | col cols ] eqn:Hcols.
      * rewrite (Hgood df eq_refl Hcols), bulk_create_spec. simpl.
        repeat split. intros song Hin. rewrite app_nil_r in Hin.
        apply in_rev in Hin. apply stored_in in Hin.
        exact (numbered_ids _ _ _ (proj1 Hin)).
      * subst run. unfold ImportCompleteDataset.handle. rewrite Hcols.
        simpl. repeat split. intros song [].
    + subst run. simpl. repeat split. intros song [].
Qed.

(* ================================================================= *)
(** ** import_dataset: what an import adds *)

Lemma filter_track_id_bulk_create :
  forall be tid records db,
    Models.filter_track_id tid (ImportDataset.bulk_create be records db)
    = (filter (fun s => Models.opt_string_eqb (Song.track_id s) tid)
              (rev (stored be (DB.next_song db) records))
       ++ Models.filter_track_id tid db)%list.
Proof.
  intros be tid records db. unfold Models.filter_track_id.
  rewrite bulk_create_spec. simpl. apply filter_app.
Qed.

Lemma already_stored_bulk_create :
  forall be records db row,
    already_stored db row = true ->
    already_stored (ImportDataset.bulk_create be records db) row = true.
Proof.
  intros be records db row. unfold already_stored.
  rewrite filter_track_id_bulk_create.
  destruct (Models.filter_track_id _ db); [ discriminate | ].
  intros _. destruct (filter _ _); reflexivity.
Qed.

Lemma import_row_step :
  forall be batch_size st row,
    ImportDataset.import_row be batch_size st row
    = if already_stored (ImportDataset.store st) row
      then ImportDataset.mkProgress (ImportDataset.store st)
             (ImportDataset.records st) (ImportDataset.imported_count st)
             (ImportDataset.skipped_count st + 1)
      else
        match ImportDataset.make_record row with
        | Raise _ => st
        | Ok record =>
            let records' := (ImportDataset.records st ++ [record])%list in
            if batch_size <=? Z.of_nat (List.length records')
            then ImportDataset.mkProgress
                   (ImportDataset.bulk_create be records' (ImportDataset.store st))
                   [] (ImportDataset.imported_count st
                       + Z.of_nat (List.length records'))
                   (ImportDataset.skipped_count st)
            else ImportDataset.mkProgress (ImportDataset.store st) records'
                   (ImportDataset.imported_count st)
                   (ImportDataset.skipped_count st)
        end.
Proof.
  intros be batch_size st row. unfold ImportDataset.import_row, already_stored.
  destruct (Models.filter_track_id _ _); reflexivity.
Qed.

(** The loop of [import_dataset], from any state: the records it sends to
    the table. *)
Lemma import_rows_added :
  forall be batch_size rows st,
    let st' := fold_left (ImportDataset.import_row be batch_size) rows st in
    exists added,
      ImportDataset.bulk_create be (ImportDataset.records st')
                                (ImportDataset.store st')
      = ImportDataset.bulk_create be (ImportDataset.records st ++ added)
                                  (ImportDataset.store st)
      /\ ImportDataset.imported_count st'
         + Z.of_nat (List.length (ImportDataset.records st'))
         = ImportDataset.imported_count st
           + Z.of_nat (List.length (ImportDataset.records st))
           + Z.of_nat (List.length added)
      /\ ImportDataset.skipped_count st <= ImportDataset.skipped_count st'
      /\ ImportDataset.skipped_count st' - ImportDataset.skipped_count st
         + Z.of_nat (List.length added)
         <= Z.of_nat (List.length rows)
      /\ Forall (fun record =>
                   exists row,
                     In row rows
                     /\ ImportDataset.make_record row = Ok record
                     /\ already_stored (ImportDataset.store st) row = false)
                added.
Proof.
  intros be batch_size. induction rows as [ | row rows IH ]; intros st.
  - exists []. simpl. rewrite app_nil_r. repeat split; try lia. constructor.
  - cbv zeta. cbn [fold_left].
    specialize (IH (ImportDataset.import_row be batch_size st row)).
    cbv zeta in IH. destruct IH as (added & Hdb & Himported & Hmono & Hcount & Hfrom).
    rewrite Hdb, Himported. clear Hdb Himported.
    rewrite import_row_step in *.
    destruct (already_stored (ImportDataset.store st) row) eqn:Hstored.
    + exists added. cbn [ImportDataset.records ImportDataset.store
        ImportDataset.imported_count ImportDataset.skipped_count] in *.
      repeat split; try lia.
      * cbn [List.length]. lia.
      * eapply Forall_impl; [ | exact Hfrom ].
        intros r (row' & Hin & Hr & Hs). exists row'. repeat split; auto.
        now right.
    + destruct (ImportDataset.make_record row) as [ record | e ] eqn:Hrecord.
      * cbv zeta in *.
        destruct (batch_size <=? _);
          cbn [ImportDataset.records ImportDataset.store
                 ImportDataset.imported_count ImportDataset.skipped_count] in *;
          exists (record :: added).
        -- rewrite <- bulk_create_app, <- app_assoc.
           repeat split; rewrite ?length_app in *; cbn [List.length app] in *;
             try lia.
           constructor.
           ++ exists row. repeat split; auto. now left.
           ++ eapply Forall_impl; [ | exact Hfrom ].
              intros r (row' & Hin & Hr & Hs). exists row'.
              repeat split; auto; [ now right | ].
              destruct (already_stored (ImportDataset.store st) row') eqn:E;
                [ | reflexivity ].
              now rewrite (already_stored_bulk_create _ _ _ _ E) in Hs.
        -- rewrite <- app_assoc.
           repeat split; rewrite ?length_app in *; cbn [List.length app] in *;
             try lia.
           constructor.
           ++ exists row. repeat split; auto. now left.
           ++ eapply Forall_impl; [ | exact Hfrom ].
              intros r (row' & Hin & Hr & Hs). exists row'.
              repeat split; auto. now right.
      * exists added. repeat split; try lia.
        -- cbn [List.length]. lia.
        -- eapply Forall_impl; [ | exact Hfrom ].
           intros r (row' & Hin & Hr & Hs). exists row'. repeat split; auto.
           now right.
Qed.

(** [import_dataset] on a file with the required columns. *)
Lemma import_dataset_run :
  forall (be : Backend.t) (df : Csv.DataFrame) (batch_size : Z) (db : DB.t),
    ImportDataset.missing_columns df = [] ->
    exists added skipped,
      ImportDataset.handle be df batch_size db
      = (ImportDataset.Imported (Z.of_nat (List.length added)) skipped,
         ImportDataset.bulk_create be added db)
      /\ 0 <= skipped
      /\ Z.of_nat (List.length added) + skipped
         <= Z.of_nat (List.length (Csv.rows df))
      /\ Forall (fun record =>
                   exists row,
                     In row (Csv.rows df)
                     /\ ImportDataset.make_record row = Ok record
                     /\ already_stored db row = false)
                added.
Proof.
  intros be df batch_size db Hcols.
  unfold ImportDataset.handle. rewrite Hcols.
  destruct (import_rows_added be batch_size (Csv.rows df)
              (ImportDataset.mkProgress db [] 0 0))
    as (added & Hdb & Himported & Hmono & Hcount & Hfrom).
  cbn [ImportDataset.records ImportDataset.store ImportDataset.imported_count
         ImportDataset.skipped_count app List.length] in *.
  exists added. eexists. rewrite Hdb.
  split; [ f_equal; f_equal; lia | ].
  repeat split; try lia. exact Hfrom.
Qed.



(* ================================================================= *)
(** ** Rows written through [save] *)

Section SavedRows.

Variable P : Song.t -> Prop.
Hypothesis P_save : forall s, P (Song.auto_calculate s).
Hypothesis P_key : forall i s, P s -> P (Song.set_id i s).

Lemma replace_song_forall :
  forall row l, P row -> Forall P l -> Forall P (Models.replace_song row l).
Proof.
  intros row l Hrow. induction 1 as [ | s l Hs Hl IH ]; simpl.
  - constructor.
  - destruct (Song.id s =? Song.id row); constructor; auto.
Qed.

Lemma store_song_forall :
  forall be track_id audio_data db r db',
    Views.store_song be track_id audio_data db = (r, db') ->
    Forall P (DB.songs db) -> Forall P (DB.songs db').
Proof.
  intros be track_id audio_data db r db' H Hdb.
  unfold Views.store_song, Models.Song_get_or_create, Models.Song_create,
    Models.Song_save, Models.insert_song, Models.update_song in H.
  repeat (break_match; try discriminate);
    repeat match goal with H : (_, _) = (_, _) |- _ => inv H end;
    simpl; auto using replace_song_forall.
Qed.

Lemma predict_from_spotify_forall :
  forall w db data,
    Forall P (DB.songs db) ->
    Forall P (DB.songs (snd (Views.predict_from_spotify w db data))).
Proof.
  intros w db data Hdb. unfold Views.predict_from_spotify.
  destruct (Views.resolve _ _ _) as [ [audio_data track_id | response] | e ];
    simpl; auto.
  destruct (Views.model_verdict _ _) as [ [model_hit model_confidence] | e ];
    simpl; auto.
  destruct (Views.persist _ _ _ _ _ _ _) as [r db'] eqn:Hp.
  assert (Hsongs : Forall P (DB.songs db')).
  { unfold Views.persist in Hp.
    destruct (Views.store_song _ _ _ _) as [ [song | e] db1 ] eqn:Hs;
      pose proof (store_song_forall _ _ _ _ _ _ Hs Hdb) as H1;
      [ | inv Hp; assumption ].
    destruct (Models.Prediction_create _ _ _) as [[p|e] db2] eqn:Hc;
      apply prediction_create_songs in Hc; [ | inv Hp; now rewrite Hc ].
    destruct (Models.PredictionAuditLog_create _ _ _) as [[a|e] db3] eqn:Ha;
      apply audit_create_songs in Ha; inv Hp; now rewrite Ha, Hc. }
  destruct r; exact Hsongs.
Qed.

Lemma predict_manual_forall :
  forall w db req,
    Forall P (DB.songs db) ->
    Forall P (DB.songs (snd (Views.predict_manual w db req))).
Proof.
  intros w db req Hdb. unfold Views.predict_manual.
  destruct (Views.missing_fields _); [ | simpl; auto ].
  destruct (Views.validate _) as [ validated | e ];
    [ | destruct e; simpl; auto ].
  destruct (Py.bind _ _) as [ [is_hit confidence] | e ]; simpl; auto.
  destruct (Views.manual_persist _ _ _ _ _ _) as [r db'] eqn:Hp.
  assert (Hsongs : Forall P (DB.songs db')).
  { unfold Views.manual_persist, Models.Song_create, Models.insert_song in Hp.
    destruct (Backend.accepts_song _ _); [ | inv Hp; assumption ].
    destruct (Models.Prediction_create _ _ _) as [[p|e] db2] eqn:Hc;
      apply prediction_create_songs in Hc;
      [ | inv Hp; rewrite Hc; simpl; auto ].
    destruct (Models.PredictionAuditLog_create _ _ _) as [[a|e] db3] eqn:Ha;
      apply audit_create_songs in Ha; inv Hp; rewrite Ha, Hc; simpl; auto. }
  destruct r; exact Hsongs.
Qed.

End SavedRows.

Lemma make_record_flags :
  forall row record,
    ImportDataset.make_record row = Ok record ->
    Song.is_acoustic record = false /\ Song.is_instrumental record = false.
Proof.
  intros row record H. unfold ImportDataset.make_record, bind in H.
  repeat (break_match; try discriminate). inv H. split; reflexivity.
Qed.

Lemma convertible_in :
  forall rows record,
    In record (convertible rows) ->
    exists row, In row rows /\ ImportDataset.make_record row = Ok record.
Proof.
  intros rows record H. unfold convertible in H. apply in_flat_map in H.
  destruct H as (row & Hin & Hr). exists row. split; [ exact Hin | ].
  destruct (ImportDataset.make_record row) as [ r | e ]; [ | destruct Hr ].
  destruct Hr as [ -> | [] ]. reflexivity.
Qed.

Lemma auto_calculate_flags : forall s, flags_derived (Song.auto_calculate s).
Proof. intros s. split; reflexivity. Qed.

Lemma set_id_flags : forall i s, flags_derived s -> flags_derived (Song.set_id i s).
Proof. intros i s H. exact H. Qed.

(** X11.  [Song.save] sets [is_acoustic] and [is_instrumental] from the
    features (acousticness above 0.5, instrumentalness above 0.5), and
    saving again changes nothing; the two prediction endpoints keep
    every stored song in that state.  The imports go through
    [bulk_create], which does not call [save]: every song they add, on
    any storage engine, has both flags false, whatever its features. *)
Theorem derived_flags_are_set_by_save_and_not_by_the_import :
  (forall s,
      flags_derived (Song.auto_calculate s)
      /\ Song.auto_calculate (Song.auto_calculate s) = Song.auto_calculate s)
  /\ (forall w db data,
        Forall flags_derived (DB.songs db) ->
        Forall flags_derived (DB.songs (snd (Views.predict_from_spotify w db data))))
  /\ (forall w db req,
        Forall flags_derived (DB.songs db) ->
        Forall flags_derived (DB.songs (snd (Views.predict_manual w db req))))
  /\ (forall be df batch_size db song,
        ImportDataset.missing_columns df = [] ->
        In song (DB.songs (snd (ImportDataset.handle be df batch_size db))) ->
        In song (DB.songs db)
        \/ (Song.is_acoustic song = false /\ Song.is_instrumental song = false))
  /\ (forall be df batch_size no_clear db song,
        ImportDataset.missing_columns df = [] ->
        In song (DB.songs (snd (ImportCompleteDataset.handle
                                  be (Some (Ok df)) batch_size no_clear db))) ->
        In song (DB.songs db)
        \/ (Song.is_acoustic song = false /\ Song.is_instrumental song = false)).
Proof.
  split; [ | split; [ | split; [ | split ] ] ].
  - intros s. split; [ apply auto_calculate_flags | ].
    destruct s as [ ? ? ? ? ? [ p | ] ]; reflexivity.
  - intros w db data.
    apply predict_from_spotify_forall; auto using auto_calculate_flags.
  - intros w db req.
    apply predict_manual_forall; auto using auto_calculate_flags.
  - intros be df batch_size db song Hcols Hin.
    destruct (import_dataset_run be df batch_size db Hcols)
      as (added & skipped & Hrun & _ & _ & Hfrom).
    rewrite Hrun, bulk_create_spec in Hin. simpl in Hin.
    apply in_app_or in Hin. destruct Hin as [ Hin | Hin ]; [ right | now left ].
    apply in_rev in Hin. apply stored_in in Hin. destruct Hin as (Hin & _).
    apply numbered_in in Hin.
    destruct Hin as (record & Hrecord & ->).
    rewrite Forall_forall in Hfrom.
    destruct (Hfrom _ Hrecord) as (row & _ & Hmake & _).
    exact (make_record_flags _ _ Hmake).
  - intros be df batch_size no_clear db song Hcols Hin.
    rewrite (complete_import_run be df batch_size no_clear db Hcols) in Hin.
    cbn [snd] in Hin. rewrite bulk_create_spec in Hin. simpl in Hin.
    apply in_app_or in Hin. destruct Hin as [ Hin | Hin ].
    + right. apply in_rev in Hin. apply stored_in in Hin.
      destruct Hin as (Hin & _). apply numbered_in in Hin.
      destruct Hin as (record & Hrecord & ->).
      destruct (convertible_in _ _ Hrecord) as (row & _ & Hmake).
      exact (make_record_flags _ _ Hmake).
    + left. destruct no_clear; [ exact Hin | destruct Hin ].
Qed.

(* ================================================================= *)
(** ** import_dataset on a file that lists no track twice *)











(* ================================================================= *)
(** ** One row per track *)

Lemma replace_song_ids :
  forall row l, map Song.id (Models.replace_song row l) = map Song.id l.
Proof.
  intros row. induction l as [ | s l IH ]; simpl; [ reflexivity | ].
  destruct (Song.id s =? Song.id row) eqn:E; simpl; rewrite IH; [ | reflexivity ].
  apply Z.eqb_eq in E. now rewrite E.
Qed.

Lemma replace_song_track_ids :
  forall row l,
    (forall x, In x l -> Song.id x = Song.id row ->
               Song.track_id x = Song.track_id row) ->
    map Song.track_id (Models.replace_song row l) = map Song.track_id l.
Proof.
  intros row. induction l as [ | s l IH ]; simpl; intros H; [ reflexivity | ].
  assert (IH' : map Song.track_id (Models.replace_song row l)
                = map Song.track_id l)
    by (apply IH; intros x Hx; apply H; now right).
  destruct (Song.id s =? Song.id row) eqn:E; simpl; rewrite IH';
    [ | reflexivity ].
  apply Z.eqb_eq in E. now rewrite (H s (or_introl eq_refl) E).
Qed.

Lemma nodup_map_injective :
  forall (A B : Type) (f : A -> B) (l : list A) (x y : A),
    NoDup (map f l) -> In x l -> In y l -> f x = f y -> x = y.
Proof.
  intros A B f. induction l as [ | a l IH ]; simpl; intros x y Hnd Hx Hy Hf;
    [ destruct Hx | ].
  inv Hnd. destruct Hx as [ -> | Hx ], Hy as [ -> | Hy ]; auto.
  - exfalso. apply H1. rewrite Hf. now apply in_map.
  - exfalso. apply H1. rewrite <- Hf. now apply in_map.
Qed.

Lemma filter_track_id_length :
  forall tid db,
    List.length (Models.filter_track_id tid db)
    = List.length (filter (fun t => Models.opt_string_eqb t tid)
                          (map Song.track_id (DB.songs db))).
Proof.
  intros tid db. unfold Models.filter_track_id.
  induction (DB.songs db) as [ | s l IH ]; simpl; [ reflexivity | ].
  destruct (Models.opt_string_eqb (Song.track_id s) tid); simpl; now rewrite IH.
Qed.

Lemma insert_song_unique :
  forall be s db r db',
    Models.insert_song be s db = (r, db') ->
    keys_fresh db -> one_row_per_track db ->
    (Song.track_id s = None
     \/ exists tid, Song.track_id s = Some tid
                    /\ Models.filter_track_id tid db = []) ->
    keys_fresh db' /\ one_row_per_track db'.
Proof.
  intros be s db r db' Hi (Hnd & Hlt) Hone Htid. unfold Models.insert_song in Hi.
  destruct (Backend.accepts_song be _); inv Hi;
    [ | split; [ split | ]; assumption ].
  split; [ split | ]; simpl.
  - constructor; [ | exact Hnd ]. intros Hin.
    rewrite Forall_forall in Hlt. specialize (Hlt _ Hin). lia.
  - constructor; [ lia | ]. eapply Forall_impl; [ | exact Hlt ].
    intros i Hi. simpl in Hi. lia.
  - intros tid. specialize (Hone tid). unfold Models.filter_track_id in *.
    simpl. destruct Htid as [ -> | (t & -> & Hnone) ]; simpl; [ exact Hone | ].
    destruct (String.eqb t tid) eqn:E; [ | exact Hone ].
    apply String.eqb_eq in E. subst t.
    unfold Models.filter_track_id in Hnone. rewrite Hnone. simpl. lia.
Qed.

(** The song write of a request keeps the keys fresh and the tracks
    unique. *)
Lemma store_song_unique :
  forall be track_id audio_data db r db',
    Views.store_song be track_id audio_data db = (r, db') ->
    keys_fresh db -> one_row_per_track db ->
    keys_fresh db' /\ one_row_per_track db'.
Proof.
  intros be track_id audio_data db r db' H Hfresh Hone.
  pose proof Hfresh as (Hnd & Hlt).
  assert (Hinsert : forall s r0 db0,
             Models.insert_song be s db = (r0, db0) ->
             (Song.track_id s = None
              \/ exists tid, Song.track_id s = Some tid
                             /\ Models.filter_track_id tid db = []) ->
             keys_fresh db0 /\ one_row_per_track db0)
    by (intros s r0 db0 Hi Htid; eapply insert_song_unique; eauto).
  unfold Views.store_song in H.
  assert (Hnone : forall r0 db0,
             Models.Song_create be (Views.new_song None audio_data) db = (r0, db0) ->
             keys_fresh db0 /\ one_row_per_track db0).
  { intros r0 db0 Hc. unfold Models.Song_create in Hc.
    eapply Hinsert; [ exact Hc | now left ]. }
  destruct track_id as [ tid | ]; [ | exact (Hnone _ _ H) ].
  destruct (truthy tid); [ | exact (Hnone _ _ H) ].
  unfold Models.Song_get_or_create in H.
  destruct (Models.filter_track_id tid db) as [ | s [ | s' rest ] ] eqn:Hfound.
  - unfold Models.Song_create in H.
    destruct (Models.insert_song be _ db) as [ [ row | e ] db1 ] eqn:Hi;
      inv H; (eapply Hinsert; [ exact Hi | right; exists tid; auto ]).
  - assert (Hs : In s (DB.songs db) /\ Song.track_id s = Some tid).
    { assert (Hin : In s (Models.filter_track_id tid db))
        by (rewrite Hfound; now left).
      unfold Models.filter_track_id in Hin. apply filter_In in Hin.
      destruct Hin as (Hin & Heq). split; [ exact Hin | ].
      destruct (Song.track_id s) as [ t | ]; [ | discriminate ].
      simpl in Heq. apply String.eqb_eq in Heq. now subst t. }
    destruct Hs as (Hin & Htid).
    unfold Models.Song_save, Models.update_song in H.
    destruct (Backend.accepts_song be _); inv H;
      [ | split; [ split | ]; assumption ].
    split; [ split | ]; simpl.
    + now rewrite replace_song_ids.
    + now rewrite replace_song_ids.
    + intros tid'. rewrite filter_track_id_length. simpl.
      rewrite replace_song_track_ids.
      * rewrite <- filter_track_id_length. apply Hone.
      * intros x Hx Hid. simpl in Hid.
        now rewrite (nodup_map_injective _ _ Song.id _ x s Hnd Hx Hin Hid).
  - inv H. split; [ split | ]; assumption.
Qed.

Lemma prediction_create_song_table :
  forall be p db r db',
    Models.Prediction_create be p db = (r, db') ->
    DB.songs db' = DB.songs db /\ DB.next_song db' = DB.next_song db.
Proof.
  unfold Models.Prediction_create. intros be p db r db' H.
  destruct (Backend.accepts_prediction be _); inv H; split; reflexivity.
Qed.

Lemma audit_create_song_table :
  forall be a db r db',
    Models.PredictionAuditLog_create be a db = (r, db') ->
    DB.songs db' = DB.songs db /\ DB.next_song db' = DB.next_song db.
Proof.
  unfold Models.PredictionAuditLog_create. intros be a db r db' H.
  destruct (Backend.accepts_audit be _); inv H; split; reflexivity.
Qed.

Lemma unique_song_table :
  forall db db',
    DB.songs db' = DB.songs db -> DB.next_song db' = DB.next_song db ->
    keys_fresh db /\ one_row_per_track db ->
    keys_fresh db' /\ one_row_per_track db'.
Proof.
  intros db db' Hs Hn ((Hnd & Hlt) & Hone).
  unfold keys_fresh, one_row_per_track, Models.filter_track_id in *.
  rewrite Hs, Hn. auto.
Qed.

(** X14.  The two prediction endpoints keep the song table free of
    repeated track ids and of repeated primary keys: if no track id is
    stored twice before a request, none is afterwards, whatever the
    request and its outcome.  The import does not: from the empty table,
    the file that lists a track twice leaves two rows for it. *)
Theorem requests_never_store_a_track_twice :
  (forall (w : World.t) (db : DB.t) (data : SpotifyRequest.t),
      keys_fresh db -> one_row_per_track db ->
      keys_fresh (snd (Views.predict_from_spotify w db data))
      /\ one_row_per_track (snd (Views.predict_from_spotify w db data)))
  /\ (forall (w : World.t) (db : DB.t) (req : ManualRequest.t),
        keys_fresh db -> one_row_per_track db ->
        keys_fresh (snd (Views.predict_manual w db req))
        /\ one_row_per_track (snd (Views.predict_manual w db req)))
  /\ (let imported :=
        snd (ImportDataset.handle Backend.nan_as_null Scenario.listed_twice
                                  1000 DB.empty) in
      keys_fresh DB.empty /\ one_row_per_track DB.empty
      /\ List.length (Models.filter_track_id Fixture.comedy_id imported) = 2%nat).
Proof.
  split; [ | split ].
  - intros w db data Hk Ho. unfold Views.predict_from_spotify.
    destruct (Views.resolve _ _ _) as [ [audio_data track_id | response] | e ];
      simpl; auto.
    destruct (Views.model_verdict _ _) as [ [model_hit model_confidence] | e ];
      simpl; auto.
    destruct (Views.persist _ _ _ _ _ _ _) as [r db'] eqn:Hp.
    assert (Hdb' : keys_fresh db' /\ one_row_per_track db').
    { unfold Views.persist in Hp.
      destruct (Views.store_song _ _ _ _) as [ [song | e] db1 ] eqn:Hs;
        pose proof (store_song_unique _ _ _ _ _ _ Hs Hk Ho) as H1;
        [ | inv Hp; assumption ].
      destruct (Models.Prediction_create _ _ _) as [[p|e] db2] eqn:Hc;
        apply prediction_create_song_table in Hc; destruct Hc as (Hc1 & Hc2);
        pose proof (unique_song_table _ _ Hc1 Hc2 H1) as H2;
        [ | inv Hp; assumption ].
      destruct (Models.PredictionAuditLog_create _ _ _) as [[a|e] db3] eqn:Ha;
        apply audit_create_song_table in Ha; destruct Ha as (Ha1 & Ha2);
        pose proof (unique_song_table _ _ Ha1 Ha2 H2) as H3;
        inv Hp; assumption. }
    destruct r; exact Hdb'.
  - intros w db req Hk Ho. unfold Views.predict_manual.
    destruct (Views.missing_fields _); [ | simpl; auto ].
    destruct (Views.validate _) as [ validated | e ];
      [ | destruct e; simpl; auto ].
    destruct (Py.bind _ _) as [ [is_hit confidence] | e ]; simpl; auto.
    destruct (Views.manual_persist _ _ _ _ _ _) as [r db'] eqn:Hp.
    assert (Hdb' : keys_fresh db' /\ one_row_per_track db').
    { unfold Views.manual_persist in Hp.
      destruct (Models.Song_create _ _ _) as [ [song | e] db1 ] eqn:Hs.
      - assert (H1 : keys_fresh db1 /\ one_row_per_track db1).
        { unfold Models.Song_create in Hs.
          eapply insert_song_unique; [ exact Hs | exact Hk | exact Ho | ].
          now left. }
        destruct (Models.Prediction_create _ _ _) as [[p|e] db2] eqn:Hc;
          apply prediction_create_song_table in Hc; destruct Hc as (Hc1 & Hc2);
          pose proof (unique_song_table _ _ Hc1 Hc2 H1) as H2;
          [ | inv Hp; assumption ].
        destruct (Models.PredictionAuditLog_create _ _ _) as [[a|e] db3] eqn:Ha;
          apply audit_create_song_table in Ha; destruct Ha as (Ha1 & Ha2);
          pose proof (unique_song_table _ _ Ha1 Ha2 H2) as H3;
          inv Hp; assumption.
      - unfold Models.Song_create, Models.insert_song in Hs.
        destruct (Backend.accepts_song _ _); inv Hs. inv Hp. auto. }
    destruct r; exact Hdb'.
  - split; [ | split ].
    + split; simpl; constructor.
    + intros tid. simpl. lia.
    + vm_compute. reflexivity.
Qed.

(** With two rows under the track id, the song write raises. *)
Lemma store_song_repeated :
  forall be tid audio_data db,
    truthy tid = true ->
    (2 <= List.length (Models.filter_track_id tid db))%nat ->
    Views.store_song be (Some tid) audio_data db
    = (Raise MultipleObjectsReturned, db).
Proof.
  intros be tid audio_data db Htruthy Htwice.
  unfold Views.store_song, Models.Song_get_or_create. rewrite Htruthy.
  destruct (Models.filter_track_id tid db) as [ | s [ | s' rest ] ];
    simpl in Htwice; try lia. reflexivity.
Qed.

(** X15.  Once a track id is stored twice, no request for that track is
    answered with 200 and none changes the database: when the features
    and the model's verdict are obtained, [get_or_create] raises
    [MultipleObjectsReturned] and the endpoint answers 500. *)
Theorem a_track_stored_twice_fails_every_request_for_it :
  forall (w : World.t) (db : DB.t) (data : SpotifyRequest.t) (input : string),
    Views.track_input data = Some input ->
    let track_id := SpotifyService.extract_track_id input in
    truthy track_id = true ->
    (2 <= List.length (Models.filter_track_id track_id db))%nat ->
    let run := Views.predict_from_spotify w db data in
    snd run = db
    /\ status (fst run) <> 200
    /\ (forall audio_data verdict,
          SpotifyService.get_audio_features (World.api w) db track_id
            = Ok audio_data ->
          Views.model_verdict (World.artifact w) audio_data = Ok verdict ->
          fst run = ServerError MultipleObjectsReturned
          /\ status (fst run) = 500).
Proof.
  intros w db data input Hinput track_id Htruthy Htwice run.
  subst run. unfold Views.predict_from_spotify, Views.resolve.
  rewrite Hinput. fold track_id.
  destruct (SpotifyService.get_audio_features (World.api w) db track_id)
    as [ audio_data | e ] eqn:Hfeatures; simpl.
  - destruct (Views.model_verdict (World.artifact w) audio_data)
      as [ [model_hit model_confidence] | e ] eqn:Hmodel; simpl.
    + unfold Views.persist.
      rewrite (store_song_repeated _ _ _ _ Htruthy Htwice). simpl.
      repeat split; try discriminate.
    + split; [ reflexivity | ].
      split; [ apply handle_exception_not_200 | ].
      intros audio_data' verdict H H'. inv H. congruence.
  - split; [ reflexivity | ].
    split; [ apply handle_exception_not_200 | ].
    intros audio_data' verdict H. discriminate.
Qed.

(** After the import of the file that lists "Comedy" twice, the request
    for "Comedy" fails. *)
Lemma a_track_stored_twice_witness :
  let db := snd (ImportDataset.handle Backend.nan_as_null
                   Scenario.listed_twice 1000 DB.empty) in
  let run := Views.predict_from_spotify
               (Fixture.world (Fixture.bare_classifier 0)) db Fixture.by_url in
  List.length (Models.filter_track_id Fixture.comedy_id db) = 2%nat
  /\ fst run = ServerError MultipleObjectsReturned
  /\ snd run = db.
Proof.
  intros db run.
  assert (Htwice : List.length (Models.filter_track_id Fixture.comedy_id db)
                   = 2%nat) by (vm_compute; reflexivity).
  destruct (a_track_stored_twice_fails_every_request_for_it
              (Fixture.world (Fixture.bare_classifier 0)) db Fixture.by_url
              "https://open.spotify.com/track/5SuOikwiRyPMVoIQDJUgSV?si=abc"
              eq_refl eq_refl)
    as (Hdb & _ & Hfails).
  - change (SpotifyService.extract_track_id
              "https://open.spotify.com/track/5SuOikwiRyPMVoIQDJUgSV?si=abc")
      with Fixture.comedy_id.
    rewrite Htwice. apply le_n.
  - split; [ exact Htwice | ]. split; [ | exact Hdb ].
    destruct (SpotifyService.get_audio_features
                (World.api (Fixture.world (Fixture.bare_classifier 0))) db
                (SpotifyService.extract_track_id
                   "https://open.spotify.com/track/5SuOikwiRyPMVoIQDJUgSV?si=abc"))
      as [ audio_data | e ] eqn:Hfeatures;
      [ | vm_compute in Hfeatures; discriminate ].
    destruct (Views.model_verdict
                (World.artifact (Fixture.world (Fixture.bare_classifier 0)))
                audio_data) as [ verdict | e ] eqn:Hmodel;
      [ | vm_compute in Hfeatures; inv Hfeatures;
          vm_compute in Hmodel; discriminate ].
    exact (proj1 (Hfails _ _ eq_refl Hmodel)).
Defined.

(* ================================================================= *)
(** ** Every stored song is a row of "the dataset" *)

(** A successful manual request put its song on top of the table. *)
Lemma predict_manual_ok :
  forall w db req body db',
    Views.predict_manual w db req = (PredictedManual body, db') ->
    exists validated,
      Views.validate (ManualRequest.data req) = Ok validated
      /\ ManualBody.features body = validated
      /\ DB.songs db'
         = Song.set_id (DB.next_song db)
             (Song.auto_calculate
                (Views.manual_song
                   (SpotifyService.default "Untitled Song" (ManualRequest.title req))
                   (SpotifyService.default "" (ManualRequest.artist req))
                   validated))
           :: DB.songs db.
Proof.
  intros w db req body db' H. unfold Views.predict_manual in H.
  destruct (Views.missing_fields _); [ | discriminate ].
  destruct (Views.validate _) as [ validated | e ];
    [ | destruct e; discriminate ].
  exists validated. split; [ reflexivity | ].
  destruct (Py.bind _ _) as [ [is_hit confidence] | e ]; [ | discriminate ].
  destruct (Views.manual_persist _ _ _ _ _ _) as [ [ response | e ] db1 ] eqn:Hp;
    [ | discriminate ].
  simpl in H. inv H.
  unfold Views.manual_persist, Models.Song_create, Models.insert_song,
    Models.Prediction_create, Models.PredictionAuditLog_create in Hp.
  repeat (break_match; try discriminate);
    repeat match goal with H : (_, _) = (_, _) |- _ => inv H end.
  simpl. split; reflexivity.
Qed.

(** X16.  A manual request that is answered with a prediction stores
    its song as the newest row, without popularity or label.  The dataset
    lookup then returns that row for its title (compared without case) and
    any artist string whose first name its artist contains, and reads it
    as popularity 0 and FLOP: the features the user typed and the label
    FLOP become the reference for later catalog requests under that
    title. *)
Theorem a_manual_song_becomes_the_reference_for_its_title :
  forall (w : World.t) (db : DB.t) (req : ManualRequest.t)
         (body : ManualBody.t) (db' : DB.t) (title' artist' : string),
    Views.predict_manual w db req = (PredictedManual body, db') ->
    let title := SpotifyService.default "Untitled Song" (ManualRequest.title req) in
    let artist := SpotifyService.default "" (ManualRequest.artist req) in
    Models.iexact (Some title) (strip title') = true ->
    Models.icontains (Some artist) (SpotifyService.artist_first artist') = true ->
    exists d,
      SpotifyService.get_audio_features_from_dataset db' title' artist' = Some d
      /\ DatasetFeatures.title d = Some title
      /\ DatasetFeatures.artist d = Some artist
      /\ DatasetFeatures.is_hit_in_dataset d = false
      /\ DatasetFeatures.popularity d = 0
      /\ DatasetFeatures.track_genre d = "unknown"
      /\ SpotifyService.features_of_dataset d
         = FeatureSet.mk
             (FeatureSet.duration_ms (ManualBody.features body))
             (FeatureSet.danceability (ManualBody.features body))
             (FeatureSet.energy (ManualBody.features body))
             (FeatureSet.valence (ManualBody.features body))
             (FeatureSet.acousticness (ManualBody.features body))
             (FeatureSet.instrumentalness (ManualBody.features body))
             (float_of_bool
                (PrimFloat.eqb (FeatureSet.explicit (ManualBody.features body)) 1))
             (FeatureSet.loudness (ManualBody.features body))
             (FeatureSet.tempo (ManualBody.features body))
             (FeatureSet.mode (ManualBody.features body)).
Proof.
  intros w db req body db' title' artist' Hrun title artist Htitle Hartist.
  destruct (predict_manual_ok _ _ _ _ _ Hrun) as (validated & _ & Hbody & Hsongs).
  fold title artist in Hsongs.
  unfold SpotifyService.get_audio_features_from_dataset, SpotifyService.find_song.
  rewrite Hsongs. cbn [filter].
  assert (Hexact : SpotifyService.exact_match (strip title')
                     (SpotifyService.artist_first artist')
                     (Song.set_id (DB.next_song db)
                        (Song.auto_calculate
                           (Views.manual_song title artist validated)))
                   = true).
  { unfold SpotifyService.exact_match. simpl Song.track_name. simpl Song.artists.
    now rewrite Htitle, Hartist. }
  rewrite Hexact. cbn [hd_error]. eexists. split; [ reflexivity | ].
  rewrite Hbody. simpl. repeat split.
Qed.

(** The dataset says HIT for "Comedy"; after a manual request under that
    title and artist the lookup says FLOP, and so does the next catalog
    request. *)
Lemma a_manual_song_witness :
  let world := Fixture.world (Fixture.bare_classifier 0) in
  let db' := snd (Views.predict_manual world Fixture.dataset_db
                    Scenario.manual_comedy) in
  option_map DatasetFeatures.is_hit_in_dataset
    (SpotifyService.get_audio_features_from_dataset Fixture.dataset_db
       "comedy" "gen hoshino") = Some true
  /\ option_map DatasetFeatures.is_hit_in_dataset
       (SpotifyService.get_audio_features_from_dataset db' "comedy" "gen hoshino")
     = Some false
  /\ option_map PredictionBody.dataset_label
       (body_of (fst (Views.predict_from_spotify world db' Fixture.by_url)))
     = Some (Some FLOP).
Proof.
  intros world db'.
  split; [ vm_compute; reflexivity | ].
  split; [ | vm_compute; reflexivity ].
  destruct (Views.predict_manual world Fixture.dataset_db Scenario.manual_comedy)
    as [ response db1 ] eqn:Hrun.
  destruct response as [ | body | | | | | | | ];
    try (vm_compute in Hrun; discriminate).
  destruct (a_manual_song_becomes_the_reference_for_its_title world
              Fixture.dataset_db Scenario.manual_comedy body db1
              "comedy" "gen hoshino" Hrun eq_refl eq_refl)
    as (d & Hlookup & _ & _ & Hlabel & _).
  subst db'. simpl snd. rewrite Hlookup. simpl. now rewrite Hlabel.
Defined.

Lemma substring_refl : forall s, substring s s.
Proof. intros s. exists "", "". simpl. now rewrite append_empty. Qed.

Lemma substring_trans :
  forall a b c, substring a b -> substring b c -> substring a c.
Proof.
  intros a b c (p & q & ->) (p' & q' & ->).
  exists (p' ++ p)%string, (q ++ q')%string.
  now rewrite !append_assoc.
Qed.

Lemma lstrip_substring : forall s, substring (lstrip s) s.
Proof.
  induction s as [ | c s IH ]; [ apply substring_refl | ].
  simpl. destruct (is_space c); [ | apply substring_refl ].
  destruct IH as (p & q & H). exists (String c p), q. simpl. now rewrite <- H.
Qed.

Lemma rstrip_prefix : forall s, exists q, s = (rstrip s ++ q)%string.
Proof.
  induction s as [ | c s IH ]; [ now exists "" | ].
  simpl. destruct IH as (q & H).
  destruct (rstrip s) as [ | x t ].
  - destruct (is_space c).
    + now exists (String c s).
    + exists s. reflexivity.
  - exists q. simpl in *. now rewrite <- H.
Qed.

Lemma strip_substring : forall s, substring (strip s) s.
Proof.
  intros s. unfold strip. apply (substring_trans _ (lstrip s)).
  - destruct (rstrip_prefix (lstrip s)) as (q & H). now exists "", q.
  - apply lstrip_substring.
Qed.

(** The first piece of a split is the beginning of the string. *)
Lemma split_go_first :
  forall sep s cur,
    exists p q, s = (p ++ q)%string
                /\ hd "" (split_go sep 0 cur s) = (cur ++ p)%string.
Proof.
  intros sep. induction s as [ | c s IH ]; intros cur.
  - exists "", "". simpl. now rewrite append_empty.
  - cbn [split_go]. destruct (startswith sep (String c s)).
    + exists "", (String c s). simpl. now rewrite append_empty.
    + destruct (IH (cur ++ String c "")%string) as (p & q & Hs & Hhd).
      exists (String c p), q. simpl. rewrite Hhd, append_assoc.
      split; [ now rewrite Hs | reflexivity ].
Qed.

Lemma artist_first_substring :
  forall artist, substring (SpotifyService.artist_first artist) artist.
Proof.
  intros artist. unfold SpotifyService.artist_first, first, split.
  apply (substring_trans _ (hd "" (split_go "," 0 "" (strip artist))));
    [ apply strip_substring | ].
  apply (substring_trans _ (strip artist)); [ | apply strip_substring ].
  destruct (split_go_first "," (strip artist) "") as (p & q & Hs & Hhd).
  rewrite Hhd. simpl. exists "", q. exact Hs.
Qed.

Lemma lower_app : forall a b, lower (a ++ b) = (lower a ++ lower b)%string.
Proof. induction a as [ | c a IH ]; simpl; intros b; congruence. Qed.

Lemma substring_icontains :
  forall v column, substring v column -> Models.icontains (Some column) v = true.
Proof.
  intros v column (p & q & ->). simpl. rewrite !lower_app. apply contains_app.
Qed.

(** A song is matched by the lookup under its own title and artists. *)
Lemma partial_match_self :
  forall title artist s,
    Song.track_name s = Some title -> Song.artists s = Some artist ->
    SpotifyService.partial_match (strip title)
      (SpotifyService.artist_first artist) s = true.
Proof.
  intros title artist s Ht Ha. unfold SpotifyService.partial_match.
  rewrite Ht, Ha.
  rewrite (substring_icontains _ _ (strip_substring title)).
  now rewrite (substring_icontains _ _ (artist_first_substring artist)).
Qed.

Lemma replace_song_other :
  forall row other l,
    In other l -> Song.id other <> Song.id row ->
    In other (Models.replace_song row l).
Proof.
  intros row other. induction l as [ | s l IH ]; simpl; intros Hin Hid;
    [ destruct Hin | ].
  destruct Hin as [ -> | Hin ].
  - destruct (Song.id other =? Song.id row) eqn:E;
      [ apply Z.eqb_eq in E; contradiction | now left ].
  - destruct (Song.id s =? Song.id row); right; now apply IH.
Qed.

(** The song a request wrote carries the resolved title and artists, and
    no other row was touched. *)
Lemma store_song_names :
  forall be track_id audio_data db song db1,
    Views.store_song be track_id audio_data db = (Ok song, db1) ->
    In song (DB.songs db1)
    /\ Song.track_name song = AudioData.title audio_data
    /\ Song.artists song = AudioData.artist audio_data
    /\ (forall other, In other (DB.songs db) ->
          In other (DB.songs db1) \/ Song.id other = Song.id song).
Proof.
  intros be track_id audio_data db song db1 H.
  assert (Hcreate : forall tid,
             Models.Song_create be (Views.new_song tid audio_data) db
               = (Ok song, db1) ->
             In song (DB.songs db1)
             /\ Song.track_name song = AudioData.title audio_data
             /\ Song.artists song = AudioData.artist audio_data
             /\ (forall other, In other (DB.songs db) ->
                   In other (DB.songs db1) \/ Song.id other = Song.id song)).
  { intros tid Hc. unfold Models.Song_create, Models.insert_song in Hc.
    destruct (Backend.accepts_song be _); inv Hc. simpl.
    repeat split; auto. }
  unfold Views.store_song in H.
  destruct track_id as [ tid | ]; [ | exact (Hcreate _ H) ].
  destruct (truthy tid); [ | exact (Hcreate _ H) ].
  unfold Models.Song_get_or_create in H.
  destruct (Models.filter_track_id tid db) as [ | old [ | s' rest ] ] eqn:Hfound.
  - destruct (Models.Song_create be _ db) as [ [ row | e ] db0 ] eqn:Hc;
      inv H. exact (Hcreate _ Hc).
  - assert (Hold : In old (DB.songs db)).
    { assert (Hin : In old (Models.filter_track_id tid db))
        by (rewrite Hfound; now left).
      unfold Models.filter_track_id in Hin. apply filter_In in Hin. tauto. }
    unfold Models.Song_save, Models.update_song in H.
    destruct (Backend.accepts_song be _); inv H. simpl.
    split; [ eapply replace_song_in; [ exact Hold | reflexivity ] | ].
    repeat split. intros other Hother.
    destruct (Z.eq_dec (Song.id other) (Song.id old)) as [ E | E ];
      [ now right | left ].
    apply replace_song_other; [ exact Hother | exact E ].
  - discriminate.
Qed.

Lemma partial_match_names :
  forall t a x y,
    Song.track_name x = Song.track_name y -> Song.artists x = Song.artists y ->
    SpotifyService.partial_match t a x = SpotifyService.partial_match t a y.
Proof.
  intros t a x y Hn Ha. unfold SpotifyService.partial_match. now rewrite Hn, Ha.
Qed.

(** X17.  After a catalog request that is answered with a prediction,
    resolving the same track against the new database finds a stored row
    under the track's title: the features come from the dataset, the
    audio-features endpoint is not asked, and the next request for the
    track is reconciled with a stored label. *)
Theorem a_predicted_track_is_in_the_dataset_afterwards :
  forall (w : World.t) (db : DB.t) (data : SpotifyRequest.t) (input : string)
         (body : PredictionBody.t) (db' : DB.t),
    Views.track_input data = Some input ->
    Views.predict_from_spotify w db data = (Predicted body, db') ->
    let track_id := SpotifyService.extract_track_id input in
    exists audio_data,
      SpotifyService.get_audio_features_traced (World.api w) db' track_id
        = ([SpotifyService.GetTrack track_id], Ok audio_data)
      /\ Views.in_dataset (AudioData.source audio_data) = true
      /\ exists song,
           In song (DB.songs db')
           /\ AudioData.title audio_data = Song.track_name song
           /\ AudioData.artist audio_data = Song.artists song.
Proof.
  intros w db data input body db' Hinput Hrun track_id.
  unfold Views.predict_from_spotify, Views.resolve in Hrun.
  rewrite Hinput in Hrun. fold track_id in Hrun.
  destruct (SpotifyService.get_audio_features (World.api w) db track_id)
    as [ audio_data | e ] eqn:Hfeatures;
    [ | simpl in Hrun; destruct e; discriminate ].
  simpl bind in Hrun. cbv iota in Hrun.
  destruct (Views.model_verdict (World.artifact w) audio_data)
    as [ [model_hit model_confidence] | e ];
    [ | simpl in Hrun; destruct e; discriminate ].
  destruct (Views.persist _ _ _ _ _ _ _) as [ [response | e] db2 ] eqn:Hp;
    [ | simpl in Hrun; destruct e; discriminate ].
  simpl in Hrun. inv Hrun.
  destruct (persist_ok _ _ _ _ _ _ _ _ _ Hp)
    as (song & db1 & p & Hstore & _ & _ & _).
  pose proof (persist_songs _ _ _ _ _ _ _ _ _ _ _ Hstore Hp) as Hsame.
  destruct (store_song_names _ _ _ _ _ _ Hstore)
    as (Hsong & Hname & Hartists & Hothers).
  unfold SpotifyService.get_audio_features,
    SpotifyService.get_audio_features_traced in Hfeatures.
  unfold SpotifyService.get_audio_features_traced.
  destruct (SpotifyService.get_track_info (World.api w) track_id)
    as [ track_info | e ]; [ | discriminate ].
  set (title := TrackInfo.title track_info) in *.
  set (artist := TrackInfo.artist track_info) in *.
  assert (Hmatch : exists row,
             In row (DB.songs db')
             /\ SpotifyService.partial_match (strip title)
                  (SpotifyService.artist_first artist) row = true).
  { rewrite Hsame.
    destruct (SpotifyService.get_audio_features_from_dataset db title artist)
      as [ d | ] eqn:Hlookup.
    - simpl in Hfeatures. inv Hfeatures.
      unfold SpotifyService.get_audio_features_from_dataset in Hlookup.
      destruct (SpotifyService.find_song db title artist) as [ found | ] eqn:Hfind;
        [ | discriminate ].
      inv Hlookup. simpl in Hname, Hartists.
      destruct (find_song_rule db title artist) as (Hsome & _).
      destruct (Hsome _ Hfind) as (Hin & Ha & Ht).
      assert (Hpartial : SpotifyService.partial_match (strip title)
                           (SpotifyService.artist_first artist) found = true).
      { unfold SpotifyService.partial_match. rewrite Ha.
        destruct Ht as [ Ht | (_ & Ht) ];
          [ rewrite (iexact_icontains _ _ Ht) | rewrite Ht ]; reflexivity. }
      destruct (Hothers _ Hin) as [ Hkept | _ ].
      + exists found. auto.
      + exists song. split; [ exact Hsong | ].
        now rewrite (partial_match_names _ _ song found Hname Hartists).
    - destruct (Catalog.audio_features (World.api w) track_id) as [ [ f | ] | e ];
        simpl in Hfeatures; try discriminate.
      inv Hfeatures. simpl in Hname, Hartists.
      exists song. split; [ exact Hsong | ].
      now apply partial_match_self. }
  destruct Hmatch as (row & Hrow & Hpartial).
  destruct (SpotifyService.find_song db' title artist) as [ found | ] eqn:Hfind.
  - unfold SpotifyService.get_audio_features_from_dataset. rewrite Hfind.
    eexists. split; [ reflexivity | ]. split; [ reflexivity | ].
    exists found. simpl.
    destruct (find_song_rule db' title artist) as (Hsome & _).
    destruct (Hsome _ Hfind) as (Hin & _). auto.
  - destruct (find_song_rule db' title artist) as (_ & _ & Hnone).
    rewrite (proj1 Hnone Hfind _ Hrow) in Hpartial. discriminate.
Qed.

(** An empty table and a catalog whose audio-features endpoint answers:
    the first request is not in the dataset, and afterwards the track
    is. *)
Lemma a_predicted_track_witness :
  let world := World.mk Fixture.open_catalog (Some (Fixture.bare_classifier 0))
                        Backend.permissive in
  let first := Views.predict_from_spotify world DB.empty Fixture.by_url in
  option_map PredictionBody.in_dataset (body_of (fst first)) = Some false
  /\ exists audio_data,
       SpotifyService.get_audio_features_traced Fixture.open_catalog (snd first)
           Fixture.comedy_id
         = ([SpotifyService.GetTrack Fixture.comedy_id], Ok audio_data)
       /\ Views.in_dataset (AudioData.source audio_data) = true.
Proof.
  intros world first.
  split; [ vm_compute; reflexivity | ].
  destruct (Views.predict_from_spotify world DB.empty Fixture.by_url)
    as [ response db1 ] eqn:Hrun.
  destruct response as [ body | | | | | | | | ];
    try (vm_compute in Hrun; discriminate).
  destruct (a_predicted_track_is_in_the_dataset_afterwards world DB.empty
              Fixture.by_url
              "https://open.spotify.com/track/5SuOikwiRyPMVoIQDJUgSV?si=abc"
              body db1 eq_refl Hrun)
    as (audio_data & Htraced & Hsource & _).
  exists audio_data. subst first. simpl snd. split; [ exact Htraced | exact Hsource ].
Defined.

(* ================================================================= *)
(** ** The caches *)

(** X18.  The model is read from its file at most once: after a
    successful load every later call uses the model held, whatever the
    file has become.  A failed load caches nothing, so the next call reads
    the file again.  The dataset frame is cached the same way, except that
    a failed read caches an empty frame, which is then returned for good. *)
Theorem a_loaded_model_is_kept_and_a_missing_one_is_retried :
  forall (file : option Classifier.t) (MODEL : option Classifier.t)
         (features : list float),
    (MODEL = None ->
     Cache.predict_song file MODEL features
     = (Inference.predict_song file features, file))
    /\ (forall model file',
          MODEL = Some model ->
          Cache.predict_song file' MODEL features
          = (Inference.predict_song (Some model) features, Some model))
    /\ (forall model,
          file = Some model -> MODEL = None ->
          forall file' features',
            Cache.predict_song file' (snd (Cache.predict_song file MODEL features))
                               features'
            = (Inference.predict_song (Some model) features', Some model))
    /\ (file = None -> MODEL = None ->
        Cache.predict_song file MODEL features = (Raise FileNotFoundError, None)
        /\ forall model features',
            Cache.predict_song (Some model)
              (snd (Cache.predict_song file MODEL features)) features'
            = (Inference.predict_song (Some model) features', Some model))
    /\ (forall read_csv cache df cache',
          Cache.get_dataset read_csv cache = (Ok df, cache') ->
          cache' = Some df
          /\ forall read_csv', Cache.get_dataset read_csv' cache' = (Ok df, cache'))
    /\ (forall read_csv' ,
          let first := Cache.get_dataset (Raise FileNotFoundError) None in
          fst first = Ok Cache.empty_frame
          /\ Cache.get_dataset read_csv' (snd first)
             = (Ok Cache.empty_frame, Some Cache.empty_frame)).
Proof.
  intros file MODEL features.
  assert (Hcached : forall model file' features',
             Cache.predict_song file' (Some model) features'
             = (Inference.predict_song (Some model) features', Some model))
    by reflexivity.
  split; [ | split; [ | split; [ | split; [ | split ] ] ] ].
  - intros ->. destruct file as [ model | ]; reflexivity.
  - intros model file' ->. apply Hcached.
  - intros model -> -> file' features'. apply Hcached.
  - intros -> ->. split; [ reflexivity | ]. intros model features'.
    reflexivity.
  - intros read_csv cache df cache' H. unfold Cache.get_dataset in H.
    destruct cache as [ cached | ].
    + inv H. split; reflexivity.
    + destruct read_csv as [ loaded | e ].
      * inv H. split; reflexivity.
      * destruct e; inv H. split; reflexivity.
  - intros read_csv'. split; reflexivity.
Qed.

(* ================================================================= *)
(** ** The range of the reconciled confidence *)

(** X19.  When the dataset label overrides the model, the confidence
    shown is at least 60 and has no upper bound (95 becomes 105); when
    they agree it is at most 95, so that a model confidence of 99 is
    lowered to 95.  A confidence that is not a number becomes 60 on
    disagreement. *)
Theorem reconciled_confidence_range :
  forall (genre : string) (reference model_hit : bool) (model_confidence : float),
    let v := Views.reconcile (dataset genre reference) model_hit model_confidence in
    (reference <> model_hit ->
     PrimFloat.leb 60 (Verdict.confidence v) = true
     /\ (Verdict.confidence v = 60%float
         \/ Verdict.confidence v = (model_confidence + 10)%float))
    /\ (reference = model_hit ->
        PrimFloat.leb (Verdict.confidence v) 95 = true
        /\ (Verdict.confidence v = 95%float
            \/ Verdict.confidence v = (model_confidence + 5)%float))
    /\ Verdict.confidence (Views.reconcile (dataset genre true) false 95)
       = 105%float
    /\ Verdict.confidence (Views.reconcile (dataset genre true) true 99)
       = 95%float
    /\ Verdict.confidence (Views.reconcile (dataset genre true) false nan)
       = 60%float.
Proof.
  intros genre reference model_hit c v.
  split; [ | split; [ | repeat split ] ].
  - intros Hneq. subst v. unfold Views.reconcile.
    replace (negb (Bool.eqb reference model_hit)) with true
      by (destruct reference, model_hit; simpl; congruence).
    simpl. unfold Py.max.
    destruct (PrimFloat.ltb 60 (c + 10)) eqn:E.
    + split; [ now apply ltb_leb | now right ].
    + split; [ reflexivity | now left ].
  - intros ->. subst v. unfold Views.reconcile.
    rewrite Bool.eqb_reflx. simpl. unfold Py.min.
    destruct (PrimFloat.ltb (c + 5) 95) eqn:E.
    + split; [ now apply ltb_leb | now right ].
    + split; [ reflexivity | now left ].
Qed.

(* ================================================================= *)
(** ** clear_database *)

(** X20.  [clear_database] is cancelled, and the database left as it
    is, exactly when [--confirm] is not given and the answer typed is not
    "yes" in some letter case; an answer with white space around it
    cancels.  Otherwise the three tables are emptied and the counts
    reported are those of the tables before the deletion. *)
Theorem clear_database_deletes_only_when_confirmed :
  forall (confirm : bool) (answer : string) (db : DB.t),
    let run := ClearDatabase.handle confirm answer db in
    (confirm = false -> lower answer <> "yes" ->
     run = (ClearDatabase.Cancelled, db))
    /\ (confirm = true \/ lower answer = "yes" ->
        run = (ClearDatabase.Cleared
                 (Z.of_nat (List.length (DB.songs db)))
                 (Z.of_nat (List.length (DB.predictions db)))
                 (Z.of_nat (List.length (DB.audit_logs db))),
               emptied db))
    /\ (fst run = ClearDatabase.Cancelled <->
        confirm = false /\ lower answer <> "yes")
    /\ fst (ClearDatabase.handle false "YES" db) <> ClearDatabase.Cancelled
    /\ ClearDatabase.handle false "y" db = (ClearDatabase.Cancelled, db)
    /\ ClearDatabase.handle false "yes " db = (ClearDatabase.Cancelled, db).
Proof.
  intros confirm answer db run. subst run. unfold ClearDatabase.handle.
  rewrite delete_everything. fold (emptied db). unfold QuerySet.count.
  destruct (String.eqb (lower answer) "yes") eqn:E;
    [ apply String.eqb_eq in E | apply String.eqb_neq in E ];
    destruct confirm; simpl;
    repeat split; try congruence; try discriminate; try tauto;
    try (intros [ H | H ]; congruence);
    try (intros (H1 & H2); congruence).
Qed.

(* ================================================================= *)
(** ** The first-listed artist *)

Lemma rstrip_keeps :
  forall c s, is_space c = false -> rstrip (String c s) = String c (rstrip s).
Proof. intros c s H. simpl. rewrite H. destruct (rstrip s); reflexivity. Qed.

Lemma rstrip_app_kept :
  forall a b, rstrip b <> "" -> rstrip (a ++ b) = (a ++ rstrip b)%string.
Proof.
  induction a as [ | c a IH ]; simpl; intros b H; [ reflexivity | ].
  rewrite (IH _ H). destruct (a ++ rstrip b)%string eqn:E; [ | reflexivity ].
  destruct a; simpl in E; [ contradiction | discriminate ].
Qed.

Lemma lstrip_fixed :
  forall s, strip s = s -> lstrip s = s.
Proof.
  intros [ | c s ] H; [ reflexivity | ]. simpl.
  destruct (is_space c) eqn:Hc; [ | reflexivity ].
  exfalso. unfold strip in H. simpl in H. rewrite Hc in H.
  assert (Hlen : forall t, (String.length (lstrip t) <= String.length t)%nat).
  { induction t as [ | x t IH ]; simpl; [ lia | ].
    destruct (is_space x); simpl; lia. }
  assert (Hlen' : forall t, (String.length (rstrip t) <= String.length t)%nat).
  { induction t as [ | x t IH ]; simpl; [ lia | ].
    destruct (rstrip t); [ destruct (is_space x) | ]; simpl in *; lia. }
  apply (f_equal String.length) in H. simpl in H.
  pose proof (Hlen' (lstrip s)). pose proof (Hlen s). lia.
Qed.

Lemma lstrip_app :
  forall a b, a <> "" -> lstrip a = a -> lstrip (a ++ b) = (a ++ b)%string.
Proof.
  intros [ | c a ] b Hne H; [ contradiction | ]. simpl in *.
  destruct (is_space c); [ | reflexivity ].
  exfalso.
  assert (Hlen : forall t, (String.length (lstrip t) <= String.length t)%nat).
  { induction t as [ | x t IH ]; simpl; [ lia | ].
    destruct (is_space x); simpl; lia. }
  apply (f_equal String.length) in H. simpl in H. pose proof (Hlen a). lia.
Qed.

(** What stands before the first comma of the joined names is the first
    name, when that has no comma and no white space around it. *)
Lemma artist_first_of_join :
  forall (name : string) (others : list string),
    strip name = name ->
    occurs "," name = false ->
    SpotifyService.artist_first (join ", " (name :: others)) = name.
Proof.
  intros name others Hstrip Hcomma.
  unfold SpotifyService.artist_first, first, split.
  destruct others as [ | other others ].
  - simpl join. rewrite Hstrip.
    rewrite (split_go_absent "," "," name "" Hcomma eq_refl). simpl. exact Hstrip.
  - change (join ", " (name :: other :: others))
      with (name ++ String "," (String " " (join ", " (other :: others))))%string.
    set (rest := join ", " (other :: others)).
    assert (Hwhole : strip (name ++ String "," (String " " rest))
                     = (name ++ String "," (rstrip (String " " rest)))%string).
    { unfold strip.
      assert (Hl : lstrip (name ++ String "," (String " " rest))
                   = (name ++ String "," (String " " rest))%string).
      { destruct name as [ | c name ]; [ reflexivity | ].
        apply lstrip_app; [ discriminate | now apply lstrip_fixed ]. }
      rewrite Hl. rewrite rstrip_app_kept.
      - now rewrite rstrip_keeps.
      - rewrite rstrip_keeps by reflexivity. discriminate. }
    rewrite Hwhole. rewrite (split_go_char "," name _ "" Hcomma). simpl.
    exact Hstrip.
Qed.

(** X2.  [get_track_info] joins the names of a track's artists with
    [", "], and the dataset lookup takes what stands before the first
    comma of that string.  This is the first listed artist when the name
    has no comma and no white space around it; an artist whose name has a
    comma is cut at it ("Tyler, The Creator" becomes "Tyler"). *)
Theorem first_listed_artist_is_recovered_unless_its_name_has_a_comma :
  forall (api : Catalog.t) (track_id : string) (track : Catalog.Track)
         (name : string) (others : list string),
    Catalog.track api track_id = Ok track ->
    Catalog.artists track = name :: others ->
    strip name = name ->
    occurs "," name = false ->
    (exists info,
        SpotifyService.get_track_info api track_id = Ok info
        /\ TrackInfo.artist info = join ", " (name :: others)
        /\ SpotifyService.artist_first (TrackInfo.artist info) = name)
    /\ SpotifyService.artist_first (join ", " ["Tyler, The Creator"; "Guest"])
       = "Tyler".
Proof.
  intros api track_id track name others Htrack Hartists Hstrip Hcomma.
  split; [ | reflexivity ].
  unfold SpotifyService.get_track_info. rewrite Htrack. simpl.
  eexists. split; [ reflexivity | ]. simpl TrackInfo.artist. rewrite Hartists.
  split; [ reflexivity | ]. now apply artist_first_of_join.
Qed.

(** The track of the running example has one artist. *)
Lemma first_listed_artist_witness :
  exists info,
    SpotifyService.get_track_info Fixture.catalog Fixture.comedy_id = Ok info
    /\ TrackInfo.artist info = "Gen Hoshino"
    /\ SpotifyService.artist_first (TrackInfo.artist info) = "Gen Hoshino".
Proof.
  exact (proj1 (first_listed_artist_is_recovered_unless_its_name_has_a_comma
                  Fixture.catalog Fixture.comedy_id Fixture.comedy_track
                  "Gen Hoshino" [] eq_refl eq_refl eq_refl eq_refl)).
Defined.

(* ================================================================= *)
(** ** C3: resolution by catalog identifier *)



(** The three outcomes on the running example: the dataset row is found;
    no row and an endpoint that answers; no row and an endpoint that
    refuses. *)
Example resolution_examples :
  (exists audio_data,
      SpotifyService.get_audio_features_traced Fixture.catalog Fixture.dataset_db
          Fixture.comedy_id
        = ([SpotifyService.GetTrack Fixture.comedy_id], Ok audio_data)
      /\ AudioData.source audio_data = dataset "acoustic" true)
  /\ (exists audio_data,
        SpotifyService.get_audio_features_traced Fixture.open_catalog DB.empty
            Fixture.comedy_id
          = ([SpotifyService.GetTrack Fixture.comedy_id;
              SpotifyService.GetAudioFeatures Fixture.comedy_id], Ok audio_data)
        /\ AudioData.source audio_data = spotify_api)
  /\ SpotifyService.get_audio_features Fixture.catalog DB.empty Fixture.comedy_id
     = Raise (ValueError (FeaturesUnavailable "Comedy" "Gen Hoshino"))
  /\ SpotifyService.artist_first " Gen Hoshino , Someone Else" = "Gen Hoshino"
  /\ Models.iexact (Some "COMEDY") "comedy" = true
  /\ Models.icontains (Some "Gen Hoshino, Someone Else") "gen hoshino" = true.
Proof.
  split; [ | split; [ | split; [ | split; [ | split ] ] ] ];
    try (vm_compute; reflexivity);
    eexists; split; vm_compute; reflexivity.
Qed.
